(** * Trip duty-cycle scheduler: stop planner, ELD log builder, HOS checker

    A shallow embedding of the Python sources

      - utils/constants.py, utils/helpers.py, utils/data_classes.py
      - services/route_service.py, services/eld_service.py,
        services/hos_calculator.py
      - api/views.py

    followed by the properties of the specification that concern them.

    Modelling conventions.

    - Python [float] values (miles, hours) are exact rationals [Q]; every
      comparison and arithmetic operation is the exact one.  Equalities
      between computed hours are therefore stated with [==] on [Q].
      The one exception is [format_duration], which truncates products
      and so prints what their rounding decides: there every float
      operation rounds to the nearest binary64 value ([Float64]).
    - [int] values ([cycle_used]) are [Z]; the values of a request payload
      are the values that the request parsers produce ([Views.PyValue]).
    - A naive [datetime] is the number of microseconds since an epoch that
      falls on a midnight, a [date] the number of whole days since that
      epoch; [timedelta(hours=h)] rounds [h] hours to whole microseconds,
      ties to even, as CPython does.
    - [str] values are [string]; f-string number formats are spelled out.
    - [while] loops run on fuel computed from the loop's data; running out
      of fuel is a separate outcome, and the loops are shown never to
      reach it.
    - The clock ([datetime.now()]) and the two HTTP collaborators are
      operations of an abstract world threaded through a state monad. *)

From Stdlib Require Import ZArith QArith Qround Qabs Qpower Lqa List String Ascii Lia Bool.
From Stdlib Require Import DecimalString FinFun.
Import ListNotations.

Local Open Scope string_scope.
Local Open Scope list_scope.
Local Open Scope Z_scope.

(** ** Python numerics *)

Module Py.

(** [x < y] and [x <= y] on rationals, as booleans. *)
Definition Qltb (x y : Q) : bool :=
  (Qnum x * QDen y <? Qnum y * QDen x)%Z.

Definition Qleb (x y : Q) : bool := Qle_bool x y.

(** The builtin [min(a, b)]: the first argument unless the second is
    strictly smaller. *)
Definition min (a b : Q) : Q := if Qltb b a then b else a.

(** Rounding to the nearest integer, ties to the even neighbour. *)
Definition round_half_even (x : Q) : Z :=
  let f := Qfloor x in
  let d := (x - inject_Z f)%Q in
  if Qltb d (1 # 2) then f
  else if Qltb (1 # 2) d then f + 1
  else if Z.even f then f else f + 1.

Definition str_of_Z (z : Z) : string := NilZero.string_of_int (Z.to_int z).

Definition sign_prefix (x : Q) : string := if Qltb x 0 then "-" else "".

(** [f"{x:.0f}"] *)
Definition format_f0 (x : Q) : string :=
  sign_prefix x ++ str_of_Z (round_half_even (Qabs x)).

(** [f"{x:.1f}"] *)
Definition format_f1 (x : Q) : string :=
  let n := round_half_even (Qabs x * 10) in
  sign_prefix x ++ str_of_Z (n / 10) ++ "." ++ str_of_Z (n mod 10).

(** [int(x)] on a float: truncation towards zero. *)
Definition int (x : Q) : Z := if Qltb x 0 then Qceiling x else Qfloor x.

(** [s.endswith(suf)], by scanning the tails of [s]. *)
Fixpoint ends_with (suf s : string) : bool :=
  if String.eqb s suf then true
  else match s with
       | EmptyString => false
       | String _ s' => ends_with suf s'
       end.

(** Sum of a list of hours, left to right from [0] like [sum(...)]. *)
Definition sum (l : list Q) : Q := fold_left Qplus l 0%Q.

End Py.

(** ** IEEE 754 binary64 arithmetic *)

Module Float64.

(** [2^e] for an integer [e]. *)
Definition pow2 (e : Z) : Q := Qpower 2 e.
(** The binade of [x]: [floor (log2 |x|)], for [x] other than 0. *)
Definition exponent (x : Q) : Z :=
  let e := Z.log2 (Z.abs (Qnum x)) - Z.log2 (QDen x) in
  if Py.Qltb (Qabs x) (pow2 e) then e - 1 else e.
(** The distance between neighbouring doubles at [x]: [2^(e - 52)] in the
    binade [e] of a normal number, [2^-1074] below [2^-1022]. *)
Definition ulp (x : Q) : Q := pow2 (Z.max (exponent x) (-1022) - 52).
(** The result of a float operation whose exact value is [x]: the
    nearest double, ties to the even significand.  The exponent is not
    bounded above here; see [overflows]. *)
Definition round (x : Q) : Q := (inject_Z (Py.round_half_even (x / ulp x)) * ulp x)%Q.
(** A rounded value of this magnitude is returned as an infinity. *)
Definition overflows (x : Q) : bool := Py.Qleb (pow2 1024) (Qabs x).
(** C's [fmod(x, y)] for [y] other than 0: the remainder of the division
    truncated towards zero, which is exact. *)
Definition fmod (x y : Q) : Q := (x - y * inject_Z (Py.int (x / y)))%Q.
(** [vx % wx] on floats, for [wx] other than 0: [fmod], moved by [wx]
    when its sign differs from the sign of [wx] ([float_rem]). *)
Definition float_mod (vx wx : Q) : Q :=
  let rem := fmod vx wx in
  if negb (Qeq_bool rem 0) && negb (Bool.eqb (Py.Qltb wx 0) (Py.Qltb rem 0))
  then round (rem + wx) else rem.
(** [vx // wx] on floats, for [wx] other than 0 ([_float_div_mod]): the
    quotient of [vx - fmod(vx, wx)] by [wx], corrected like the
    remainder and snapped to the nearest whole number. *)
Definition float_floordiv (vx wx : Q) : Q :=
  let rem := fmod vx wx in
  let div := round (round (vx - rem) / wx) in
  let div :=
    if negb (Qeq_bool rem 0) && negb (Bool.eqb (Py.Qltb wx 0) (Py.Qltb rem 0))
    then round (div - 1) else div in
  if Qeq_bool div 0 then 0%Q
  else
    let floordiv := inject_Z (Qfloor div) in
    if Py.Qltb (1 # 2) (round (div - floordiv)) then round (floordiv + 1) else floordiv.
End Float64.

(** ** [datetime], [date] and [timedelta] *)

Module Datetime.

Definition datetime := Z.
Definition date := Z.

Definition US_PER_HOUR : Z := 3600000000.
Definition US_PER_DAY : Z := 86400000000.

(** [timedelta(hours=h)], in microseconds. *)
Definition timedelta_hours (h : Q) : Z :=
  Py.round_half_even (h * inject_Z US_PER_HOUR).

(** [timedelta(days=d)] for an integer [d]. *)
Definition timedelta_days (d : Z) : Z := d * US_PER_DAY.

(** [t.date()] *)
Definition date_of (t : datetime) : date := t / US_PER_DAY.

(** [datetime.combine(d, datetime.max.time())], that is 23:59:59.999999. *)
Definition combine_max (d : date) : datetime := d * US_PER_DAY + (US_PER_DAY - 1).

(** [datetime.combine(d, datetime.min.time())], that is 00:00:00. *)
Definition combine_min (d : date) : datetime := d * US_PER_DAY.

(** [delta.total_seconds() / 3600] *)
Definition total_hours (delta : Z) : Q := (inject_Z delta / inject_Z US_PER_HOUR)%Q.

End Datetime.

(** ** Outcomes, exceptions and the world monad *)

Inductive ExnKind : Type :=
| ValueError | TypeError | OverflowError | IndexError | Exception.

(** A raised exception: its class and [str(e)]. *)
Record PyExn : Type := mkExn { exn_kind : ExnKind; exn_msg : string }.

Inductive Outcome (A : Type) : Type :=
| Ok (a : A)
| Raise (e : PyExn)
| OutOfFuel.

Arguments Ok {A} a.
Arguments Raise {A} e.
Arguments OutOfFuel {A}.

(** A bounded [while]: [None] when the fuel is used up before the
    condition turns false. *)
Section While.
Context {St : Type}.
Variable cond : St -> bool.
Variable body : St -> St.

Fixpoint while (fuel : nat) (s : St) : option St :=
    match fuel with
    | O => None
    | S fuel' => if cond s then while fuel' (body s) else Some s
    end.
End While.

Definition M (World A : Type) : Type := World -> Outcome A * World.

Definition ret {World A} (a : A) : M World A := fun w => (Ok a, w).

Definition bind {World A B} (m : M World A) (k : A -> M World B) : M World B :=
  fun w => match m w with
           | (Ok a, w') => k a w'
           | (Raise e, w') => (Raise e, w')
           | (OutOfFuel, w') => (OutOfFuel, w')
           end.

Definition raise {World A} (e : PyExn) : M World A := fun w => (Raise e, w).

(** A loop result enters the monad; used-up fuel is kept apart from
    Python exceptions. *)
Definition of_option {World A} (o : option A) : M World A :=
  fun w => match o with Some a => (Ok a, w) | None => (OutOfFuel, w) end.

(** [try: m  except Exception as e: h e] *)
Definition try_except {World A} (m : M World A) (h : PyExn -> M World A) : M World A :=
  fun w => match m w with
           | (Raise e, w') => h e w'
           | r => r
           end.

Notation "x <- m ;; k" := (bind m (fun x => k))
  (at level 61, m at next level, right associativity).

(** ** utils/constants.py *)

Module HOS_LIMITS.
Definition DAILY_DRIVE_LIMIT : Z := 11.
Definition DAILY_DUTY_LIMIT : Z := 14.
Definition WEEKLY_LIMIT : Z := 70.
Definition CYCLE_DAYS : Z := 8.
Definition MANDATORY_REST : Z := 10.
Definition BREAK_AFTER_HOURS : Z := 8.
Definition BREAK_DURATION : Q := 5 # 10.
End HOS_LIMITS.

Module DUTY_STATUS.
Definition DRIVING : string := "driving".
Definition ON_DUTY : string := "on_duty".
Definition SLEEPER : string := "sleeper".
Definition OFF_DUTY : string := "off_duty".
End DUTY_STATUS.

Module ROUTE_CONSTANTS.
Definition FUEL_STOP_INTERVAL : Z := 1000.
Definition AVERAGE_SPEED : Z := 55.
Definition PICKUP_DURATION : Q := 1.
Definition DROPOFF_DURATION : Q := 1.
Definition FUEL_STOP_DURATION : Q := 5 # 10.
End ROUTE_CONSTANTS.

Module ERROR_MESSAGES.
Definition INVALID_LOCATION : string := "Invalid location provided".
Definition ROUTE_NOT_FOUND : string := "Route could not be calculated".
Definition HOS_VIOLATION : string := "Hours of Service violation detected".
Definition API_ERROR : string := "External API error".
Definition CYCLE_EXCEEDED : string := "Weekly cycle limit exceeded".
End ERROR_MESSAGES.

(** ** utils/data_classes.py *)

Import Datetime.

Module TripRequest.
Record t : Type := mk {
    current_location : string;
    pickup_location : string;
    dropoff_location : string;
    cycle_used : Z
  }.

(** [ValueError("Cycle used must be between 0 and 70 hours")] *)
Definition cycle_error : PyExn :=
  mkExn ValueError "Cycle used must be between 0 and 70 hours".

(** The constructor followed by [__post_init__]. *)
Definition new (current_location pickup_location dropoff_location : string)
      (cycle_used : Z) : Outcome t :=
    if negb ((0 <=? cycle_used) && (cycle_used <=? 70))
    then Raise cycle_error
    else Ok (mk current_location pickup_location dropoff_location cycle_used).
End TripRequest.

Module Location.
Record t : Type := mk {
    address : string;
    latitude : Q;
    longitude : Q
  }.

(** [[longitude, latitude]] *)
Definition to_coords (self : t) : Q * Q := (longitude self, latitude self).
End Location.

Module Stop.
Record t : Type := mk {
    type : string;
    location : Location.t;
    time : datetime;
    duration : Q;
    description : string
  }.
End Stop.

Module RouteData.
(** A coordinate is the pair [[longitude, latitude]]. *)
Record t : Type := mk {
    distance : Q;
    duration : Q;
    coordinates : list (Q * Q)
  }.
End RouteData.

Module ELDEntry.
Record t : Type := mk {
    status : string;
    start_time : datetime;
    end_time : datetime;
    location : string;
    duration : Q
  }.
End ELDEntry.

Module DailyLog.
Record t : Type := mk {
    date : Datetime.date;
    entries : list ELDEntry.t;
    total_drive_time : Q;
    total_duty_time : Q
  }.

(** [DailyLog(date=d)] with the field defaults. *)
Definition new (d : Datetime.date) : t := mk d [] 0%Q 0%Q.

Definition add_entry (self : t) (entry : ELDEntry.t) : t :=
    let entries' := entries self ++ [entry] in
    let drive' :=
      if String.eqb (ELDEntry.status entry) "driving"
      then (total_drive_time self + ELDEntry.duration entry)%Q
      else total_drive_time self in
    let duty' :=
      if existsb (String.eqb (ELDEntry.status entry)) ["driving"; "on_duty"]
      then (total_duty_time self + ELDEntry.duration entry)%Q
      else total_duty_time self in
    mk (date self) entries' drive' duty'.
End DailyLog.

Module HOSStatus.
Record t : Type := mk {
    cycle_used : Z;
    remaining_hours : Z;
    drive_time_today : Q;
    duty_time_today : Q;
    next_reset : datetime;
    violations : list string
  }.
End HOSStatus.

(** The dict returned by [RouteService.calculate_route]. *)
Module RouteResult.
Record t : Type := mk {
    route : RouteData.t;
    stops : list Stop.t;
    fuel_stops : list Stop.t
  }.
End RouteResult.

Module RouteResponse.
Record t : Type := mk {
    route : RouteData.t;
    stops : list Stop.t;
    fuel_stops : list Stop.t;
    eld_logs : list DailyLog.t;
    hos_status : HOSStatus.t
  }.
End RouteResponse.

(** ** utils/helpers.py *)

Module Helpers.

(** Loop state of [calculate_fuel_stops]: [(fuel_stops, current_mile)]. *)
Definition fuel_cond (route_distance : Q) (s : list Q * Q) : bool :=
    Py.Qltb (snd s) route_distance.

Definition fuel_body (route_distance : Q) (s : list Q * Q) : list Q * Q :=
    let current_mile := (snd s + 1000)%Q in
    if Py.Qltb current_mile route_distance
    then (fst s ++ [current_mile], current_mile)
    else (fst s, current_mile).

(** Iterations the loop can take from [start_mile]. *)
Definition fuel_budget (route_distance start_mile : Q) : nat :=
    S (Z.to_nat (Qceiling ((route_distance - start_mile) / 1000))).

Definition calculate_fuel_stops (route_distance : Q) (start_mile : Q) : option (list Q) :=
    option_map fst
      (while (fuel_cond route_distance) (fuel_body route_distance)
             (fuel_budget route_distance start_mile) ([], start_mile)).

(** [coordinates[index]] is reached only with [0 <= index < len], see
      [interpolate_index_in_range]; the [nth] default is never returned. *)
Definition interpolate_route_position (coordinates : list (Q * Q))
      (mile_marker total_distance : Q) : Q * Q :=
    if (match coordinates with [] => true | _ => false end)
       || Py.Qleb mile_marker 0
    then match coordinates with [] => (0%Q, 0%Q) | c :: _ => c end
    else if Py.Qleb total_distance mile_marker
    then last coordinates (0%Q, 0%Q)
    else
      let position_ratio := (mile_marker / total_distance)%Q in
      let index := Py.int (position_ratio * inject_Z (Z.of_nat (List.length coordinates) - 1)) in
      if Z.of_nat (List.length coordinates) <=? index
      then last coordinates (0%Q, 0%Q)
      else nth (Z.to_nat index) coordinates (0%Q, 0%Q).


(** [format_duration] on a finite float.  The products are rounded to
    binary64 before [int] truncates them; a product that overflows is an
    infinity, on which [int] raises [OverflowError]. *)
Definition format_duration (hours : Q) : Outcome string :=
  if Py.Qltb hours 1 then
    let product := Float64.round (hours * 60) in
    if Float64.overflows product
    then Raise (mkExn OverflowError "cannot convert float infinity to integer")
    else
      let minutes := Py.int product in
      Ok (Py.str_of_Z minutes ++ " minutes")%string
  else if Py.Qltb hours 24 then
    let hours_int := Py.int hours in
    let minutes :=
      Py.int (Float64.round (Float64.round (hours - inject_Z hours_int) * 60)) in
    if minutes =? 0 then Ok (Py.str_of_Z hours_int ++ " hours")%string
    else Ok (Py.str_of_Z hours_int ++ " hours " ++ Py.str_of_Z minutes
             ++ " minutes")%string
  else
    let days := Py.int (Float64.float_floordiv hours 24) in
    let remaining_hours := Py.int (Float64.float_mod hours 24) in
    Ok (Py.str_of_Z days ++ " days " ++ Py.str_of_Z remaining_hours ++ " hours")%string.

Definition validate_coordinates (lat lon : Q) : bool :=
  (Py.Qleb (-90) lat && Py.Qleb lat 90) && (Py.Qleb (-180) lon && Py.Qleb lon 180).

(** [dt.replace(minute=0, second=0, microsecond=0) + timedelta(hours=1)] *)
Definition time_to_next_hour (dt : datetime) : datetime :=
  dt / US_PER_HOUR * US_PER_HOUR + timedelta_hours 1.

Definition calculate_arrival_time (start_time : datetime) (duration_hours : Q) : datetime :=
  start_time + timedelta_hours duration_hours.

Definition is_within_driving_hours (current_time start_time : datetime) (max_hours : Q)
    : bool :=
  let elapsed := total_hours (current_time - start_time) in
  Py.Qleb elapsed max_hours.

(** [round(x, 6)] *)
Definition round6 (x : Q) : Q :=
  (inject_Z (Py.round_half_even (x * 1000000)) / 1000000)%Q.

Definition format_coordinates (coordinates : list (Q * Q)) : list (Q * Q) :=
  map (fun coord => (round6 (fst coord), round6 (snd coord))) coordinates.

(** [l[::step]] for a positive [step]: the elements at the indexes
    0, step, 2 * step, ...; [skip] counts down to the next index kept. *)
Fixpoint every_nth {A : Type} (step skip : nat) (l : list A) : list A :=
  match l with
  | [] => []
  | a :: l' =>
      match skip with
      | O => a :: every_nth step (Nat.pred step) l'
      | S skip' => every_nth step skip' l'
      end
  end.

(** What [chunk_coordinates] does: it returns a list, or the integer
    division raises [ZeroDivisionError], or the slice raises
    [ValueError] for a zero step. *)
Inductive Chunked : Type :=
| Chunk (coordinates : list (Q * Q))
| ZeroDivisionError
| SliceStepZero.

(** [chunk_coordinates]; a negative step slices from the last element
    backwards. *)
Definition chunk_coordinates (coordinates : list (Q * Q)) (max_points : Z) : Chunked :=
  if Z.of_nat (List.length coordinates) <=? max_points then Chunk coordinates
  else if max_points =? 0 then ZeroDivisionError
  else
    let step := Z.of_nat (List.length coordinates) / max_points in
    if step =? 0 then SliceStepZero
    else if 0 <? step
    then Chunk (every_nth (Z.to_nat step) 0 coordinates)
    else Chunk (every_nth (Z.to_nat (- step)) 0 (rev coordinates)).

End Helpers.

(** ** The outside world

    [datetime_now] is [datetime.now()].  [nominatim_search address] is the
    Nominatim lookup made by [geocode_location]: the first result as a
    [Location], or [None] when the request, its status code or the parsing
    of the answer fails.  [openroute_directions coordinates] is the
    OpenRouteService request made by [_call_openroute_api] together with
    the reading of [routes[0]['summary']]: the pair (distance in metres,
    duration in seconds), or [None] when the request or that reading
    fails.  [int_of_str s] is the built-in [int(s)] on a [str]: the
    integer that the text denotes, or [str(e)] of the [ValueError] that
    the conversion raises; it reads no state. *)

Record Env (World : Type) : Type := mkEnv {
  datetime_now : World -> datetime * World;
  nominatim_search : string -> World -> option Location.t * World;
  openroute_directions : list (Q * Q) -> World -> option (Q * Q) * World;
  int_of_str : string -> Z + string
}.

Arguments datetime_now {World} _ _.
Arguments nominatim_search {World} _ _ _.
Arguments openroute_directions {World} _ _ _.
Arguments int_of_str {World} _ _.

Definition now {World} (env : Env World) : M World datetime :=
  fun w => let (t, w') := datetime_now env w in (Ok t, w').

Fixpoint mapM {World A B} (f : A -> M World B) (l : list A) : M World (list B) :=
  match l with
  | [] => ret []
  | a :: l' => b <- f a ;; bs <- mapM f l' ;; ret (b :: bs)
  end.

(** ** services/route_service.py *)

Module RouteService.

(** Loop state of [_calculate_rest_stops]. *)
Record rest_state : Type := mkRest {
  stops : list Stop.t;
  current_time : datetime;
  distance_traveled : Q;
  driving_time : Q;
  remaining_distance : Q
}.

Definition rest_cond (s : rest_state) : bool := Py.Qltb 0 (remaining_distance s).

Definition rest_body (route_data : RouteData.t) (s : rest_state) : rest_state :=
  let max_drive_distance := inject_Z (ROUTE_CONSTANTS.AVERAGE_SPEED * 11) in
  let drive_distance := Py.min max_drive_distance (remaining_distance s) in
  let drive_time := (drive_distance / inject_Z ROUTE_CONSTANTS.AVERAGE_SPEED)%Q in
  let distance_traveled' := (distance_traveled s + drive_distance)%Q in
  let driving_time' := (driving_time s + drive_time)%Q in
  let current_time' := current_time s + timedelta_hours drive_time in
  if Py.Qltb distance_traveled' (RouteData.distance route_data)
  then
    let rest_coords :=
      Helpers.interpolate_route_position (RouteData.coordinates route_data)
        distance_traveled' (RouteData.distance route_data) in
    mkRest
      (stops s ++
       [Stop.mk "rest" (Location.mk "Rest Area" (snd rest_coords) (fst rest_coords))
                current_time' 10 "Mandatory 10-hour rest period"])
      (current_time' + timedelta_hours 10)
      distance_traveled' driving_time'
      (remaining_distance s - drive_distance)%Q
  else
    mkRest (stops s) current_time' distance_traveled' driving_time'
           (remaining_distance s - drive_distance)%Q.

(** The loop drives at most 605 miles per round. *)
Definition rest_budget (distance : Q) : nat :=
  S (Z.to_nat (Qceiling (distance / 605))).

Section WithWorld.
Context {World : Type} (env : Env World).

Definition geocode_location (address : string) : M World Location.t :=
  fun w => match nominatim_search env address w with
           | (Some loc, w') => (Ok loc, w')
           | (None, w') =>
               (Raise (mkExn Exception ("Could not geocode location: " ++ address)), w')
           end.

Definition _call_openroute_api (coordinates : list (Q * Q)) : M World (Q * Q) :=
  fun w => match openroute_directions env coordinates w with
           | (Some summary, w') => (Ok summary, w')
           | (None, w') => (Raise (mkExn Exception "Route service unavailable"), w')
           end.

Definition _calculate_multi_stop_route (locations : list Location.t) : M World RouteData.t :=
  try_except
    (let coordinates := map Location.to_coords locations in
     summary <- _call_openroute_api coordinates ;;
     let distance := (fst summary / (160934 # 100))%Q in
     let duration := (snd summary / 3600)%Q in
     let coordinates := map Location.to_coords locations in
     ret (RouteData.mk distance duration coordinates))
    (fun _ => raise (mkExn Exception "Could not calculate route")).

Definition _calculate_rest_stops (route_data : RouteData.t) (trip_request : TripRequest.t)
    : M World (list Stop.t) :=
  current_time <- now env ;;
  let distance_traveled := 0%Q in
  let driving_time := 0%Q in
  pickup_coords <-
    match RouteData.coordinates route_data with
    | _ :: c :: _ => ret c
    | [c] => ret c
    | [] => raise (mkExn IndexError "list index out of range")
    end ;;
  let stops :=
    [Stop.mk "pickup"
       (Location.mk "Pickup Location" (snd pickup_coords) (fst pickup_coords))
       (current_time + timedelta_hours driving_time)
       ROUTE_CONSTANTS.PICKUP_DURATION "Pickup cargo"] in
  let current_time := current_time + timedelta_hours ROUTE_CONSTANTS.PICKUP_DURATION in
  let remaining_distance := RouteData.distance route_data in
  s <- of_option
         (while rest_cond (rest_body route_data)
                (rest_budget (RouteData.distance route_data))
                (mkRest stops current_time distance_traveled driving_time
                        remaining_distance)) ;;
  let dropoff_coords := last (RouteData.coordinates route_data) (0%Q, 0%Q) in
  ret (RouteService.stops s ++
       [Stop.mk "dropoff"
          (Location.mk "Dropoff Location" (snd dropoff_coords) (fst dropoff_coords))
          (RouteService.current_time s)
          ROUTE_CONSTANTS.DROPOFF_DURATION "Deliver cargo"]).

Definition _calculate_fuel_stops (route_data : RouteData.t) : M World (list Stop.t) :=
  fuel_mile_markers <-
    of_option (Helpers.calculate_fuel_stops (RouteData.distance route_data) 0) ;;
  mapM (fun mile_marker =>
          let coords :=
            Helpers.interpolate_route_position (RouteData.coordinates route_data)
              mile_marker (RouteData.distance route_data) in
          t <- now env ;;
          ret (Stop.mk "fuel"
                 (Location.mk "Fuel Stop" (snd coords) (fst coords))
                 t ROUTE_CONSTANTS.FUEL_STOP_DURATION
                 ("Fuel stop at mile " ++ Py.format_f0 mile_marker)))
       fuel_mile_markers.

Definition calculate_route (trip_request : TripRequest.t) : M World RouteResult.t :=
  try_except
    (current_loc <- geocode_location (TripRequest.current_location trip_request) ;;
     pickup_loc <- geocode_location (TripRequest.pickup_location trip_request) ;;
     dropoff_loc <- geocode_location (TripRequest.dropoff_location trip_request) ;;
     route_data <- _calculate_multi_stop_route [current_loc; pickup_loc; dropoff_loc] ;;
     stops <- _calculate_rest_stops route_data trip_request ;;
     fuel_stops <- _calculate_fuel_stops route_data ;;
     ret (RouteResult.mk route_data stops fuel_stops))
    (fun e => raise (mkExn Exception ("Route calculation failed: " ++ exn_msg e))).

End WithWorld.
End RouteService.

(** ** services/eld_service.py *)

Module ELDService.

Definition _merge_and_sort_stops (stops fuel_stops : list Stop.t) : list Stop.t :=
  let sorted_stops := [] in
  let pickup_stops := filter (fun s => String.eqb (Stop.type s) "pickup") stops in
  let sorted_stops := sorted_stops ++ pickup_stops in
  let sorted_stops := sorted_stops ++ fuel_stops in
  let rest_stops := filter (fun s => String.eqb (Stop.type s) "rest") stops in
  let sorted_stops := sorted_stops ++ rest_stops in
  let dropoff_stops := filter (fun s => String.eqb (Stop.type s) "dropoff") stops in
  sorted_stops ++ dropoff_stops.

Definition _calculate_drive_time_between_stops (prev_stop current_stop : Stop.t)
    (route : RouteData.t) : Q :=
  let total_stops := 5%Q in
  let segment_time := (RouteData.duration route / total_stops)%Q in
  if String.eqb (Stop.type prev_stop) "pickup" then (segment_time * (2 # 10))%Q
  else if String.eqb (Stop.type current_stop) "dropoff" then (segment_time * (3 # 10))%Q
  else (segment_time * (5 # 10))%Q.

(** The cursor [(current_time, current_log, daily_logs)] that both entry
    routines take and return, extended with [remaining_time] inside their
    day-splitting loop. *)
Record split_state : Type := mkSplit {
  current_time : datetime;
  current_log : DailyLog.t;
  daily_logs : list DailyLog.t;
  remaining_time : Q
}.

Definition split_cond (s : split_state) : bool := Py.Qltb 0 (remaining_time s).

(** One round of the [while remaining_time > 0] loop.  The loops of
    [_add_driving_entry] and [_add_stop_entry] are the same text up to the
    status and the location label of the entries they build. *)
Definition split_body (status location : string) (s : split_state) : split_state :=
  let end_of_day := combine_max (date_of (current_time s)) in
  let time_in_day := total_hours (end_of_day - current_time s) in
  if Py.Qleb (remaining_time s) time_in_day
  then
    let entry :=
      ELDEntry.mk status (current_time s)
        (current_time s + timedelta_hours (remaining_time s))
        location (remaining_time s) in
    mkSplit (current_time s + timedelta_hours (remaining_time s))
            (DailyLog.add_entry (current_log s) entry)
            (daily_logs s) 0%Q
  else
    let entry := ELDEntry.mk status (current_time s) end_of_day location time_in_day in
    let sealed := DailyLog.add_entry (current_log s) entry in
    let current_time' := combine_min (date_of (current_time s) + 1) in
    mkSplit current_time' (DailyLog.new (date_of current_time'))
            (daily_logs s ++ [sealed])
            (remaining_time s - time_in_day)%Q.

(** The first round ends the day that has started, every later round
    takes a whole day, which is longer than 23 hours, and one more round
    sees the condition fail. *)
Definition split_budget (duration : Q) : nat :=
  S (S (Z.to_nat (Qceiling (duration / 23)))).

Definition Cursor : Type := datetime * DailyLog.t * list DailyLog.t.

(** The body shared by the two entry routines. *)
Definition add_entry_split (c : Cursor) (status location : string) (duration : Q)
    : option Cursor :=
  let '(current_time, current_log, daily_logs) := c in
  let end_time := current_time + timedelta_hours duration in
  if negb (date_of current_time =? date_of end_time)
  then
    let remaining_time := duration in
    option_map
      (fun s => (ELDService.current_time s, ELDService.current_log s,
                 ELDService.daily_logs s))
      (while split_cond (split_body status location) (split_budget duration)
             (mkSplit current_time current_log daily_logs remaining_time))
  else
    let entry := ELDEntry.mk status current_time end_time location duration in
    Some (end_time, DailyLog.add_entry current_log entry, daily_logs).

Definition _add_driving_entry (current_time : datetime) (current_log : DailyLog.t)
    (daily_logs : list DailyLog.t) (drive_time : Q) (location : string)
    : option Cursor :=
  add_entry_split (current_time, current_log, daily_logs)
                  DUTY_STATUS.DRIVING location drive_time.

Definition _add_stop_entry (current_time : datetime) (current_log : DailyLog.t)
    (daily_logs : list DailyLog.t) (stop : Stop.t) : option Cursor :=
  let status :=
    if existsb (String.eqb (Stop.type stop)) ["pickup"; "dropoff"; "fuel"]
    then DUTY_STATUS.ON_DUTY
    else if String.eqb (Stop.type stop) "rest" then DUTY_STATUS.SLEEPER
    else DUTY_STATUS.OFF_DUTY in
  add_entry_split (current_time, current_log, daily_logs)
                  status (Location.address (Stop.location stop)) (Stop.duration stop).

(** The drive time of the leg that ends at [stop]; [prev_stop] is [None]
    at index 0. *)
Definition leg_drive_time (route : RouteData.t) (prev_stop : option Stop.t)
    (stop : Stop.t) : Q :=
  match prev_stop with
  | None => 0%Q
  | Some prev => _calculate_drive_time_between_stops prev stop route
  end.

(** The [for i, stop in enumerate(all_stops)] loop. *)
Fixpoint process_stops (route : RouteData.t) (prev_stop : option Stop.t)
    (all_stops : list Stop.t) (c : Cursor) : option Cursor :=
  match all_stops with
  | [] => Some c
  | stop :: rest =>
      let drive_time := leg_drive_time route prev_stop stop in
      let after_drive :=
        if Py.Qltb 0 drive_time
        then
          let '(current_time, current_log, daily_logs) := c in
          _add_driving_entry current_time current_log daily_logs drive_time
            match prev_stop with
            | Some prev => Location.address (Stop.location prev)
            | None => "Start Location"
            end
        else Some c in
      match after_drive with
      | None => None
      | Some (current_time, current_log, daily_logs) =>
          match _add_stop_entry current_time current_log daily_logs stop with
          | None => None
          | Some c' => process_stops route (Some stop) rest c'
          end
      end
  end.

Section WithWorld.
Context {World : Type} (env : Env World).

Definition generate_logs (route_data : RouteResult.t) (trip_request : TripRequest.t)
    : M World (list DailyLog.t) :=
  try_except
    (let route := RouteResult.route route_data in
     let stops := RouteResult.stops route_data in
     let fuel_stops := RouteResult.fuel_stops route_data in
     start_time <- now env ;;
     let daily_logs := [] in
     let current_time := start_time in
     let current_date := date_of start_time in
     let current_log := DailyLog.new current_date in
     let all_stops := _merge_and_sort_stops stops fuel_stops in
     c <- of_option (process_stops route None all_stops
                       (current_time, current_log, daily_logs)) ;;
     let '(_, current_log, daily_logs) := c in
     match DailyLog.entries current_log with
     | [] => ret daily_logs
     | _ :: _ => ret (daily_logs ++ [current_log])
     end)
    (fun e => raise (mkExn Exception ("Could not generate ELD logs: " ++ exn_msg e))).

End WithWorld.

Definition _should_start_new_day (current_time : datetime) (entry_duration : Q) : bool :=
  let end_time := current_time + timedelta_hours entry_duration in
  negb (date_of current_time =? date_of end_time).

Section WithDateFormat.
(** [str(d)] for a date, the ISO form of the calendar date. *)
Variable date_str : date -> string.

Definition drive_limit_message (log : DailyLog.t) : string :=
  "Daily driving limit exceeded on " ++ date_str (DailyLog.date log) ++ ": "
  ++ Py.format_f1 (DailyLog.total_drive_time log) ++ " hours".

Definition duty_limit_message (log : DailyLog.t) : string :=
  "Daily duty limit exceeded on " ++ date_str (DailyLog.date log) ++ ": "
  ++ Py.format_f1 (DailyLog.total_duty_time log) ++ " hours".

Definition validate_hos_compliance (daily_logs : list DailyLog.t) : list string :=
  fold_left
    (fun violations log =>
       let violations :=
         if Py.Qltb (inject_Z HOS_LIMITS.DAILY_DRIVE_LIMIT) (DailyLog.total_drive_time log)
         then violations ++ [drive_limit_message log] else violations in
       if Py.Qltb (inject_Z HOS_LIMITS.DAILY_DUTY_LIMIT) (DailyLog.total_duty_time log)
       then violations ++ [duty_limit_message log] else violations)
    daily_logs [].

End WithDateFormat.
End ELDService.

(** ** services/hos_calculator.py *)

Module HOSCalculator.

Definition _calculate_estimated_duty_time (route_data : RouteResult.t) : Q :=
  let route := RouteResult.route route_data in
  let stops := RouteResult.stops route_data in
  let total_duty_time :=
    fold_left
      (fun total (stop : Stop.t) =>
         if existsb (String.eqb (Stop.type stop)) ["pickup"; "dropoff"; "fuel"]
         then (total + Stop.duration stop)%Q else total)
      stops (RouteData.duration route) in
  Py.min total_duty_time (inject_Z HOS_LIMITS.DAILY_DUTY_LIMIT).

Definition daily_drive_message (drive_time : Q) : string :=
  "Trip requires " ++ Py.format_f1 drive_time
  ++ " hours of driving, exceeding daily limit of "
  ++ Py.str_of_Z HOS_LIMITS.DAILY_DRIVE_LIMIT ++ " hours".

Definition daily_duty_message (duty_time : Q) : string :=
  "Trip requires " ++ Py.format_f1 duty_time
  ++ " hours of duty, exceeding daily limit of "
  ++ Py.str_of_Z HOS_LIMITS.DAILY_DUTY_LIMIT ++ " hours".

Definition multi_day_message : string :=
  "Trip requires multi-day planning with mandatory rest periods".

Definition _check_violations (trip_request : TripRequest.t) (route : RouteData.t)
    (drive_time duty_time : Q) : list string :=
  let violations := [] in
  let violations :=
    if Py.Qltb (inject_Z HOS_LIMITS.WEEKLY_LIMIT)
               (inject_Z (TripRequest.cycle_used trip_request) + duty_time)
    then violations ++ [ERROR_MESSAGES.CYCLE_EXCEEDED] else violations in
  let violations :=
    if Py.Qltb (inject_Z HOS_LIMITS.DAILY_DRIVE_LIMIT) drive_time
    then violations ++ [daily_drive_message drive_time] else violations in
  let violations :=
    if Py.Qltb (inject_Z HOS_LIMITS.DAILY_DUTY_LIMIT) duty_time
    then violations ++ [daily_duty_message duty_time] else violations in
  let violations :=
    if Py.Qltb (inject_Z HOS_LIMITS.DAILY_DRIVE_LIMIT) (RouteData.duration route)
    then violations ++ [multi_day_message] else violations in
  violations.

Section WithWorld.
Context {World : Type} (env : Env World).

Definition calculate_compliance (trip_request : TripRequest.t) (route_data : RouteResult.t)
    : M World HOSStatus.t :=
  try_except
    (let route := RouteResult.route route_data in
     let remaining_hours := HOS_LIMITS.WEEKLY_LIMIT - TripRequest.cycle_used trip_request in
     let estimated_drive_time :=
       Py.min (RouteData.duration route) (inject_Z HOS_LIMITS.DAILY_DRIVE_LIMIT) in
     let estimated_duty_time := _calculate_estimated_duty_time route_data in
     t <- now env ;;
     let next_reset := t + timedelta_days HOS_LIMITS.CYCLE_DAYS in
     let violations :=
       _check_violations trip_request route estimated_drive_time estimated_duty_time in
     ret (HOSStatus.mk (TripRequest.cycle_used trip_request) remaining_hours
            estimated_drive_time estimated_duty_time next_reset violations))
    (fun e => raise (mkExn Exception ("Could not calculate HOS compliance: " ++ exn_msg e))).

End WithWorld.

(** The dict returned by [calculate_weekly_hours]. *)
Module WeeklyTotals.
Record t : Type := mk {
  total_drive_time : Q;
  total_duty_time : Q;
  days_with_driving : Z
}.
End WeeklyTotals.

Definition calculate_weekly_hours (daily_logs : list DailyLog.t) : WeeklyTotals.t :=
  fold_left
    (fun weekly_totals log =>
       WeeklyTotals.mk
         (WeeklyTotals.total_drive_time weekly_totals + DailyLog.total_drive_time log)%Q
         (WeeklyTotals.total_duty_time weekly_totals + DailyLog.total_duty_time log)%Q
         (if Py.Qltb 0 (DailyLog.total_drive_time log)
          then WeeklyTotals.days_with_driving weekly_totals + 1
          else WeeklyTotals.days_with_driving weekly_totals))
    daily_logs (WeeklyTotals.mk 0 0 0).

(** One dict of the list returned by [calculate_required_rest_periods]. *)
Module RestPeriod.
Record t : Type := mk {
  day : Z;
  drive_time : Q;
  rest_required : Z;
  rest_start : string
}.
End RestPeriod.

(** Loop state of [calculate_required_rest_periods]:
    [(rest_periods, driving_time_remaining, day)]. *)
Definition rest_periods_cond (s : list RestPeriod.t * Q * Z) : bool :=
  Py.Qltb 0 (snd (fst s)).

Definition rest_periods_body (s : list RestPeriod.t * Q * Z) : list RestPeriod.t * Q * Z :=
  let '(rest_periods, driving_time_remaining, day) := s in
  if Py.Qltb (inject_Z HOS_LIMITS.DAILY_DRIVE_LIMIT) driving_time_remaining
  then
    (rest_periods ++
     [RestPeriod.mk day (inject_Z HOS_LIMITS.DAILY_DRIVE_LIMIT) HOS_LIMITS.MANDATORY_REST
        ("After " ++ Py.str_of_Z HOS_LIMITS.DAILY_DRIVE_LIMIT ++ " hours of driving")],
     (driving_time_remaining - inject_Z HOS_LIMITS.DAILY_DRIVE_LIMIT)%Q, day + 1)
  else
    (rest_periods ++ [RestPeriod.mk day driving_time_remaining 0 "Trip complete"],
     0%Q, day + 1).

(** Every round but the last takes 11 hours off the remaining time. *)
Definition rest_periods_budget (route_duration : Q) : nat :=
  S (Z.to_nat (Qceiling (route_duration / 11))).

Definition calculate_required_rest_periods (route_duration : Q)
    : option (list RestPeriod.t) :=
  let rest_periods := [] in
  if Py.Qleb route_duration (inject_Z HOS_LIMITS.DAILY_DRIVE_LIMIT)
  then Some rest_periods
  else
    option_map (fun s => fst (fst s))
      (while rest_periods_cond rest_periods_body
             (rest_periods_budget route_duration) (rest_periods, route_duration, 1)).

(** The dict returned by [check_cycle_reset_eligibility]. *)
Module ResetEligibility.
Record t : Type := mk {
  eligible : bool;
  days_since_reset : Z;
  days_until_eligible : Z;
  current_cycle_hours : Z;
  hours_until_limit : Z
}.
End ResetEligibility.

(** The builtin [max] and [min] on integers. *)
Definition int_max (a b : Z) : Z := if a <? b then b else a.
Definition int_min (a b : Z) : Z := if b <? a then b else a.

Section WithWorld2.
Context {World : Type} (env : Env World).

(** [date.today()] is the date of the clock reading. *)
Definition check_cycle_reset_eligibility (current_cycle_hours : Z)
    (last_reset_date : date) : M World ResetEligibility.t :=
  t <- now env ;;
  let days_since_reset := date_of t - last_reset_date in
  ret (ResetEligibility.mk
         (HOS_LIMITS.CYCLE_DAYS <=? days_since_reset)
         days_since_reset
         (int_max 0 (HOS_LIMITS.CYCLE_DAYS - days_since_reset))
         current_cycle_hours
         (HOS_LIMITS.WEEKLY_LIMIT - current_cycle_hours)).

End WithWorld2.

(** The dict returned by [calculate_available_drive_time]. *)
Module AvailableDriveTime.
Record t : Type := mk {
  daily_limit : Z;
  weekly_remaining : Z;
  effective_limit : Z;
  duty_limit : Z
}.
End AvailableDriveTime.

Definition calculate_available_drive_time (trip_request : TripRequest.t)
    : AvailableDriveTime.t :=
  let remaining_weekly_hours :=
    HOS_LIMITS.WEEKLY_LIMIT - TripRequest.cycle_used trip_request in
  AvailableDriveTime.mk HOS_LIMITS.DAILY_DRIVE_LIMIT remaining_weekly_hours
    (int_min HOS_LIMITS.DAILY_DRIVE_LIMIT remaining_weekly_hours)
    HOS_LIMITS.DAILY_DUTY_LIMIT.

(** The dict returned by [validate_trip_feasibility]; the keys [reason]
    and [recommendation] are absent from a feasible result. *)
Module Feasibility.
Record t : Type := mk {
  feasible : bool;
  required_drive_time : Q;
  available_drive_time : Z;
  requires_rest : bool;
  reason : option string;
  recommendation : option string
}.
End Feasibility.

Definition validate_trip_feasibility (trip_request : TripRequest.t) (route_duration : Q)
    : Feasibility.t :=
  let available_time := calculate_available_drive_time trip_request in
  let is_feasible :=
    Py.Qleb route_duration (inject_Z (AvailableDriveTime.effective_limit available_time)) in
  let requires_rest := Py.Qltb (inject_Z HOS_LIMITS.DAILY_DRIVE_LIMIT) route_duration in
  if negb is_feasible then
    if Py.Qltb (inject_Z HOS_LIMITS.DAILY_DRIVE_LIMIT) route_duration
    then Feasibility.mk is_feasible route_duration
           (AvailableDriveTime.effective_limit available_time) requires_rest
           (Some "Trip requires multi-day planning")
           (Some "Plan mandatory rest periods")
    else Feasibility.mk is_feasible route_duration
           (AvailableDriveTime.effective_limit available_time) requires_rest
           (Some "Insufficient hours in current cycle")
           (Some "Wait for cycle reset or reduce trip scope")
  else Feasibility.mk is_feasible route_duration
         (AvailableDriveTime.effective_limit available_time) requires_rest None None.
End HOSCalculator.

(** ** api/views.py *)

Module Views.

(** A value that the request parsers put into [request.data]: [None],
    a [bool], an [int], a [float] (finite, an infinity or NaN), a [str],
    a [list] or a [dict]. *)
Inductive PyValue : Type :=
| PyNone
| PyBool (b : bool)
| PyInt (z : Z)
| PyFloat (x : Q)
| PyInfinity (negative : bool)
| PyNaN
| PyStr (s : string)
| PyList
| PyDict.

(** [request.data] for a payload whose address fields, when present, are
    strings; [cycle_used], when present, is any value.  [None] is an
    absent key. *)
Record RequestData : Type := mkData {
  current_location : option string;
  pickup_location : option string;
  dropoff_location : option string;
  cycle_used : option PyValue
}.

Definition int_type_error (type_name : string) : PyExn :=
  mkExn TypeError
    ("int() argument must be a string, a bytes-like object or a real number, not '"
     ++ type_name ++ "'").

Inductive Body : Type :=
| ErrorBody (error : string)
| RouteBody (response_data : RouteResponse.t).

Record Response : Type := mkResponse { data : Body; status : Z }.

Definition HTTP_200_OK : Z := 200.
Definition HTTP_400_BAD_REQUEST : Z := 400.
Definition HTTP_500_INTERNAL_SERVER_ERROR : Z := 500.

Definition of_outcome {World A} (o : Outcome A) : M World A := fun w => (o, w).

Definition missing_field {World} (field : string) : M World Response :=
  ret (mkResponse (ErrorBody ("Missing required field: " ++ field)) HTTP_400_BAD_REQUEST).

Section WithWorld.
Context {World : Type} (env : Env World).

(** The built-in [int(...)] on a value of [request.data]: an [int] is
    returned as it is, a [bool] as 0 or 1, a finite [float] truncated
    towards zero; NaN and an unreadable [str] raise [ValueError], an
    infinity raises [OverflowError], every other value [TypeError]. *)
Definition int (v : PyValue) : Outcome Z :=
  match v with
  | PyInt z => Ok z
  | PyBool b => Ok (if b then 1 else 0)
  | PyFloat x => Ok (Py.int x)
  | PyInfinity _ =>
      Raise (mkExn OverflowError "cannot convert float infinity to integer")
  | PyNaN => Raise (mkExn ValueError "cannot convert float NaN to integer")
  | PyStr s =>
      match int_of_str env s with
      | inl z => Ok z
      | inr msg => Raise (mkExn ValueError msg)
      end
  | PyNone => Raise (int_type_error "NoneType")
  | PyList => Raise (int_type_error "list")
  | PyDict => Raise (int_type_error "dict")
  end.

(** [RouteCalculationView.post] *)
Definition post (request_data : RequestData) : M World Response :=
  try_except
    (match current_location request_data, pickup_location request_data,
           dropoff_location request_data, cycle_used request_data with
     | None, _, _, _ => missing_field "current_location"
     | Some _, None, _, _ => missing_field "pickup_location"
     | Some _, Some _, None, _ => missing_field "dropoff_location"
     | Some _, Some _, Some _, None => missing_field "cycle_used"
     | Some current, Some pickup, Some dropoff, Some cycle =>
         cycle_used <- of_outcome (int cycle) ;;
         trip_request <- of_outcome (TripRequest.new current pickup dropoff cycle_used) ;;
         route_data <- RouteService.calculate_route env trip_request ;;
         eld_logs <- ELDService.generate_logs env route_data trip_request ;;
         hos_status <- HOSCalculator.calculate_compliance env trip_request route_data ;;
         let response_data :=
           RouteResponse.mk (RouteResult.route route_data) (RouteResult.stops route_data)
             (RouteResult.fuel_stops route_data) eld_logs hos_status in
         ret (mkResponse (RouteBody response_data) HTTP_200_OK)
     end)
    (fun e =>
       match exn_kind e with
       | ValueError => ret (mkResponse (ErrorBody (exn_msg e)) HTTP_400_BAD_REQUEST)
       | _ =>
           ret (mkResponse (ErrorBody "Internal server error during route calculation")
                           HTTP_500_INTERNAL_SERVER_ERROR)
       end).

End WithWorld.
End Views.

(** ** The planner on a computed route *)

Module Planner.

Section WithWorld.
Context {World : Type} (env : Env World).

(** Steps 3 and 4 of [calculate_route] on the route that step 2 returned:
    the rest stops, then the fuel stops, collected in the result dict. *)
Definition plan (route_data : RouteData.t) (trip_request : TripRequest.t)
    : M World RouteResult.t :=
  stops <- RouteService._calculate_rest_stops env route_data trip_request ;;
  fuel_stops <- RouteService._calculate_fuel_stops env route_data ;;
  ret (RouteResult.mk route_data stops fuel_stops).

End WithWorld.

(** The kind and the duration of a stop. *)
Definition shape (s : Stop.t) : string * Q := (Stop.type s, Stop.duration s).

(** The rest-stop loop with positions and times left out: the shapes of
    the stops so far, the distance travelled, the distance left. *)
Definition Sketch : Type := list (string * Q) * Q * Q.

Definition sketch (s : RouteService.rest_state) : Sketch :=
  (map shape (RouteService.stops s), RouteService.distance_traveled s,
   RouteService.remaining_distance s).

Definition sketch_cond (k : Sketch) : bool := Py.Qltb 0 (snd k).

Definition sketch_body (distance : Q) (k : Sketch) : Sketch :=
  let '(shapes, traveled, remaining) := k in
  let drive_distance :=
    Py.min (inject_Z (ROUTE_CONSTANTS.AVERAGE_SPEED * 11)) remaining in
  let traveled' := (traveled + drive_distance)%Q in
  (if Py.Qltb traveled' distance then shapes ++ [("rest", 10%Q)] else shapes,
   traveled', (remaining - drive_distance)%Q).

(** How many stops of a kind a list holds. *)
Definition count_type (kind : string) (stops : list Stop.t) : nat :=
  List.length (filter (fun s => String.eqb (Stop.type s) kind) stops).

(** The [k]-th multiple of the fuel interval, as a mile marker. *)
Definition multiple (k : nat) : Q := inject_Z (1000 * Z.of_nat k).

(** The markers collected after [j] rounds of the marker loop. *)
Definition below (D : Q) (j : nat) : list Q :=
  map multiple (filter (fun k => Py.Qltb (multiple k) D) (seq 1 j)).

(** The description given to the fuel stop at a mile marker. *)
Definition fuel_description (mile_marker : Q) : string :=
  "Fuel stop at mile " ++ Py.format_f0 mile_marker.

(** The fuel stop built for a mile marker at a clock reading. *)
Definition fuel_stop_at (rd : RouteData.t) (mile_marker : Q) (t : datetime) : Stop.t :=
  let coords :=
    Helpers.interpolate_route_position (RouteData.coordinates rd)
      mile_marker (RouteData.distance rd) in
  Stop.mk "fuel" (Location.mk "Fuel Stop" (snd coords) (fst coords))
          t ROUTE_CONSTANTS.FUEL_STOP_DURATION
          ("Fuel stop at mile " ++ Py.format_f0 mile_marker).

(** One step of the duty-time loop, on the shape of a stop. *)
Definition duty_step (total : Q) (sh : string * Q) : Q :=
  if existsb (String.eqb (fst sh)) ["pickup"; "dropoff"; "fuel"]
  then (total + snd sh)%Q else total.

Definition on_duty_stop (s : Stop.t) : bool :=
  existsb (String.eqb (Stop.type s)) ["pickup"; "dropoff"; "fuel"].

(** The duty time in the words of the specification: the route duration
    plus the durations of all on-duty stops that the planner produced,
    fuel stops included, capped at 14 hours. *)
Definition spec_duty_time (r : RouteResult.t) : Q :=
  Py.min
    (RouteData.duration (RouteResult.route r)
     + Py.sum (map Stop.duration
                 (filter on_duty_stop (RouteResult.stops r ++ RouteResult.fuel_stops r))))%Q
    14.

End Planner.

(** ** A concrete world for running the code

    The clock advances one microsecond per reading, [requests] counts the
    calls made to the two HTTP collaborators, and [int] reads a [str] of
    decimal digits with an optional minus sign.  Geocoding answers every
    address with the same point and the routing service returns the
    summary held in the world. *)

Module TestWorld.

Record World : Type := mkWorld {
  clock : datetime;
  requests : nat;
  summary : option (Q * Q)
}.

Definition env : Env World :=
  mkEnv World
    (fun w => (clock w, mkWorld (clock w + 1) (requests w) (summary w)))
    (fun address w =>
       (Some (Location.mk address 40 (-74)),
        mkWorld (clock w) (S (requests w)) (summary w)))
    (fun _ w => (summary w, mkWorld (clock w) (S (requests w)) (summary w)))
    (fun s =>
       match NilZero.int_of_string s with
       | Some d => inl (Z.of_int d)
       | None => inr ("invalid literal for int() with base 10: '" ++ s ++ "'")%string
       end).

(** 17:00:00 on day 20000, no request made yet. *)
Definition w0 : World := mkWorld (20000 * US_PER_DAY + 17 * US_PER_HOUR) 0 None.

Definition coords3 : list (Q * Q) := [((-74)%Q, 40%Q); ((-75)%Q, 39%Q); ((-84)%Q, 33%Q)].

Definition trip (cycle : Z) : TripRequest.t :=
  TripRequest.mk "New York, NY" "Philadelphia, PA" "Atlanta, GA" cycle.

Definition route (distance duration : Q) : RouteData.t :=
  RouteData.mk distance duration coords3.

(** The world in which the routing service answers 2092142 metres
    (1300 miles) and 144000 seconds (40 hours). *)
Definition w_routed : World :=
  mkWorld (20000 * US_PER_DAY + 17 * US_PER_HOUR) 0 (Some (2092142%Q, 144000%Q)).

Definition request (cycle : Z) : Views.RequestData :=
  Views.mkData (Some "New York, NY") (Some "Philadelphia, PA") (Some "Atlanta, GA")
               (Some (Views.PyInt cycle)).

(** Status code and number of HTTP requests made while answering. *)
Definition answered (r : Outcome Views.Response * World) : option (Z * nat) :=
  match fst r with
  | Ok resp => Some (Views.status resp, requests (snd r))
  | _ => None
  end.

(** The number of rest stops in a planner result. *)
Definition rest_count (r : Outcome RouteResult.t * World) : option nat :=
  match fst r with
  | Ok res => Some (Planner.count_type "rest" (RouteResult.stops res))
  | _ => None
  end.

End TestWorld.

(** ** Totals recomputed from the entries of a log *)

Module Recount.

Definition is_driving (e : ELDEntry.t) : bool :=
  String.eqb (ELDEntry.status e) "driving".

Definition is_duty (e : ELDEntry.t) : bool :=
  existsb (String.eqb (ELDEntry.status e)) ["driving"; "on_duty"].

(** The totals recomputed from the entry list. *)
Definition drive_hours (es : list ELDEntry.t) : Q :=
  Py.sum (map ELDEntry.duration (filter is_driving es)).

Definition duty_hours (es : list ELDEntry.t) : Q :=
  Py.sum (map ELDEntry.duration (filter is_duty es)).

(** A log obtained from [log] by successive [add_entry] calls. *)
Definition appended (log : DailyLog.t) (es : list ELDEntry.t) : DailyLog.t :=
  fold_left DailyLog.add_entry es log.

(** A log whose stored totals are the recomputed ones. *)
Definition consistent (log : DailyLog.t) : Prop :=
  DailyLog.total_drive_time log = drive_hours (DailyLog.entries log)
  /\ DailyLog.total_duty_time log = duty_hours (DailyLog.entries log).

End Recount.

(** ** Reading the logs of a trip *)

Module Timeline.

(** An entry that starts and ends on one calendar date. *)
Definition same_day (e : ELDEntry.t) : Prop :=
  date_of (ELDEntry.start_time e) = date_of (ELDEntry.end_time e).

(** The entries of a list of logs, log after log. *)
Definition all_entries (logs : list DailyLog.t) : list ELDEntry.t :=
  flat_map DailyLog.entries logs.

(** The hours logged in a list of logs. *)
Definition logged_hours (logs : list DailyLog.t) : Q :=
  Py.sum (map ELDEntry.duration (all_entries logs)).

(** The entries held by a cursor: the sealed logs, then the open log. *)
Definition cursor_entries (c : ELDService.Cursor) : list ELDEntry.t :=
  let '(_, current_log, daily_logs) := c in
  all_entries daily_logs ++ DailyLog.entries current_log.

(** The cursor inside a state of the day-splitting loop. *)
Definition cursor_of (s : ELDService.split_state) : ELDService.Cursor :=
  (ELDService.current_time s, ELDService.current_log s, ELDService.daily_logs s).

Definition cursor_hours (c : ELDService.Cursor) : Q :=
  Py.sum (map ELDEntry.duration (cursor_entries c)).

(** The logs returned for a final cursor: the sealed logs, and the open
    log when it holds an entry. *)
Definition returned_logs (c : ELDService.Cursor) : list DailyLog.t :=
  let '(_, current_log, daily_logs) := c in
  match DailyLog.entries current_log with
  | [] => daily_logs
  | _ :: _ => daily_logs ++ [current_log]
  end.

(** A cursor all of whose logs store the recomputed totals. *)
Definition cursor_consistent (c : ELDService.Cursor) : Prop :=
  let '(_, current_log, daily_logs) := c in
  Recount.consistent current_log /\ Forall Recount.consistent daily_logs.

(** The apportioned drive time of every leg, in the order of the stops. *)
Fixpoint leg_drive_times (route : RouteData.t) (prev_stop : option Stop.t)
    (all_stops : list Stop.t) : list Q :=
  match all_stops with
  | [] => []
  | stop :: rest =>
      ELDService.leg_drive_time route prev_stop stop
      :: leg_drive_times route (Some stop) rest
  end.

(** The part of the route duration that the leg apportionment hands out
    on a trip with [k] stops between pickup and dropoff.  A leg is a fifth
    of the route duration times 0.2 after the pickup, 0.3 before the
    dropoff and 0.5 elsewhere: one leg of 0.2 for [k = 0], and for
    [k >= 1] the legs 0.2, [k - 1] times 0.5, and 0.3. *)
Definition driven_share (k : nat) : Q :=
  match k with
  | O => 1 # 25
  | S _ => inject_Z (Z.of_nat k) / 10
  end.

(** A route result taken from an outcome, for running the log builder on
    what the planner returned. *)
Definition result_or (d : RouteResult.t) {World : Type}
    (o : Outcome RouteResult.t * World) : RouteResult.t :=
  match fst o with Ok r => r | _ => d end.

End Timeline.

(** ** A planned trip that crosses midnight *)

Module Scenario.

(** The planner's result for 1300 miles and 40 hours in the test world,
    where the clock reads 17:00. *)
Definition planned : RouteResult.t :=
  Timeline.result_or
    (RouteResult.mk (TestWorld.route 1300 40) [] [])
    (Planner.plan TestWorld.env (TestWorld.route 1300 40) (TestWorld.trip 45)
                  TestWorld.w0).

End Scenario.

(** ** Reading a plan *)

Module Schedule.

(** No stop is scheduled before the stop in front of it has ended. *)
Fixpoint chained (stops : list Stop.t) : Prop :=
  match stops with
  | s1 :: ((s2 :: _) as rest) =>
      Stop.time s1 + timedelta_hours (Stop.duration s1) <= Stop.time s2
      /\ chained rest
  | _ => True
  end.

(** The stop is placed on one of the given coordinates. *)
Definition anchored (coordinates : list (Q * Q)) (s : Stop.t) : Prop :=
  In (Location.longitude (Stop.location s), Location.latitude (Stop.location s))
     coordinates.

(** The end of the last stop of a list, or [t] for the empty list. *)
Definition last_end (t : datetime) (stops : list Stop.t) : datetime :=
  match rev stops with
  | [] => t
  | s :: _ => Stop.time s + timedelta_hours (Stop.duration s)
  end.

End Schedule.

(** ** Reading the shape of the logs *)

Module LogShape.

(** Every entry of the log starts and ends on the date of the log. *)
Definition on_its_date (log : DailyLog.t) : Prop :=
  Forall (fun e => date_of (ELDEntry.start_time e) = DailyLog.date log
                   /\ date_of (ELDEntry.end_time e) = DailyLog.date log)
         (DailyLog.entries log).

(** Each entry starts when the entry in front of it ends. *)
Fixpoint contiguous (es : list ELDEntry.t) : Prop :=
  match es with
  | e1 :: ((e2 :: _) as rest) =>
      ELDEntry.end_time e1 = ELDEntry.start_time e2 /\ contiguous rest
  | _ => True
  end.

(** The times of the entry are its duration apart, to the microsecond. *)
Definition spans_duration (e : ELDEntry.t) : Prop :=
  ELDEntry.end_time e - ELDEntry.start_time e = timedelta_hours (ELDEntry.duration e).

(** The logs are dated [d], [d + 1], [d + 2], ... *)
Definition days_from (d : date) (logs : list DailyLog.t) : Prop :=
  map DailyLog.date logs = map (fun i => d + Z.of_nat i) (seq 0 (List.length logs)).

(** The end of the last entry, or [t] when there is none. *)
Definition last_entry_end (t : datetime) (es : list ELDEntry.t) : datetime :=
  match rev es with
  | [] => t
  | e :: _ => ELDEntry.end_time e
  end.

Definition well_shaped (log : DailyLog.t) : Prop :=
  on_its_date log
  /\ contiguous (DailyLog.entries log)
  /\ Forall spans_duration (DailyLog.entries log).

(** What the log builder keeps of its cursor, for logs that began on
    date [d0]. *)
Definition well_formed (d0 : date) (c : ELDService.Cursor) : Prop :=
  let '(current_time, current_log, daily_logs) := c in
  DailyLog.date current_log = date_of current_time
  /\ well_shaped current_log
  /\ last_entry_end current_time (DailyLog.entries current_log) = current_time
  /\ Forall well_shaped daily_logs
  /\ days_from d0 daily_logs
  /\ DailyLog.date current_log = d0 + Z.of_nat (List.length daily_logs).

End LogShape.

(** ** Reading the compliance of logs *)

Module Limits.

(** A log within the daily limits: at most 11 hours of driving and at
    most 14 hours of duty. *)
Definition within_limits (log : DailyLog.t) : Prop :=
  (DailyLog.total_drive_time log <= 11)%Q /\ (DailyLog.total_duty_time log <= 14)%Q.

(** The messages that [validate_hos_compliance] adds for one log. *)
Definition log_messages (date_str : date -> string) (log : DailyLog.t) : list string :=
  (if Py.Qltb (inject_Z HOS_LIMITS.DAILY_DRIVE_LIMIT) (DailyLog.total_drive_time log)
   then [ELDService.drive_limit_message date_str log] else [])
  ++ (if Py.Qltb (inject_Z HOS_LIMITS.DAILY_DUTY_LIMIT) (DailyLog.total_duty_time log)
      then [ELDService.duty_limit_message date_str log] else []).

End Limits.

(** ** Reading the hours of a week *)

Module Weekly.

(** The hours of the entries that satisfy [f]. *)
Definition hours_of (f : ELDEntry.t -> bool) (es : list ELDEntry.t) : Q :=
  Py.sum (map ELDEntry.duration (filter f es)).

(** The hours of the stops that the log builder logs as on duty. *)
Definition on_duty_hours (stops : list Stop.t) : Q :=
  Py.sum (map Stop.duration (filter Planner.on_duty_stop stops)).

(** The duty status that [_add_stop_entry] gives to a stop. *)
Definition stop_status (stop : Stop.t) : string :=
  if existsb (String.eqb (Stop.type stop)) ["pickup"; "dropoff"; "fuel"]
  then DUTY_STATUS.ON_DUTY
  else if String.eqb (Stop.type stop) "rest" then DUTY_STATUS.SLEEPER
       else DUTY_STATUS.OFF_DUTY.

End Weekly.

(** ** Reading the rest periods of a trip *)

Module RestPlan.

(** The dict of a full day of driving. *)
Definition full_day (day : nat) : HOSCalculator.RestPeriod.t :=
  HOSCalculator.RestPeriod.mk (Z.of_nat day) 11 10 "After 11 hours of driving".

(** The dict of the last, partial day. *)
Definition last_day (day : nat) (drive_time : Q) : HOSCalculator.RestPeriod.t :=
  HOSCalculator.RestPeriod.mk (Z.of_nat day) drive_time 0 "Trip complete".

End RestPlan.

(** ** Reading a request *)

Module Request.

(** What the handler reads as the cycle hours of a request: [None] when
    one of the four fields is missing, else the outcome of [int(...)] on
    the [cycle_used] field. *)
Definition cycle_hours {World : Type} (env : Env World)
    (request_data : Views.RequestData) : option (Outcome Z) :=
  match Views.current_location request_data, Views.pickup_location request_data,
        Views.dropoff_location request_data, Views.cycle_used request_data with
  | Some _, Some _, Some _, Some v => Some (Views.int env v)
  | _, _, _, _ => None
  end.

(** A request with its four fields whose [cycle_used] reads as an integer
    between 0 and 70. *)
Definition well_formed {World : Type} (env : Env World)
    (request_data : Views.RequestData) : Prop :=
  exists cycle : Z,
    cycle_hours env request_data = Some (Ok cycle) /\ 0 <= cycle <= 70.

(** A request that lacks a field, or whose [cycle_used] makes [int(...)]
    raise [ValueError], or reads as an integer outside 0..70. *)
Definition bad_request {World : Type} (env : Env World)
    (request_data : Views.RequestData) : Prop :=
  cycle_hours env request_data = None
  \/ (exists msg : string,
        cycle_hours env request_data = Some (Raise (mkExn ValueError msg)))
  \/ (exists cycle : Z,
        cycle_hours env request_data = Some (Ok cycle) /\ ~ 0 <= cycle <= 70).

(** The body of every answer with status 500. *)
Definition internal_error : Views.Body :=
  Views.ErrorBody "Internal server error during route calculation".

End Request.

(** * Properties *)

(** ** Comparisons, [min], rounding *)

Lemma Qltb_spec (x y : Q) : reflect (x < y)%Q (Py.Qltb x y).
Proof.
  unfold Py.Qltb, Qlt.
  destruct (Qnum x * QDen y <? Qnum y * QDen x) eqn:E; constructor.
  - now apply Z.ltb_lt.
  - apply Z.ltb_ge in E. lia.
Qed.

Lemma Qleb_spec (x y : Q) : reflect (x <= y)%Q (Py.Qleb x y).
Proof.
  unfold Py.Qleb. destruct (Qle_bool x y) eqn:E; constructor.
  - now apply Qle_bool_iff.
  - intro H. apply Qle_bool_iff in H. congruence.
Qed.

Lemma Qltb_true (x y : Q) : (x < y)%Q -> Py.Qltb x y = true.
Proof. destruct (Qltb_spec x y); tauto. Qed.

Lemma Qltb_false (x y : Q) : (y <= x)%Q -> Py.Qltb x y = false.
Proof. destruct (Qltb_spec x y); [lra | reflexivity]. Qed.

Lemma min_le_r (a b : Q) : (Py.min a b <= b)%Q.
Proof. unfold Py.min. destruct (Qltb_spec b a); lra. Qed.

Lemma min_le_l (a b : Q) : (Py.min a b <= a)%Q.
Proof. unfold Py.min. destruct (Qltb_spec b a); lra. Qed.

Lemma min_cases (a b : Q) :
  (Py.min a b = a /\ (a <= b)%Q) \/ (Py.min a b = b /\ (b < a)%Q).
Proof. unfold Py.min. destruct (Qltb_spec b a); [right | left]; split; auto; lra. Qed.

Lemma round_half_even_bounds (x : Q) :
  Qfloor x <= Py.round_half_even x <= Qfloor x + 1.
Proof.
  unfold Py.round_half_even.
  destruct (Py.Qltb _ _); [lia|].
  destruct (Py.Qltb _ _); [lia|].
  destruct (Z.even _); lia.
Qed.

Lemma round_half_even_mono (x y : Q) :
  (x <= y)%Q -> Py.round_half_even x <= Py.round_half_even y.
Proof.
  intros Hxy.
  pose proof (Qfloor_resp_le _ _ Hxy) as Hf.
  destruct (Z.eq_dec (Qfloor x) (Qfloor y)) as [E | NE].
  - unfold Py.round_half_even. rewrite <- E.
    destruct (Qltb_spec (x - inject_Z (Qfloor x)) (1 # 2)) as [A | A].
    + destruct (Py.Qltb (y - _) _); [lia|].
      destruct (Py.Qltb _ (y - _)); [lia|]. destruct (Z.even _); lia.
    + destruct (Qltb_spec (y - inject_Z (Qfloor x)) (1 # 2)) as [B | B]; [lra|].
      destruct (Qltb_spec (1 # 2) (x - inject_Z (Qfloor x))) as [C | C].
      * destruct (Qltb_spec (1 # 2) (y - inject_Z (Qfloor x))) as [D | D]; [lia | lra].
      * destruct (Py.Qltb (1 # 2) (y - _)); destruct (Z.even _); lia.
  - pose proof (round_half_even_bounds x). pose proof (round_half_even_bounds y). lia.
Qed.

Lemma round_half_even_Z (n : Z) : Py.round_half_even (inject_Z n) = n.
Proof.
  unfold Py.round_half_even. rewrite Qfloor_Z.
  rewrite Qltb_true; [reflexivity | lra].
Qed.

Lemma round_half_even_comp (x y : Q) :
  (x == y)%Q -> Py.round_half_even x = Py.round_half_even y.
Proof.
  intros E. apply Z.le_antisymm; apply round_half_even_mono; lra.
Qed.

Lemma round_half_even_nonneg (x : Q) : (0 <= x)%Q -> 0 <= Py.round_half_even x.
Proof.
  intros H. apply round_half_even_mono in H.
  change 0%Q with (inject_Z 0) in H. now rewrite round_half_even_Z in H.
Qed.

(** ** Bounded loops *)

Section WhileFacts.
Context {St : Type}.
Variable cond : St -> bool.
Variable body : St -> St.

(** A loop that returns has kept its invariant and left its condition
    false. *)
Lemma while_inv (I : St -> Prop) :
  (forall s, I s -> cond s = true -> I (body s)) ->
  forall fuel s s', I s -> while cond body fuel s = Some s' ->
                    I s' /\ cond s' = false.
Proof.
  intros Hstep. induction fuel as [| fuel IH]; intros s s' Hs Hrun; simpl in Hrun.
  - discriminate.
  - destruct (cond s) eqn:Hc.
    + eapply IH; [| exact Hrun]. now apply Hstep.
    + inversion Hrun; subst. auto.
Qed.

(** More fuel does not change the result. *)
Lemma while_mono :
  forall fuel fuel' s s', (fuel <= fuel')%nat ->
    while cond body fuel s = Some s' -> while cond body fuel' s = Some s'.
Proof.
  induction fuel as [| fuel IH]; intros fuel' s s' Hle Hrun; simpl in Hrun.
  - discriminate.
  - destruct fuel' as [| fuel']; [lia|]. simpl.
    destruct (cond s); [| exact Hrun].
    apply IH with (fuel' := fuel') in Hrun; [exact Hrun | lia].
Qed.

(** A loop whose remaining work [rem] drops by at least [step] per round,
    or to nothing, returns within [n + 1] rounds when [rem <= step * n]. *)
Lemma while_total (I : St -> Prop) (rem : St -> Q) (step : Q) :
  (0 < step)%Q ->
  (forall s, (rem s <= 0)%Q -> cond s = false) ->
  (forall s, I s -> cond s = true ->
             (I (body s) /\ (rem (body s) <= rem s - step)%Q) \/ (rem (body s) <= 0)%Q) ->
  forall n s, I s -> (rem s <= step * inject_Z (Z.of_nat n))%Q ->
              exists s', while cond body (S n) s = Some s'.
Proof.
  intros Hstep Hexit Hdec. induction n as [| n IH]; intros s Hs Hrem.
  - simpl. rewrite Hexit; [eauto|].
    change (inject_Z (Z.of_nat 0)) with 0%Q in Hrem. lra.
  - change (while cond body (S (S n)) s)
      with (if cond s then while cond body (S n) (body s) else Some s).
    destruct (cond s) eqn:Hc; [| eauto].
    destruct (Hdec s Hs Hc) as [[Hi Hr] | Hr].
    + apply IH; [exact Hi|].
      rewrite Nat2Z.inj_succ in Hrem. unfold Z.succ in Hrem.
      rewrite inject_Z_plus in Hrem. change (inject_Z 1) with 1%Q in Hrem. lra.
    + simpl. rewrite (Hexit _ Hr). eauto.
Qed.

End WhileFacts.

(** [x <= step * n] for the [n] that the loop budgets compute. *)
Lemma budget_covers (x step : Q) :
  (0 < step)%Q ->
  (x <= step * inject_Z (Z.of_nat (Z.to_nat (Qceiling (x / step)))))%Q.
Proof.
  intros Hstep.
  pose proof (Qle_ceiling (x / step)) as Hc.
  assert (Hz : (inject_Z (Qceiling (x / step))
                <= inject_Z (Z.of_nat (Z.to_nat (Qceiling (x / step)))))%Q).
  { rewrite <- Zle_Qle. lia. }
  assert (Hx : (x == (x / step) * step)%Q) by (field; lra).
  rewrite Hx at 1. rewrite (Qmult_comm step).
  apply Qmult_le_compat_r; lra.
Qed.

(** ** Daily log totals *)

Module LogTotals.
Import Recount.

Lemma appended_entries (es : list ELDEntry.t) :
  forall log, DailyLog.entries (appended log es) = DailyLog.entries log ++ es.
Proof.
  unfold appended. induction es as [| e es IH]; intros log; simpl.
  - now rewrite app_nil_r.
  - rewrite IH. simpl. now rewrite <- app_assoc.
Qed.

Lemma appended_date (es : list ELDEntry.t) :
  forall log, DailyLog.date (appended log es) = DailyLog.date log.
Proof.
  unfold appended. induction es as [| e es IH]; intros log; simpl; [reflexivity|].
  now rewrite IH.
Qed.

Lemma appended_drive (es : list ELDEntry.t) :
  forall log,
    DailyLog.total_drive_time (appended log es)
    = fold_left Qplus (map ELDEntry.duration (filter is_driving es))
                (DailyLog.total_drive_time log).
Proof.
  unfold appended. induction es as [| e es IH]; intros log; simpl; [reflexivity|].
  rewrite IH. unfold is_driving at 2. simpl DailyLog.total_drive_time.
  destruct (String.eqb (ELDEntry.status e) "driving"); reflexivity.
Qed.

Lemma appended_duty (es : list ELDEntry.t) :
  forall log,
    DailyLog.total_duty_time (appended log es)
    = fold_left Qplus (map ELDEntry.duration (filter is_duty es))
                (DailyLog.total_duty_time log).
Proof.
  unfold appended. induction es as [| e es IH]; intros log; simpl; [reflexivity|].
  rewrite IH. unfold is_duty. simpl.
  destruct (String.eqb (ELDEntry.status e) "driving"); simpl; [reflexivity|].
  destruct (String.eqb (ELDEntry.status e) "on_duty"); reflexivity.
Qed.

Lemma consistent_new (d : Datetime.date) : consistent (DailyLog.new d).
Proof. split; reflexivity. Qed.

Lemma consistent_add_entry (log : DailyLog.t) (e : ELDEntry.t) :
  consistent log -> consistent (DailyLog.add_entry log e).
Proof.
  intros [Hdrive Hduty]. unfold consistent, DailyLog.add_entry.
  cbn [DailyLog.entries DailyLog.total_drive_time DailyLog.total_duty_time].
  unfold drive_hours, duty_hours, Py.sum.
  rewrite !filter_app, !map_app, !fold_left_app. cbn [filter].
  change (String.eqb (ELDEntry.status e) "driving") with (is_driving e).
  change (existsb (String.eqb (ELDEntry.status e)) ["driving"; "on_duty"])
    with (is_duty e).
  rewrite Hdrive, Hduty. unfold drive_hours, duty_hours, Py.sum.
  destruct (is_driving e); destruct (is_duty e); split; reflexivity.
Qed.

Lemma consistent_appended (d : Datetime.date) (es : list ELDEntry.t) :
  consistent (appended (DailyLog.new d) es).
Proof.
  split.
  - rewrite appended_drive, appended_entries. reflexivity.
  - rewrite appended_duty, appended_entries. reflexivity.
Qed.

End LogTotals.

(** ** The compliance check *)

Module Compliance.

Lemma ends_with_app (suf p s : string) :
  Py.ends_with suf s = true -> Py.ends_with suf (p ++ s) = true.
Proof.
  intros H. induction p as [| c p IH]; [exact H|].
  change (Py.ends_with suf (String c p ++ s))
    with (if String.eqb (String c (p ++ s)) suf then true
          else Py.ends_with suf (p ++ s)).
  destruct (String.eqb (String c (p ++ s)) suf); [reflexivity | exact IH].
Qed.

Lemma daily_drive_message_suffix (t : Q) :
  Py.ends_with " hours" (HOSCalculator.daily_drive_message t) = true.
Proof.
  unfold HOSCalculator.daily_drive_message.
  do 4 apply ends_with_app. reflexivity.
Qed.

Lemma daily_duty_message_suffix (t : Q) :
  Py.ends_with " hours" (HOSCalculator.daily_duty_message t) = true.
Proof.
  unfold HOSCalculator.daily_duty_message.
  do 4 apply ends_with_app. reflexivity.
Qed.

(** The two other messages do not end in " hours". *)
Lemma other_messages_suffix (m : string) :
  In m [ERROR_MESSAGES.CYCLE_EXCEEDED; HOSCalculator.multi_day_message] ->
  Py.ends_with " hours" m = false.
Proof.
  intros [<- | [<- | []]]; reflexivity.
Qed.

(** With a drive time within 11 hours and a duty time within 14 hours
    only the weekly-cycle and the multi-day messages can be produced. *)
Lemma capped_violations (trip : TripRequest.t) (route : RouteData.t) (drive duty : Q) :
  (drive <= 11)%Q -> (duty <= 14)%Q ->
  incl (HOSCalculator._check_violations trip route drive duty)
       [ERROR_MESSAGES.CYCLE_EXCEEDED; HOSCalculator.multi_day_message].
Proof.
  intros Hd Hu. unfold HOSCalculator._check_violations.
  rewrite (Qltb_false (inject_Z HOS_LIMITS.DAILY_DRIVE_LIMIT) drive)
    by (unfold HOS_LIMITS.DAILY_DRIVE_LIMIT; exact Hd).
  rewrite (Qltb_false (inject_Z HOS_LIMITS.DAILY_DUTY_LIMIT) duty)
    by (unfold HOS_LIMITS.DAILY_DUTY_LIMIT; exact Hu).
  destruct (Py.Qltb _ _); destruct (Py.Qltb _ _); simpl;
    intros m Hm; simpl in *; tauto.
Qed.

(** C3.  For every trip request and route data the compliance evaluation
    returns a status whose drive time is at most 11 hours and whose duty
    time is at most 14 hours, since both are capped by [min], and whose
    violation list holds neither a daily drive-limit message nor a daily
    duty-limit message, whatever the hours printed in it. *)
Theorem C3_daily_limit_messages_never_reported :
  forall (World : Type) (env : Env World) (w : World)
         (trip : TripRequest.t) (route_data : RouteResult.t),
  exists (hos : HOSStatus.t) (w' : World),
    HOSCalculator.calculate_compliance env trip route_data w = (Ok hos, w')
    /\ (HOSStatus.drive_time_today hos <= 11)%Q
    /\ (HOSStatus.duty_time_today hos <= 14)%Q
    /\ forall t : Q,
         ~ In (HOSCalculator.daily_drive_message t) (HOSStatus.violations hos)
         /\ ~ In (HOSCalculator.daily_duty_message t) (HOSStatus.violations hos).
Proof.
  intros World env w trip route_data.
  unfold HOSCalculator.calculate_compliance, try_except, bind, now, ret.
  destruct (datetime_now env w) as [t0 w1].
  eexists. exists w1. split; [reflexivity|].
  assert (Hd : (Py.min (RouteData.duration (RouteResult.route route_data))
                       (inject_Z HOS_LIMITS.DAILY_DRIVE_LIMIT) <= 11)%Q)
    by apply min_le_r.
  assert (Hu : (HOSCalculator._calculate_estimated_duty_time route_data <= 14)%Q)
    by apply min_le_r.
  simpl. repeat split; try assumption.
  - intros Hin. apply (capped_violations trip _ _ _ Hd Hu) in Hin.
    apply other_messages_suffix in Hin.
    rewrite daily_drive_message_suffix in Hin. discriminate.
  - intros Hin. apply (capped_violations trip _ _ _ Hd Hu) in Hin.
    apply other_messages_suffix in Hin.
    rewrite daily_duty_message_suffix in Hin. discriminate.
Qed.

End Compliance.

(** ** Validation of [cycle_used] *)

Module Validation.

(** C10.  Constructing a [TripRequest] succeeds when [cycle_used] lies in
    [0, 70] and raises the validation error for every other value; and a
    request that carries such a value is answered by [post] with status
    400 and that error's text while the world is left as it was: no clock
    reading, no geocoding and no routing request has taken place, so the
    rejection comes before any planning. *)
Theorem C10_cycle_used_outside_range_rejected :
  forall (current pickup dropoff : string) (cycle : Z),
    (0 <= cycle <= 70 ->
       TripRequest.new current pickup dropoff cycle
       = Ok (TripRequest.mk current pickup dropoff cycle))
    /\ (~ (0 <= cycle <= 70) ->
          TripRequest.new current pickup dropoff cycle = Raise TripRequest.cycle_error
          /\ forall (World : Type) (env : Env World) (w : World),
               Views.post env
                 (Views.mkData (Some current) (Some pickup) (Some dropoff)
                               (Some (Views.PyInt cycle))) w
               = (Ok (Views.mkResponse (Views.ErrorBody (exn_msg TripRequest.cycle_error))
                                       Views.HTTP_400_BAD_REQUEST), w)).
Proof.
  intros current pickup dropoff cycle. split.
  - intros [H0 H70]. unfold TripRequest.new.
    apply Z.leb_le in H0, H70. now rewrite H0, H70.
  - intros Hout.
    assert (E : (0 <=? cycle) && (cycle <=? 70) = false).
    { apply andb_false_iff.
      destruct (Z.leb_spec 0 cycle); [| now left].
      destruct (Z.leb_spec cycle 70); [lia | now right]. }
    split.
    + unfold TripRequest.new. now rewrite E.
    + intros World env w.
      unfold Views.post, try_except, bind, Views.of_outcome; simpl.
      unfold TripRequest.new. rewrite E. reflexivity.
Qed.

(** The theorem at 71 hours (rejected) and at 35 hours (accepted). *)
Lemma C10_witness :
  TripRequest.new "A" "B" "C" 71 = Raise TripRequest.cycle_error
  /\ TripRequest.new "A" "B" "C" 35 = Ok (TripRequest.mk "A" "B" "C" 35).
Proof.
  split.
  - apply (C10_cycle_used_outside_range_rejected "A" "B" "C" 71). lia.
  - apply (C10_cycle_used_outside_range_rejected "A" "B" "C" 35). lia.
Defined.

End Validation.

(** ** The stop planner *)

Module PlannerFacts.
Import Planner.

(** The index computed by [interpolate_route_position] is not negative
    when the mile marker lies strictly between 0 and the total distance,
    so [coordinates[index]] never wraps around; the guard before it keeps
    the index below the length. *)
Lemma interpolate_index_in_range (coordinates : list (Q * Q))
    (mile_marker total_distance : Q) :
  coordinates <> [] ->
  (0 < mile_marker)%Q -> (mile_marker < total_distance)%Q ->
  0 <= Py.int (mile_marker / total_distance
               * inject_Z (Z.of_nat (List.length coordinates) - 1)).
Proof.
  intros Hne Hpos Hlt.
  assert (Hlen : (0 <= inject_Z (Z.of_nat (List.length coordinates) - 1))%Q).
  { change 0%Q with (inject_Z 0). rewrite <- Zle_Qle.
    destruct coordinates; [congruence | cbn [List.length]; lia]. }
  assert (Hratio : (0 <= mile_marker / total_distance)%Q).
  { apply Qle_shift_div_l; lra. }
  pose proof (Qmult_le_0_compat _ _ Hratio Hlen) as Hprod.
  unfold Py.int. rewrite Qltb_false by exact Hprod.
  apply Qfloor_resp_le in Hprod. exact Hprod.
Qed.

(** Two loops that step alike under a projection return alike. *)
Lemma while_sim {A B : Type} (f : A -> B)
    (condA : A -> bool) (bodyA : A -> A) (condB : B -> bool) (bodyB : B -> B) :
  (forall a, condB (f a) = condA a) ->
  (forall a, f (bodyA a) = bodyB (f a)) ->
  forall fuel a, while condB bodyB fuel (f a) = option_map f (while condA bodyA fuel a).
Proof.
  intros Hc Hb. induction fuel as [| fuel IH]; intros a; simpl; [reflexivity|].
  rewrite Hc. destruct (condA a); [| reflexivity].
  now rewrite <- Hb, IH.
Qed.

Lemma rest_body_sketch (rd : RouteData.t) (s : RouteService.rest_state) :
  sketch (RouteService.rest_body rd s) = sketch_body (RouteData.distance rd) (sketch s).
Proof.
  unfold RouteService.rest_body, sketch_body, sketch.
  destruct (Py.Qltb _ (RouteData.distance rd)); simpl; [| reflexivity].
  now rewrite map_app.
Qed.

(** The rest-stop loop returns within its budget, whatever the distance. *)
Lemma rest_loop_total (rd : RouteData.t) (s0 : RouteService.rest_state) :
  RouteService.remaining_distance s0 = RouteData.distance rd ->
  exists s', while RouteService.rest_cond (RouteService.rest_body rd)
                   (RouteService.rest_budget (RouteData.distance rd)) s0 = Some s'.
Proof.
  intros E. unfold RouteService.rest_budget.
  apply (while_total RouteService.rest_cond (RouteService.rest_body rd)
           (fun _ => True) RouteService.remaining_distance 605%Q).
  - lra.
  - intros s H. unfold RouteService.rest_cond. apply Qltb_false, H.
  - intros s _ _.
    assert (R : RouteService.remaining_distance (RouteService.rest_body rd s)
                = (RouteService.remaining_distance s
                   - Py.min (inject_Z (ROUTE_CONSTANTS.AVERAGE_SPEED * 11))
                            (RouteService.remaining_distance s))%Q).
    { unfold RouteService.rest_body. destruct (Py.Qltb _ (RouteData.distance rd)); reflexivity. }
    rewrite R.
    destruct (min_cases (inject_Z (ROUTE_CONSTANTS.AVERAGE_SPEED * 11))
                        (RouteService.remaining_distance s)) as [[-> H] | [-> H]].
    + left. split; [exact I|]. change (inject_Z (ROUTE_CONSTANTS.AVERAGE_SPEED * 11)) with 605%Q. lra.
    + right. lra.
  - exact I.
  - rewrite E. apply budget_covers. lra.
Qed.

(** The rest stops of a route with at least one coordinate: the call
    returns, and the shapes of its stops are those of the sketched loop
    between the pickup and the dropoff. *)
Lemma rest_stops_shapes {World : Type} (env : Env World) (w : World)
    (rd : RouteData.t) (tr : TripRequest.t) :
  RouteData.coordinates rd <> [] ->
  exists (stops : list Stop.t) (w' : World) (k : Sketch),
    RouteService._calculate_rest_stops env rd tr w = (Ok stops, w')
    /\ while sketch_cond (sketch_body (RouteData.distance rd))
             (RouteService.rest_budget (RouteData.distance rd))
             ([("pickup", 1%Q)], 0%Q, RouteData.distance rd) = Some k
    /\ map shape stops = fst (fst k) ++ [("dropoff", 1%Q)].
Proof.
  intros Hne.
  unfold RouteService._calculate_rest_stops, bind, now.
  destruct (datetime_now env w) as [t0 w1].
  set (pickup_coords :=
         match RouteData.coordinates rd with
         | _ :: c :: _ => c
         | [c] => c
         | [] => (0%Q, 0%Q)
         end).
  assert (Hp : (match RouteData.coordinates rd with
                | _ :: c :: _ => ret c
                | [c] => ret c
                | [] => raise (mkExn IndexError "list index out of range")
                end) w1 = (Ok pickup_coords, w1)).
  { subst pickup_coords. destruct (RouteData.coordinates rd) as [| c [| c' l]];
      [congruence | reflexivity | reflexivity]. }
  rewrite Hp.
  match goal with
  | |- context [while RouteService.rest_cond _ _ ?s] => set (s0 := s)
  end.
  destruct (rest_loop_total rd s0 eq_refl) as [s' Hs'].
  rewrite Hs'. unfold of_option, ret.
  pose proof (while_sim sketch RouteService.rest_cond (RouteService.rest_body rd)
                sketch_cond (sketch_body (RouteData.distance rd))
                (fun a => eq_refl) (rest_body_sketch rd)
                (RouteService.rest_budget (RouteData.distance rd)) s0) as Hsim.
  rewrite Hs' in Hsim. simpl in Hsim.
  eexists. exists w1. exists (sketch s'). split; [reflexivity|]. split.
  - exact Hsim.
  - rewrite map_app. reflexivity.
Qed.

(** *** Fuel stops *)

Lemma inject_Z_plus_eq (a b : Z) : (inject_Z a + inject_Z b)%Q = inject_Z (a + b).
Proof. unfold Qplus, inject_Z. simpl. now rewrite !Z.mul_1_r. Qed.

Lemma multiple_succ (j : nat) : (multiple j + 1000)%Q = multiple (S j).
Proof.
  unfold multiple. change 1000%Q with (inject_Z 1000).
  rewrite inject_Z_plus_eq. f_equal. lia.
Qed.

Lemma multiple_lt (j k : nat) : (multiple j < multiple k)%Q <-> (j < k)%nat.
Proof. unfold multiple. rewrite <- Zlt_Qlt. lia. Qed.

Lemma multiple_inj (j k : nat) : multiple j = multiple k -> j = k.
Proof.
  intros E.
  destruct (Nat.lt_trichotomy j k) as [H | [H | H]]; [| exact H |];
    apply multiple_lt in H; rewrite E in H; lra.
Qed.

Lemma below_succ (D : Q) (j : nat) :
  below D (S j)
  = below D j ++ (if Py.Qltb (multiple (S j)) D then [multiple (S j)] else []).
Proof.
  unfold below. rewrite seq_S, filter_app, map_app. simpl.
  destruct (Py.Qltb (multiple (S j)) D); reflexivity.
Qed.

(** The marker loop from mile 0: it returns, with the multiples of 1000
    below the distance, at a mile that is not below the distance. *)
Lemma fuel_loop_result (D : Q) :
  exists j : nat,
    Helpers.calculate_fuel_stops D 0 = Some (below D j) /\ (D <= multiple j)%Q.
Proof.
  unfold Helpers.calculate_fuel_stops, Helpers.fuel_budget.
  destruct (while_total (Helpers.fuel_cond D) (Helpers.fuel_body D)
              (fun _ => True) (fun s => (D - snd s)%Q) 1000%Q) 
    with (n := Z.to_nat (Qceiling ((D - 0) / 1000))) (s := (@nil Q, 0%Q))
    as [s' Hs'].
  - lra.
  - intros s H. unfold Helpers.fuel_cond. apply Qltb_false. lra.
  - intros s _ _. left. split; [exact I|].
    unfold Helpers.fuel_body. destruct (Py.Qltb _ D); simpl; lra.
  - exact I.
  - simpl snd. apply budget_covers. lra.
  - rewrite Hs'.
    destruct (while_inv (Helpers.fuel_cond D) (Helpers.fuel_body D)
                (fun s => exists j, snd s = multiple j /\ fst s = below D j)
                ) with (fuel := S (Z.to_nat (Qceiling ((D - 0) / 1000))))
                       (s := (@nil Q, 0%Q)) (s' := s') as [[j [Hj Hb]] Hc].
    + intros s [j [Hj Hb]] _. exists (S j). unfold Helpers.fuel_body.
      rewrite Hj, multiple_succ, below_succ, Hb.
      destruct (Py.Qltb (multiple (S j)) D); simpl; split; auto.
      now rewrite app_nil_r.
    + exists 0%nat. split; reflexivity.
    + exact Hs'.
    + exists j. simpl. rewrite Hb. split; [reflexivity|].
      unfold Helpers.fuel_cond in Hc. rewrite Hj in Hc.
      destruct (Qltb_spec (multiple j) D); [discriminate | lra].
Qed.

Lemma below_In (D : Q) (j : nat) (m : Q) :
  (D <= multiple j)%Q ->
  (In m (below D j)
   <-> exists k : Z, 0 < k /\ m = inject_Z (1000 * k) /\ (m < D)%Q).
Proof.
  intros Hj. unfold below. rewrite in_map_iff. split.
  - intros [k [<- Hk]]. apply filter_In in Hk. destruct Hk as [Hk Hlt].
    apply in_seq in Hk. exists (Z.of_nat k). repeat split.
    + lia.
    + destruct (Qltb_spec (multiple k) D); [assumption | discriminate].
  - intros [k [Hk [-> Hlt]]]. exists (Z.to_nat k).
    assert (Ek : multiple (Z.to_nat k) = inject_Z (1000 * k)).
    { unfold multiple. f_equal. lia. }
    split; [exact Ek|]. apply filter_In. split.
    + apply in_seq. split; [lia|].
      assert (H : (multiple (Z.to_nat k) < multiple j)%Q) by (rewrite Ek; lra).
      apply multiple_lt in H. lia.
    + rewrite Ek. now apply Qltb_true.
Qed.

Lemma below_NoDup (D : Q) (j : nat) : NoDup (below D j).
Proof.
  unfold below. apply Injective_map_NoDup.
  - intros a b. apply multiple_inj.
  - apply NoDup_filter, seq_NoDup.
Qed.

(** A [mapM] whose body reads the clock and returns a value cannot fail. *)
Lemma mapM_now {World A B : Type} (env : Env World) (g : A -> datetime -> B)
    (l : list A) :
  forall w : World,
  exists (bs : list B) (w' : World),
    mapM (fun a => t <- now env ;; ret (g a t)) l w = (Ok bs, w')
    /\ Forall2 (fun a b => exists t, b = g a t) l bs.
Proof.
  induction l as [| a l IH]; intros w.
  - exists [], w. split; [reflexivity | constructor].
  - destruct (datetime_now env w) as [t w1] eqn:Hnow.
    destruct (IH w1) as [bs [w2 [Hrun Hall]]].
    exists (g a t :: bs), w2. split.
    + change (mapM (fun a => t <- now env ;; ret (g a t)) (a :: l) w)
        with (bind (bind (now env) (fun t => ret (g a t)))
                (fun b => bind (mapM (fun a => t <- now env ;; ret (g a t)) l)
                            (fun bs => ret (b :: bs))) w).
      unfold bind at 1. unfold bind at 1. unfold now at 1. rewrite Hnow.
      unfold ret at 1. unfold bind at 1. rewrite Hrun. reflexivity.
    + constructor; [now exists t | exact Hall].
Qed.

(** [_calculate_fuel_stops] returns one stop per marker, in order. *)
Lemma fuel_stops_run {World : Type} (env : Env World) (w : World) (rd : RouteData.t) :
  exists (fs : list Stop.t) (w' : World) (j : nat),
    Helpers.calculate_fuel_stops (RouteData.distance rd) 0
    = Some (below (RouteData.distance rd) j)
    /\ (RouteData.distance rd <= multiple j)%Q
    /\ RouteService._calculate_fuel_stops env rd w = (Ok fs, w')
    /\ map Stop.description fs = map fuel_description (below (RouteData.distance rd) j)
    /\ map shape fs = map (fun _ => ("fuel", 5 # 10)) (below (RouteData.distance rd) j).
Proof.
  destruct (fuel_loop_result (RouteData.distance rd)) as [j [Hm Hj]].
  destruct (mapM_now env (fuel_stop_at rd) (below (RouteData.distance rd) j) w)
    as [fs [w' [Hrun Hall]]].
  exists fs, w', j. split; [exact Hm|]. split; [exact Hj|]. split.
  - unfold RouteService._calculate_fuel_stops, bind. rewrite Hm. unfold of_option.
    exact Hrun.
  - clear Hrun Hm Hj. induction Hall as [| m s ms ss [t ->] _ [IHd IHs]].
    + split; reflexivity.
    + simpl map. rewrite IHd, IHs. split; reflexivity.
Qed.

(** The planner returns on every route with a coordinate; the shapes of
    its stops come from the sketched loop and its fuel stops from the
    marker loop. *)
Lemma plan_shapes {World : Type} (env : Env World) (w : World)
    (rd : RouteData.t) (tr : TripRequest.t) :
  RouteData.coordinates rd <> [] ->
  exists (stops fs : list Stop.t) (w' : World) (k : Sketch) (j : nat),
    plan env rd tr w = (Ok (RouteResult.mk rd stops fs), w')
    /\ while sketch_cond (sketch_body (RouteData.distance rd))
             (RouteService.rest_budget (RouteData.distance rd))
             ([("pickup", 1%Q)], 0%Q, RouteData.distance rd) = Some k
    /\ map shape stops = fst (fst k) ++ [("dropoff", 1%Q)]
    /\ Helpers.calculate_fuel_stops (RouteData.distance rd) 0
       = Some (below (RouteData.distance rd) j)
    /\ (RouteData.distance rd <= multiple j)%Q
    /\ map Stop.description fs = map fuel_description (below (RouteData.distance rd) j)
    /\ map shape fs = map (fun _ => ("fuel", 5 # 10)) (below (RouteData.distance rd) j).
Proof.
  intros Hne.
  destruct (rest_stops_shapes env w rd tr Hne) as [stops [w1 [k [Hrest [Hk Hshape]]]]].
  destruct (fuel_stops_run env w1 rd) as [fs [w2 [j [Hm [Hj [Hfuel [Hd Hs]]]]]]].
  exists stops, fs, w2, k, j. split.
  - unfold plan, bind. rewrite Hrest, Hfuel. reflexivity.
  - auto 10.
Qed.

Lemma types_of_shapes (l : list Stop.t) : map Stop.type l = map fst (map shape l).
Proof. rewrite map_map. reflexivity. Qed.

Lemma count_type_of_shapes (kind : string) (l : list Stop.t) :
  count_type kind l
  = List.length (filter (fun sh => String.eqb (fst sh) kind) (map shape l)).
Proof.
  unfold count_type. induction l as [| s l IH]; simpl; [reflexivity|].
  destruct (String.eqb (Stop.type s) kind); simpl; now rewrite IH.
Qed.

Lemma map_eq_nil_inv {A B : Type} (f : A -> B) (l : list A) : map f l = [] -> l = [].
Proof. destruct l; [reflexivity | discriminate]. Qed.

(** The markers are the first multiples of 1000, in ascending order. *)
Lemma below_prefix (D : Q) (j : nat) :
  exists n : nat, (n <= j)%nat /\ below D j = map multiple (seq 1 n).
Proof.
  induction j as [| j [n [Hn IH]]].
  - exists 0%nat. split; [lia | reflexivity].
  - rewrite below_succ. destruct (Qltb_spec (multiple (S j)) D) as [Hlt | Hge].
    + exists (S j). split; [lia|].
      rewrite seq_S, map_app. f_equal.
      unfold below. f_equal. apply forallb_filter_id. apply forallb_forall.
      intros k Hk. apply in_seq in Hk. apply Qltb_true.
      assert (H : (multiple k < multiple (S j))%Q) by (apply multiple_lt; lia).
      lra.
    + exists n. split; [lia|]. now rewrite app_nil_r.
Qed.

(** C8.  For every route distance the marker computation returns, and
    its markers are exactly the positive multiples of 1000 strictly below
    the distance: each once, in ascending order from 1000, so a distance
    that is itself a multiple of 1000 gets no marker at its endpoint; and
    [_calculate_fuel_stops] emits one half-hour [fuel] stop per marker,
    described by its mile. *)
Theorem C8_fuel_markers_are_multiples_below_distance :
  forall D : Q,
  exists markers : list Q,
    Helpers.calculate_fuel_stops D 0 = Some markers
    /\ NoDup markers
    /\ markers = map multiple (seq 1 (List.length markers))
    /\ (forall m : Q,
          In m markers
          <-> exists k : Z, 0 < k /\ m = inject_Z (1000 * k) /\ (m < D)%Q)
    /\ (forall m : Q, (m == D)%Q -> ~ In m markers)
    /\ forall (World : Type) (env : Env World) (w : World)
              (duration : Q) (coordinates : list (Q * Q)),
       exists (fs : list Stop.t) (w' : World),
         RouteService._calculate_fuel_stops env
           (RouteData.mk D duration coordinates) w = (Ok fs, w')
         /\ map Stop.description fs = map fuel_description markers
         /\ map shape fs = map (fun _ => ("fuel", 5 # 10)) markers.
Proof.
  intros D. destruct (fuel_loop_result D) as [j [Hm Hj]].
  exists (below D j). split; [exact Hm|]. split; [apply below_NoDup|].
  split; [| split; [| split]].
  - destruct (below_prefix D j) as [n [_ Hn]]. rewrite Hn at 1.
    rewrite Hn, length_map, length_seq. reflexivity.
  - intros m. now apply below_In.
  - intros m Hm' Hin. apply (below_In D j m Hj) in Hin.
    destruct Hin as [k [_ [_ Hlt]]]. lra.
  - intros World env w duration coordinates.
    destruct (fuel_stops_run env w (RouteData.mk D duration coordinates))
      as [fs [w' [j' [Hm' [_ [Hrun [Hd Hs]]]]]]].
    simpl in Hm', Hd, Hs. rewrite Hm in Hm'. inversion Hm' as [E].
    exists fs, w'. rewrite E. auto.
Qed.

(** C9.  On a route of at most 605 miles with at least one coordinate the
    planner emits exactly two stops, the pickup followed by the dropoff,
    and so no rest stop; the route duration plays no part.  Such a route
    gets no fuel stop either. *)
Theorem C9_short_route_has_pickup_and_dropoff_only :
  forall (World : Type) (env : Env World) (w : World)
         (rd : RouteData.t) (tr : TripRequest.t),
    (RouteData.distance rd <= 605)%Q ->
    RouteData.coordinates rd <> [] ->
    exists (stops : list Stop.t) (w' w'' : World),
      RouteService._calculate_rest_stops env rd tr w = (Ok stops, w')
      /\ map Stop.type stops = ["pickup"; "dropoff"]
      /\ count_type "rest" stops = 0%nat
      /\ RouteService._calculate_fuel_stops env rd w' = (Ok [], w'').
Proof.
  intros World env w rd tr HD Hne.
  destruct (rest_stops_shapes env w rd tr Hne) as [stops [w1 [k [Hrest [Hk Hshape]]]]].
  destruct (fuel_stops_run env w1 rd) as [fs [w2 [j [Hm [Hj [Hfuel [_ Hs]]]]]]].
  assert (Hk1 : fst (fst k) = [("pickup", 1%Q)]).
  { set (Inv := fun k : Sketch =>
                  fst (fst k) = [("pickup", 1%Q)]
                  /\ ((snd k <= 0)%Q
                      \/ ((snd (fst k) == 0)%Q /\ (snd k == RouteData.distance rd)%Q))).
    assert (Hstep : forall s, Inv s -> sketch_cond s = true ->
                              Inv (sketch_body (RouteData.distance rd) s)).
    { intros [[shapes traveled] remaining] [Hs0 Hcase] Hc.
      unfold Inv, sketch_cond, sketch_body in *. cbn [fst snd] in *.
      destruct (Qltb_spec 0 remaining) as [Hpos | ]; [| discriminate].
      destruct Hcase as [Hle | [Ht Hr]]; [lra|].
      change (inject_Z (ROUTE_CONSTANTS.AVERAGE_SPEED * 11)) with 605%Q.
      destruct (min_cases 605 remaining) as [[-> Hmin] | [-> Hmin]];
        rewrite Qltb_false by lra; cbn [fst snd]; (split; [exact Hs0 | left; lra]). }
    assert (Hinit : Inv ([("pickup", 1%Q)], 0%Q, RouteData.distance rd)).
    { unfold Inv. cbn [fst snd]. split; [reflexivity | right; split; reflexivity]. }
    destruct (while_inv _ _ Inv Hstep _ _ _ Hinit Hk) as [[H _] _]. exact H. }
  assert (Hfs : fs = []).
  { destruct (below (RouteData.distance rd) j) as [| m ms] eqn:Hb.
    - now apply map_eq_nil_inv in Hs.
    - exfalso. assert (Hin : In m (below (RouteData.distance rd) j))
        by (rewrite Hb; now left).
      apply (below_In _ j m Hj) in Hin. destruct Hin as [k' [Hk' [-> Hlt]]].
      assert (H : (inject_Z 1000 <= inject_Z (1000 * k'))%Q)
        by (rewrite <- Zle_Qle; lia).
      change (inject_Z 1000) with 1000%Q in H. lra. }
  subst fs. exists stops, w1, w2.
  rewrite Hk1 in Hshape. simpl in Hshape.
  split; [exact Hrest|]. split; [| split; [| exact Hfuel]].
  - rewrite types_of_shapes, Hshape. reflexivity.
  - rewrite count_type_of_shapes, Hshape. reflexivity.
Qed.

(** The theorem on a route of 300 miles. *)
Lemma C9_witness :
  exists (stops : list Stop.t) (w' w'' : TestWorld.World),
    RouteService._calculate_rest_stops TestWorld.env (TestWorld.route 300 6)
      (TestWorld.trip 10) TestWorld.w0 = (Ok stops, w')
    /\ map Stop.type stops = ["pickup"; "dropoff"]
    /\ count_type "rest" stops = 0%nat
    /\ RouteService._calculate_fuel_stops TestWorld.env (TestWorld.route 300 6) w'
       = (Ok [], w'').
Proof.
  apply (C9_short_route_has_pickup_and_dropoff_only TestWorld.World TestWorld.env
           TestWorld.w0 (TestWorld.route 300 6) (TestWorld.trip 10)).
  - simpl. lra.
  - simpl. discriminate.
Defined.

(** *** The scenarios of the specification *)

Lemma duty_time_of_shapes (r : RouteResult.t) :
  HOSCalculator._calculate_estimated_duty_time r
  = Py.min (fold_left duty_step (map shape (RouteResult.stops r))
                      (RouteData.duration (RouteResult.route r)))
           (inject_Z HOS_LIMITS.DAILY_DUTY_LIMIT).
Proof.
  unfold HOSCalculator._calculate_estimated_duty_time. f_equal.
  generalize (RouteData.duration (RouteResult.route r)).
  induction (RouteResult.stops r) as [| s l IH]; intros total; [reflexivity|].
  simpl fold_left. rewrite IH. reflexivity.
Qed.

Lemma spec_duty_time_of_shapes (r : RouteResult.t) :
  spec_duty_time r
  = Py.min
      (RouteData.duration (RouteResult.route r)
       + Py.sum (map snd
                   (filter (fun sh => existsb (String.eqb (fst sh)) ["pickup"; "dropoff"; "fuel"])
                      (map shape (RouteResult.stops r) ++ map shape (RouteResult.fuel_stops r)))))%Q
      14.
Proof.
  unfold spec_duty_time. do 3 f_equal. rewrite <- map_app.
  induction (RouteResult.stops r ++ RouteResult.fuel_stops r) as [| s l IH];
    [reflexivity|].
  cbn [map filter].
  change (existsb (String.eqb (fst (shape s))) ["pickup"; "dropoff"; "fuel"])
    with (on_duty_stop s).
  destruct (on_duty_stop s); cbn [map]; now rewrite IH.
Qed.

(** The compliance evaluation always returns; its status is built from
    the capped estimates. *)
Lemma compliance_run {World : Type} (env : Env World) (w : World)
    (tr : TripRequest.t) (r : RouteResult.t) :
  exists (t : datetime) (w' : World),
    HOSCalculator.calculate_compliance env tr r w
    = (Ok (HOSStatus.mk (TripRequest.cycle_used tr)
             (HOS_LIMITS.WEEKLY_LIMIT - TripRequest.cycle_used tr)
             (Py.min (RouteData.duration (RouteResult.route r))
                     (inject_Z HOS_LIMITS.DAILY_DRIVE_LIMIT))
             (HOSCalculator._calculate_estimated_duty_time r)
             (t + timedelta_days HOS_LIMITS.CYCLE_DAYS)
             (HOSCalculator._check_violations tr (RouteResult.route r)
                (Py.min (RouteData.duration (RouteResult.route r))
                        (inject_Z HOS_LIMITS.DAILY_DRIVE_LIMIT))
                (HOSCalculator._calculate_estimated_duty_time r))), w').
Proof.
  unfold HOSCalculator.calculate_compliance, try_except, bind, now, ret.
  destruct (datetime_now env w) as [t w']. exists t, w'. reflexivity.
Qed.

(** The planner on a route of a given distance, with the shapes of the
    sketched loop and the markers of the marker loop already computed. *)
Lemma plan_on_distance {World : Type} (env : Env World) (w : World)
    (D duration : Q) (coordinates : list (Q * Q)) (tr : TripRequest.t)
    (shapes : list (string * Q)) (markers : list Q) :
  option_map (fun k : Sketch => fst (fst k))
    (while sketch_cond (sketch_body D) (RouteService.rest_budget D)
           ([("pickup", 1%Q)], 0%Q, D)) = Some shapes ->
  Helpers.calculate_fuel_stops D 0 = Some markers ->
  coordinates <> [] ->
  exists (stops fs : list Stop.t) (w' : World),
    plan env (RouteData.mk D duration coordinates) tr w
    = (Ok (RouteResult.mk (RouteData.mk D duration coordinates) stops fs), w')
    /\ map shape stops = shapes ++ [("dropoff", 1%Q)]
    /\ map Stop.description fs = map fuel_description markers
    /\ map shape fs = map (fun _ => ("fuel", 5 # 10)) markers.
Proof.
  intros Hshapes Hmarkers Hne.
  destruct (plan_shapes env w (RouteData.mk D duration coordinates) tr Hne)
    as [stops [fs [w' [k [j [Hplan [Hk [Hshape [Hm [_ [Hd Hs]]]]]]]]]]].
  cbn [RouteData.distance] in *.
  rewrite Hk in Hshapes. cbn [option_map] in Hshapes.
  assert (E : fst (fst k) = shapes) by congruence.
  assert (E' : below D j = markers) by congruence.
  exists stops, fs, w'. rewrite E in Hshape. rewrite E' in Hd, Hs. auto.
Qed.

(** C2, as the code has it.  On a route of 1300 miles with at least one
    coordinate, whatever its duration, the planner emits the pickup, two
    rest stops (after 605 and after 1210 miles) and the dropoff, and one
    fuel stop, at mile marker 1000. *)
Theorem C2_route_of_1300_miles_two_rest_stops_one_fuel_stop :
  forall (World : Type) (env : Env World) (w : World)
         (duration : Q) (coordinates : list (Q * Q)) (tr : TripRequest.t),
    coordinates <> [] ->
    exists (r : RouteResult.t) (w' : World),
      plan env (RouteData.mk 1300 duration coordinates) tr w = (Ok r, w')
      /\ map Stop.type (RouteResult.stops r) = ["pickup"; "rest"; "rest"; "dropoff"]
      /\ count_type "rest" (RouteResult.stops r) = 2%nat
      /\ Helpers.calculate_fuel_stops 1300 0 = Some [1000%Q]
      /\ map Stop.type (RouteResult.fuel_stops r) = ["fuel"]
      /\ map Stop.description (RouteResult.fuel_stops r) = ["Fuel stop at mile 1000"].
Proof.
  intros World env w duration coordinates tr Hne.
  destruct (plan_on_distance env w 1300 duration coordinates tr
              [("pickup", 1%Q); ("rest", 10%Q); ("rest", 10%Q)] [1000%Q])
    as [stops [fs [w' [Hplan [Hshape [Hd Hs]]]]]];
    [vm_compute; reflexivity | vm_compute; reflexivity | exact Hne |].
  eexists. exists w'. split; [exact Hplan|]. cbn [RouteResult.stops RouteResult.fuel_stops].
  rewrite !types_of_shapes, count_type_of_shapes, Hshape, Hs, Hd.
  repeat split; reflexivity.
Qed.

(** The theorem on the route of the test world. *)
Lemma C2_witness :
  exists (r : RouteResult.t) (w' : TestWorld.World),
    plan TestWorld.env (RouteData.mk 1300 40 TestWorld.coords3) (TestWorld.trip 45)
         TestWorld.w0 = (Ok r, w')
    /\ map Stop.type (RouteResult.stops r) = ["pickup"; "rest"; "rest"; "dropoff"]
    /\ count_type "rest" (RouteResult.stops r) = 2%nat
    /\ Helpers.calculate_fuel_stops 1300 0 = Some [1000%Q]
    /\ map Stop.type (RouteResult.fuel_stops r) = ["fuel"]
    /\ map Stop.description (RouteResult.fuel_stops r) = ["Fuel stop at mile 1000"].
Proof.
  apply (C2_route_of_1300_miles_two_rest_stops_one_fuel_stop TestWorld.World
           TestWorld.env TestWorld.w0 40 TestWorld.coords3 (TestWorld.trip 45)).
  unfold TestWorld.coords3. discriminate.
Defined.

(** C2 as stated fails: the planner run on the 1300-mile route of the test
    world emits two rest stops, not one. *)
Lemma C2_counterexample :
  TestWorld.rest_count
    (plan TestWorld.env (TestWorld.route 1300 40) (TestWorld.trip 45) TestWorld.w0)
  = Some 2%nat
  /\ TestWorld.rest_count
       (plan TestWorld.env (TestWorld.route 1300 40) (TestWorld.trip 45) TestWorld.w0)
     <> Some 1%nat.
Proof.
  assert (E : TestWorld.rest_count
                (plan TestWorld.env (TestWorld.route 1300 40) (TestWorld.trip 45)
                      TestWorld.w0) = Some 2%nat) by (vm_compute; reflexivity).
  split; [exact E | rewrite E; discriminate].
Qed.

(** C1 on the code.  For the scenario trip (45 cycle hours used; 2200
    miles, 40 hours, at least one coordinate) the planner emits the
    pickup, three rest stops and the dropoff, and two fuel stops, at miles
    1000 and 2000; the compliance evaluation of that plan returns the
    multi-day-planning message as its only violation, so the daily
    drive-limit message that the scenario expects is not reported. *)
Theorem C1_scenario_reports_multi_day_violation_only :
  forall (World : Type) (env : Env World) (w : World)
         (coordinates : list (Q * Q)) (current pickup dropoff : string),
    coordinates <> [] ->
    exists (r : RouteResult.t) (w' : World),
      plan env (RouteData.mk 2200 40 coordinates)
           (TripRequest.mk current pickup dropoff 45) w = (Ok r, w')
      /\ map Stop.type (RouteResult.stops r)
         = ["pickup"; "rest"; "rest"; "rest"; "dropoff"]
      /\ Helpers.calculate_fuel_stops 2200 0 = Some [1000%Q; 2000%Q]
      /\ map Stop.description (RouteResult.fuel_stops r)
         = ["Fuel stop at mile 1000"; "Fuel stop at mile 2000"]
      /\ forall w2 : World,
         exists (hos : HOSStatus.t) (w3 : World),
           HOSCalculator.calculate_compliance env
             (TripRequest.mk current pickup dropoff 45) r w2 = (Ok hos, w3)
           /\ HOSStatus.violations hos = [HOSCalculator.multi_day_message]
           /\ forall t : Q,
                ~ In (HOSCalculator.daily_drive_message t) (HOSStatus.violations hos).
Proof.
  intros World env w coordinates current pickup dropoff Hne.
  destruct (plan_on_distance env w 2200 40 coordinates
              (TripRequest.mk current pickup dropoff 45)
              [("pickup", 1%Q); ("rest", 10%Q); ("rest", 10%Q); ("rest", 10%Q)]
              [1000%Q; 2000%Q])
    as [stops [fs [w' [Hplan [Hshape [Hd Hs]]]]]];
    [vm_compute; reflexivity | vm_compute; reflexivity | exact Hne |].
  eexists. exists w'. split; [exact Hplan|].
  cbn [RouteResult.stops RouteResult.fuel_stops].
  split; [rewrite types_of_shapes, Hshape; reflexivity|].
  split; [vm_compute; reflexivity|].
  split; [rewrite Hd; reflexivity|].
  intros w2.
  destruct (compliance_run env w2 (TripRequest.mk current pickup dropoff 45)
              (RouteResult.mk (RouteData.mk 2200 40 coordinates) stops fs))
    as [t [w3 Hrun]].
  eexists. exists w3. split; [exact Hrun|].
  cbn [HOSStatus.violations].
  rewrite duty_time_of_shapes. cbn [RouteResult.stops RouteResult.route]. rewrite Hshape.
  assert (E : HOSCalculator._check_violations (TripRequest.mk current pickup dropoff 45)
                (RouteData.mk 2200 40 coordinates)
                (Py.min (RouteData.duration (RouteData.mk 2200 40 coordinates))
                        (inject_Z HOS_LIMITS.DAILY_DRIVE_LIMIT))
                (Py.min
                   (fold_left duty_step
                      ([("pickup", 1%Q); ("rest", 10%Q); ("rest", 10%Q); ("rest", 10%Q)]
                       ++ [("dropoff", 1%Q)])
                      (RouteData.duration (RouteData.mk 2200 40 coordinates)))
                   (inject_Z HOS_LIMITS.DAILY_DUTY_LIMIT))
              = [HOSCalculator.multi_day_message]) by (vm_compute; reflexivity).
  rewrite E. split; [reflexivity|].
  intros hours [Hin | []].
  pose proof (Compliance.daily_drive_message_suffix hours) as Hsuf.
  rewrite <- Hin in Hsuf. vm_compute in Hsuf. discriminate.
Qed.

(** The theorem on the coordinates of the test world. *)
Lemma C1_witness :
  exists (r : RouteResult.t) (w' : TestWorld.World),
    plan TestWorld.env (RouteData.mk 2200 40 TestWorld.coords3)
         (TripRequest.mk "New York, NY" "Philadelphia, PA" "Atlanta, GA" 45)
         TestWorld.w0 = (Ok r, w')
    /\ map Stop.type (RouteResult.stops r)
       = ["pickup"; "rest"; "rest"; "rest"; "dropoff"]
    /\ Helpers.calculate_fuel_stops 2200 0 = Some [1000%Q; 2000%Q]
    /\ map Stop.description (RouteResult.fuel_stops r)
       = ["Fuel stop at mile 1000"; "Fuel stop at mile 2000"]
    /\ forall w2 : TestWorld.World,
       exists (hos : HOSStatus.t) (w3 : TestWorld.World),
         HOSCalculator.calculate_compliance TestWorld.env
           (TripRequest.mk "New York, NY" "Philadelphia, PA" "Atlanta, GA" 45) r w2
         = (Ok hos, w3)
         /\ HOSStatus.violations hos = [HOSCalculator.multi_day_message]
         /\ forall t : Q,
              ~ In (HOSCalculator.daily_drive_message t) (HOSStatus.violations hos).
Proof.
  apply (C1_scenario_reports_multi_day_violation_only TestWorld.World TestWorld.env
           TestWorld.w0 TestWorld.coords3).
  unfold TestWorld.coords3. discriminate.
Defined.

(** C4 on the code.  On a route of 1050 miles and 11.5 hours the planner
    emits one fuel stop of half an hour; the duty time of the compliance
    status is 13.5 hours, the route duration plus pickup and dropoff,
    while the duty time in the words of the specification, which counts
    the fuel stop, is 14 hours.  The duty-time loop reads
    [route_data['stops']], and the fuel stops are in
    [route_data['fuel_stops']]. *)
Theorem C4_fuel_stops_left_out_of_duty_time :
  forall (World : Type) (env : Env World) (w : World)
         (coordinates : list (Q * Q)) (tr : TripRequest.t),
    coordinates <> [] ->
    exists (r : RouteResult.t) (w' : World),
      plan env (RouteData.mk 1050 (115 # 10) coordinates) tr w = (Ok r, w')
      /\ map Stop.type (RouteResult.stops r) = ["pickup"; "rest"; "dropoff"]
      /\ map Stop.type (RouteResult.fuel_stops r) = ["fuel"]
      /\ (spec_duty_time r == 14)%Q
      /\ forall w2 : World,
         exists (hos : HOSStatus.t) (w3 : World),
           HOSCalculator.calculate_compliance env tr r w2 = (Ok hos, w3)
           /\ (HOSStatus.duty_time_today hos == 135 # 10)%Q
           /\ ~ (HOSStatus.duty_time_today hos == spec_duty_time r)%Q.
Proof.
  intros World env w coordinates tr Hne.
  destruct (plan_on_distance env w 1050 (115 # 10) coordinates tr
              [("pickup", 1%Q); ("rest", 10%Q)] [1000%Q])
    as [stops [fs [w' [Hplan [Hshape [Hd Hs]]]]]];
    [vm_compute; reflexivity | vm_compute; reflexivity | exact Hne |].
  set (r := RouteResult.mk (RouteData.mk 1050 (115 # 10) coordinates) stops fs) in *.
  assert (Hspec : (spec_duty_time r == 14)%Q).
  { rewrite spec_duty_time_of_shapes. subst r.
    cbn [RouteResult.stops RouteResult.fuel_stops RouteResult.route RouteData.duration].
    rewrite Hshape, Hs. vm_compute. reflexivity. }
  assert (Hcode : (HOSCalculator._calculate_estimated_duty_time r == 135 # 10)%Q).
  { rewrite duty_time_of_shapes. subst r.
    cbn [RouteResult.stops RouteResult.route RouteData.duration].
    rewrite Hshape. vm_compute. reflexivity. }
  exists r, w'. split; [exact Hplan|].
  split; [subst r; cbn [RouteResult.stops]; rewrite types_of_shapes, Hshape; reflexivity|].
  split; [subst r; cbn [RouteResult.fuel_stops]; rewrite types_of_shapes, Hs; reflexivity|].
  split; [exact Hspec|].
  intros w2. destruct (compliance_run env w2 tr r) as [t [w3 Hrun]].
  eexists. exists w3. split; [exact Hrun|]. cbn [HOSStatus.duty_time_today].
  split; [exact Hcode|]. rewrite Hcode, Hspec. intro H. vm_compute in H. discriminate.
Qed.

(** The theorem on the coordinates of the test world. *)
Lemma C4_witness :
  exists (r : RouteResult.t) (w' : TestWorld.World),
    plan TestWorld.env (RouteData.mk 1050 (115 # 10) TestWorld.coords3)
         (TestWorld.trip 10) TestWorld.w0 = (Ok r, w')
    /\ map Stop.type (RouteResult.stops r) = ["pickup"; "rest"; "dropoff"]
    /\ map Stop.type (RouteResult.fuel_stops r) = ["fuel"]
    /\ (spec_duty_time r == 14)%Q
    /\ forall w2 : TestWorld.World,
       exists (hos : HOSStatus.t) (w3 : TestWorld.World),
         HOSCalculator.calculate_compliance TestWorld.env (TestWorld.trip 10) r w2
         = (Ok hos, w3)
         /\ (HOSStatus.duty_time_today hos == 135 # 10)%Q
         /\ ~ (HOSStatus.duty_time_today hos == spec_duty_time r)%Q.
Proof.
  apply (C4_fuel_stops_left_out_of_duty_time TestWorld.World TestWorld.env
           TestWorld.w0 TestWorld.coords3 (TestWorld.trip 10)).
  unfold TestWorld.coords3. discriminate.
Defined.

End PlannerFacts.

(** ** The log builder *)

Module LogFacts.
Import Timeline.

(** *** Dates and durations *)

Lemma combine_max_ge (t : datetime) : t <= combine_max (date_of t).
Proof.
  unfold combine_max, date_of, US_PER_DAY.
  pose proof (Z.mod_pos_bound t 86400000000 ltac:(lia)).
  pose proof (Z.div_mod t 86400000000 ltac:(lia)). lia.
Qed.

Lemma date_of_within (t x : datetime) :
  t <= x <= combine_max (date_of t) -> date_of x = date_of t.
Proof.
  unfold combine_max, date_of, US_PER_DAY. intros [H1 H2].
  pose proof (Z.mod_pos_bound t 86400000000 ltac:(lia)).
  pose proof (Z.div_mod t 86400000000 ltac:(lia)).
  symmetry. apply Z.div_unique with (r := x - 86400000000 * (t / 86400000000)); lia.
Qed.

Lemma date_of_combine_min (d : date) : date_of (combine_min d) = d.
Proof. unfold date_of, combine_min, US_PER_DAY. apply Z.div_mul. lia. Qed.

Lemma combine_max_min (d : date) : combine_max d - combine_min d = US_PER_DAY - 1.
Proof. unfold combine_max, combine_min. lia. Qed.

Lemma timedelta_total_hours (n : Z) : timedelta_hours (total_hours n) = n.
Proof.
  unfold timedelta_hours, total_hours.
  rewrite <- (round_half_even_Z n) at 2. apply round_half_even_comp.
  field. unfold US_PER_HOUR. intro H. discriminate H.
Qed.

Lemma timedelta_mono (x y : Q) : (x <= y)%Q -> timedelta_hours x <= timedelta_hours y.
Proof.
  intros H. unfold timedelta_hours. apply round_half_even_mono.
  apply Qmult_le_compat_r; [exact H|]. unfold US_PER_HOUR. discriminate.
Qed.

Lemma timedelta_nonneg (x : Q) : (0 <= x)%Q -> 0 <= timedelta_hours x.
Proof.
  intros H. unfold timedelta_hours. apply round_half_even_nonneg.
  apply Qmult_le_0_compat; [exact H|]. unfold US_PER_HOUR. discriminate.
Qed.

Lemma total_hours_nonneg (n : Z) : 0 <= n -> (0 <= total_hours n)%Q.
Proof.
  intros H. unfold total_hours. apply Qle_shift_div_l.
  - unfold US_PER_HOUR. reflexivity.
  - rewrite Qmult_0_l. change 0%Q with (inject_Z 0). now rewrite <- Zle_Qle.
Qed.

(** A whole day, less its last microsecond, is longer than 23 hours. *)
Lemma whole_day_hours : (23 <= total_hours (US_PER_DAY - 1))%Q.
Proof. vm_compute. discriminate. Qed.

(** *** Sums of hours *)

Lemma fold_left_Qplus_acc (l : list Q) :
  forall a : Q, (fold_left Qplus l a == a + Py.sum l)%Q.
Proof.
  unfold Py.sum. induction l as [| x l IH]; intros a; simpl.
  - lra.
  - rewrite (IH (a + x)%Q), (IH (0 + x)%Q). lra.
Qed.

Lemma sum_cons (x : Q) (l : list Q) : (Py.sum (x :: l) == x + Py.sum l)%Q.
Proof.
  unfold Py.sum at 1. simpl. rewrite fold_left_Qplus_acc. lra.
Qed.

Lemma sum_app (l1 l2 : list Q) : (Py.sum (l1 ++ l2) == Py.sum l1 + Py.sum l2)%Q.
Proof.
  induction l1 as [| x l1 IH]; simpl.
  - unfold Py.sum at 2. simpl. lra.
  - rewrite !sum_cons, IH. lra.
Qed.

Lemma all_entries_app (logs : list DailyLog.t) (log : DailyLog.t) :
  all_entries (logs ++ [log]) = all_entries logs ++ DailyLog.entries log.
Proof.
  unfold all_entries. rewrite flat_map_app. simpl. now rewrite app_nil_r.
Qed.

(** *** The day-splitting loop *)

(** One round appends one entry, which starts at the cursor; it either
    uses up the remaining time within the day or runs to the end of the
    day and leaves the rest. *)
Lemma split_body_entry (status location : string) (s : ELDService.split_state) :
  let cur := ELDService.current_time s in
  let end_of_day := combine_max (date_of cur) in
  let time_in_day := total_hours (end_of_day - cur) in
  exists e : ELDEntry.t,
    cursor_entries (cursor_of (ELDService.split_body status location s))
    = cursor_entries (cursor_of s) ++ [e]
    /\ ELDEntry.start_time e = cur
    /\ (((ELDService.remaining_time s <= time_in_day)%Q
         /\ ELDEntry.end_time e = cur + timedelta_hours (ELDService.remaining_time s)
         /\ ELDEntry.duration e = ELDService.remaining_time s
         /\ ELDService.remaining_time (ELDService.split_body status location s) = 0%Q)
        \/ ((time_in_day < ELDService.remaining_time s)%Q
            /\ ELDEntry.end_time e = end_of_day
            /\ ELDEntry.duration e = time_in_day
            /\ ELDService.remaining_time (ELDService.split_body status location s)
               = (ELDService.remaining_time s - time_in_day)%Q
            /\ ELDService.current_time (ELDService.split_body status location s)
               = combine_min (date_of cur + 1))).
Proof.
  intros cur end_of_day time_in_day. unfold ELDService.split_body.
  fold cur. fold end_of_day. fold time_in_day.
  destruct (Qleb_spec (ELDService.remaining_time s) time_in_day) as [Hle | Hgt].
  - exists (ELDEntry.mk status cur (cur + timedelta_hours (ELDService.remaining_time s))
                        location (ELDService.remaining_time s)).
    split.
    { unfold cursor_of, cursor_entries. cbn. rewrite app_assoc. reflexivity. }
    split; [reflexivity|]. left. auto.
  - exists (ELDEntry.mk status cur end_of_day location time_in_day).
    split.
    { unfold cursor_of, cursor_entries.
      cbn [ELDService.current_time ELDService.current_log ELDService.daily_logs].
      rewrite all_entries_app. cbn. rewrite app_nil_r, app_assoc. reflexivity. }
    split; [reflexivity|]. right.
    split; [lra|]. auto.
Qed.

(** The loop returns within its budget from every state. *)
Lemma split_loop_total (status location : string) (s0 : ELDService.split_state) :
  exists s',
    while ELDService.split_cond (ELDService.split_body status location)
          (ELDService.split_budget (ELDService.remaining_time s0)) s0 = Some s'.
Proof.
  unfold ELDService.split_budget.
  set (n := Z.to_nat (Qceiling (ELDService.remaining_time s0 / 23))).
  change (while ELDService.split_cond (ELDService.split_body status location)
                (S (S n)) s0)
    with (if ELDService.split_cond s0
          then while ELDService.split_cond (ELDService.split_body status location)
                     (S n) (ELDService.split_body status location s0)
          else Some s0).
  destruct (ELDService.split_cond s0) eqn:Hc; [| eauto].
  assert (Hcov : (ELDService.remaining_time s0 <= 23 * inject_Z (Z.of_nat n))%Q)
    by (apply budget_covers; lra).
  assert (Hexit : forall s, (ELDService.remaining_time s <= 0)%Q ->
                            ELDService.split_cond s = false).
  { intros s H. unfold ELDService.split_cond. now apply Qltb_false. }
  destruct (split_body_entry status location s0)
    as [e [_ [_ [[_ [_ [_ Hrem]]] | [Hlt [_ [_ [Hrem Hcur]]]]]]]].
  - exists (ELDService.split_body status location s0).
    cbn [while]. rewrite Hexit; [reflexivity | rewrite Hrem; lra].
  - destruct (while_total ELDService.split_cond (ELDService.split_body status location)
                (fun s => exists d, ELDService.current_time s = combine_min d)
                ELDService.remaining_time 23%Q) with (n := n)
        (s := ELDService.split_body status location s0) as [s' Hs'].
    + lra.
    + exact Hexit.
    + intros s [d Hd] _.
      destruct (split_body_entry status location s)
        as [e' [_ [_ [[_ [_ [_ Hrem']]] | [_ [_ [_ [Hrem' Hcur']]]]]]]].
      * right. rewrite Hrem'. lra.
      * left. split; [eexists; exact Hcur'|]. rewrite Hrem', Hd.
        rewrite date_of_combine_min, combine_max_min.
        pose proof whole_day_hours. lra.
    + eexists. exact Hcur.
    + rewrite Hrem.
      pose proof (total_hours_nonneg
                    (combine_max (date_of (ELDService.current_time s0))
                     - ELDService.current_time s0)) as Hnn.
      pose proof (combine_max_ge (ELDService.current_time s0)).
      assert (0 <= combine_max (date_of (ELDService.current_time s0))
                   - ELDService.current_time s0) by lia.
      specialize (Hnn H0). lra.
    + exists s'. exact Hs'.
Qed.

(** Either entry routine returns; it appends entries that each stay
    within one date and, for a duration that is not negative, add up to
    that duration. *)
Lemma add_entry_split_spec (c : ELDService.Cursor) (status location : string)
    (duration : Q) :
  exists (c' : ELDService.Cursor) (es : list ELDEntry.t),
    ELDService.add_entry_split c status location duration = Some c'
    /\ cursor_entries c' = cursor_entries c ++ es
    /\ Forall same_day es
    /\ ((0 <= duration)%Q -> (Py.sum (map ELDEntry.duration es) == duration)%Q).
Proof.
  destruct c as [[cur log] logs]. unfold ELDService.add_entry_split.
  destruct (date_of cur =? date_of (cur + timedelta_hours duration)) eqn:Hd;
    cbn [negb].
  - exists (cur + timedelta_hours duration,
            DailyLog.add_entry log
              (ELDEntry.mk status cur (cur + timedelta_hours duration) location duration),
            logs),
           [ELDEntry.mk status cur (cur + timedelta_hours duration) location duration].
    split; [reflexivity|]. split.
    { unfold cursor_entries. cbn. now rewrite app_assoc. }
    split.
    { constructor; [| constructor]. unfold same_day. cbn. now apply Z.eqb_eq. }
    intros _. unfold Py.sum. cbn. lra.
  - set (s0 := ELDService.mkSplit cur log logs duration).
    destruct (split_loop_total status location s0) as [s' Hs'].
    change (ELDService.remaining_time s0) with duration in Hs'.
    rewrite Hs'. cbn [option_map].
    set (Inv := fun s : ELDService.split_state =>
           exists es : list ELDEntry.t,
             cursor_entries (cursor_of s) = cursor_entries (cursor_of s0) ++ es
             /\ Forall same_day es
             /\ ((0 <= duration)%Q ->
                 (0 <= ELDService.remaining_time s)%Q
                 /\ (Py.sum (map ELDEntry.duration es) + ELDService.remaining_time s
                     == duration)%Q)).
    assert (Hstep : forall s, Inv s -> ELDService.split_cond s = true ->
                              Inv (ELDService.split_body status location s)).
    { intros s [es [Hes [Hsame Hsum]]] Hc.
      unfold ELDService.split_cond in Hc.
      destruct (Qltb_spec 0 (ELDService.remaining_time s)) as [Hpos |]; [| discriminate].
      pose proof (combine_max_ge (ELDService.current_time s)) as Hge.
      destruct (split_body_entry status location s) as [e [He [Hstart Hcase]]].
      exists (es ++ [e]). split; [rewrite He, Hes; now rewrite app_assoc|].
      split.
      - apply Forall_app. split; [exact Hsame|]. constructor; [| constructor].
        unfold same_day. rewrite Hstart. symmetry. apply date_of_within.
        destruct Hcase as [[Hle [Hend _]] | [_ [Hend _]]]; rewrite Hend.
        + split.
          * pose proof (timedelta_nonneg (ELDService.remaining_time s)
                          ltac:(lra)). lia.
          * apply timedelta_mono in Hle. rewrite timedelta_total_hours in Hle. lia.
        + lia.
      - intros Hnn. destruct (Hsum Hnn) as [Hrem Htot].
        rewrite map_app, sum_app. cbn [map]. rewrite sum_cons.
        unfold Py.sum at 2. cbn [fold_left].
        destruct Hcase as [[Hle [_ [Hdur Hrem']]] | [Hlt [_ [Hdur [Hrem' _]]]]];
          rewrite Hdur, Hrem'; split; lra. }
    assert (Hinit : Inv s0).
    { exists []. split; [now rewrite app_nil_r|]. split; [constructor|].
      intros Hnn. unfold Py.sum. cbn. split; lra. }
    destruct (while_inv _ _ Inv Hstep _ _ _ Hinit Hs') as [[es [Hes [Hsame Hsum]]] Hc].
    eexists. exists es. split; [reflexivity|]. split; [exact Hes|].
    split; [exact Hsame|]. intros Hnn. destruct (Hsum Hnn) as [Hrem Htot].
    unfold ELDService.split_cond in Hc.
    destruct (Qltb_spec 0 (ELDService.remaining_time s')); [discriminate | lra].
Qed.

Lemma leg_drive_time_nonneg (route : RouteData.t) (prev : option Stop.t) (stop : Stop.t) :
  (0 <= RouteData.duration route)%Q ->
  (0 <= ELDService.leg_drive_time route prev stop)%Q.
Proof.
  intros H. unfold ELDService.leg_drive_time.
  destruct prev as [p |]; [| lra].
  unfold ELDService._calculate_drive_time_between_stops.
  assert (Hs : (0 <= RouteData.duration route / 5)%Q).
  { apply Qle_shift_div_l; [reflexivity | lra]. }
  destruct (String.eqb _ _); [| destruct (String.eqb _ _)];
    apply Qmult_le_0_compat; (exact Hs || discriminate).
Qed.

(** The loop over the stops returns; it appends same-day entries whose
    hours are the leg drive times plus the stop durations. *)
Lemma process_stops_spec (route : RouteData.t) (all_stops : list Stop.t) :
  forall (prev : option Stop.t) (c : ELDService.Cursor),
  exists (c' : ELDService.Cursor) (es : list ELDEntry.t),
    ELDService.process_stops route prev all_stops c = Some c'
    /\ cursor_entries c' = cursor_entries c ++ es
    /\ Forall same_day es
    /\ ((0 <= RouteData.duration route)%Q ->
        Forall (fun s => (0 <= Stop.duration s)%Q) all_stops ->
        (Py.sum (map ELDEntry.duration es)
         == Py.sum (leg_drive_times route prev all_stops)
            + Py.sum (map Stop.duration all_stops))%Q).
Proof.
  induction all_stops as [| stop rest IH]; intros prev c.
  - exists c, []. split; [reflexivity|]. split; [now rewrite app_nil_r|].
    split; [constructor|]. intros _ _. unfold Py.sum. cbn. lra.
  - cbn [ELDService.process_stops leg_drive_times map].
    set (drive_time := ELDService.leg_drive_time route prev stop).
    set (label := match prev with
                  | Some p => Location.address (Stop.location p)
                  | None => "Start Location"
                  end).
    assert (Hdrive : exists (c1 : ELDService.Cursor) (es1 : list ELDEntry.t),
               (if Py.Qltb 0 drive_time
                then let '(current_time, current_log, daily_logs) := c in
                     ELDService._add_driving_entry current_time current_log daily_logs
                       drive_time label
                else Some c) = Some c1
               /\ cursor_entries c1 = cursor_entries c ++ es1
               /\ Forall same_day es1
               /\ ((0 <= drive_time)%Q ->
                   (Py.sum (map ELDEntry.duration es1) == drive_time)%Q)).
    { destruct (Qltb_spec 0 drive_time) as [Hpos | Hle].
      - destruct c as [[cur log] logs]. unfold ELDService._add_driving_entry.
        apply add_entry_split_spec.
      - exists c, []. split; [reflexivity|]. split; [now rewrite app_nil_r|].
        split; [constructor|]. intros Hnn. unfold Py.sum. cbn. lra. }
    destruct Hdrive as [c1 [es1 [E1 [Hc1 [Hs1 Hsum1]]]]]. rewrite E1.
    destruct c1 as [[cur1 log1] logs1].
    destruct (add_entry_split_spec (cur1, log1, logs1)
                (if existsb (String.eqb (Stop.type stop)) ["pickup"; "dropoff"; "fuel"]
                 then DUTY_STATUS.ON_DUTY
                 else if String.eqb (Stop.type stop) "rest" then DUTY_STATUS.SLEEPER
                      else DUTY_STATUS.OFF_DUTY)
                (Location.address (Stop.location stop)) (Stop.duration stop))
      as [c2 [es2 [E2 [Hc2 [Hs2 Hsum2]]]]].
    unfold ELDService._add_stop_entry. rewrite E2.
    destruct (IH (Some stop) c2) as [c3 [es3 [E3 [Hc3 [Hs3 Hsum3]]]]].
    rewrite E3. exists c3, (es1 ++ es2 ++ es3).
    split; [reflexivity|]. split.
    { rewrite Hc3, Hc2, Hc1. now rewrite !app_assoc. }
    split.
    { apply Forall_app. split; [exact Hs1|]. apply Forall_app. now split. }
    intros Hnn Hall. inversion Hall as [| ? ? Hstop Hrest]; subst.
    rewrite !map_app, !sum_app, !sum_cons.
    rewrite (Hsum1 (leg_drive_time_nonneg route prev stop Hnn)).
    rewrite (Hsum2 Hstop), (Hsum3 Hnn Hrest). lra.
Qed.

Lemma returned_logs_entries (c : ELDService.Cursor) :
  all_entries (returned_logs c) = cursor_entries c.
Proof.
  destruct c as [[cur log] logs]. unfold returned_logs, cursor_entries.
  destruct (DailyLog.entries log) as [| e es] eqn:E.
  - now rewrite app_nil_r.
  - now rewrite all_entries_app, E.
Qed.

(** [generate_logs] returns on every input: the clock is read once and the
    stops are walked from an empty log opened on that date. *)
Lemma generate_logs_run {World : Type} (env : Env World) (w : World)
    (route_data : RouteResult.t) (tr : TripRequest.t) :
  exists (t : datetime) (w' : World) (c : ELDService.Cursor),
    ELDService.process_stops (RouteResult.route route_data) None
      (ELDService._merge_and_sort_stops (RouteResult.stops route_data)
                                        (RouteResult.fuel_stops route_data))
      (t, DailyLog.new (date_of t), []) = Some c
    /\ ELDService.generate_logs env route_data tr w = (Ok (returned_logs c), w').
Proof.
  destruct (datetime_now env w) as [t w1] eqn:Hnow.
  destruct (process_stops_spec (RouteResult.route route_data)
              (ELDService._merge_and_sort_stops (RouteResult.stops route_data)
                                                (RouteResult.fuel_stops route_data))
              None (t, DailyLog.new (date_of t), [])) as [c [es [Hc _]]].
  exists t, w1, c. split; [exact Hc|].
  unfold ELDService.generate_logs, try_except, bind, now. rewrite Hnow.
  unfold of_option. rewrite Hc.
  destruct c as [[cur log] logs]. unfold returned_logs, ret.
  destruct (DailyLog.entries log); reflexivity.
Qed.

(** C5.  On every input the log builder returns, and every entry of every
    daily log it returns starts and ends on the same calendar date. *)
Theorem C5_entries_stay_within_one_date :
  forall (World : Type) (env : Env World) (w : World)
         (route_data : RouteResult.t) (tr : TripRequest.t),
  exists (logs : list DailyLog.t) (w' : World),
    ELDService.generate_logs env route_data tr w = (Ok logs, w')
    /\ Forall (fun log => Forall same_day (DailyLog.entries log)) logs.
Proof.
  intros World env w route_data tr.
  destruct (generate_logs_run env w route_data tr) as [t [w' [c [Hc Hrun]]]].
  exists (returned_logs c), w'. split; [exact Hrun|].
  destruct (process_stops_spec (RouteResult.route route_data)
              (ELDService._merge_and_sort_stops (RouteResult.stops route_data)
                                                (RouteResult.fuel_stops route_data))
              None (t, DailyLog.new (date_of t), []))
    as [c' [es [Hc' [Hes [Hsame _]]]]].
  rewrite Hc in Hc'. inversion Hc'; subst c'.
  assert (Hall : Forall same_day (all_entries (returned_logs c))).
  { rewrite returned_logs_entries, Hes. exact Hsame. }
  unfold all_entries in Hall. rewrite Forall_flat_map in Hall. exact Hall.
Qed.

(** For a route duration and stop durations that are not negative, the
    hours of all entries of all daily logs returned by the log builder are
    the drive times of the legs between the stops that the builder visits
    plus the durations of these stops. *)
Lemma logged_hours_of_visited_stops :
  forall (World : Type) (env : Env World) (w : World)
         (route_data : RouteResult.t) (tr : TripRequest.t),
    let route := RouteResult.route route_data in
    let all_stops :=
      ELDService._merge_and_sort_stops (RouteResult.stops route_data)
                                       (RouteResult.fuel_stops route_data) in
    (0 <= RouteData.duration route)%Q ->
    Forall (fun s => (0 <= Stop.duration s)%Q) all_stops ->
    exists (logs : list DailyLog.t) (w' : World),
      ELDService.generate_logs env route_data tr w = (Ok logs, w')
      /\ (logged_hours logs
          == Py.sum (leg_drive_times route None all_stops)
             + Py.sum (map Stop.duration all_stops))%Q.
Proof.
  intros World env w route_data tr route all_stops Hnn Hall.
  destruct (generate_logs_run env w route_data tr) as [t [w' [c [Hc Hrun]]]].
  exists (returned_logs c), w'. split; [exact Hrun|].
  destruct (process_stops_spec route all_stops None (t, DailyLog.new (date_of t), []))
    as [c' [es [Hc' [Hes [_ Hsum]]]]].
  subst route all_stops. rewrite Hc in Hc'. inversion Hc'; subst c'.
  unfold logged_hours. rewrite returned_logs_entries, Hes. cbn [cursor_entries app all_entries flat_map DailyLog.entries DailyLog.new].
  exact (Hsum Hnn Hall).
Qed.

(** The planned trip is logged on three dates, for 34.5 hours in all. *)
Example planned_trip_logs :
  match fst (ELDService.generate_logs TestWorld.env Scenario.planned
               (TestWorld.trip 45) TestWorld.w0) with
  | Ok logs =>
      map DailyLog.date logs = [20000; 20001; 20002]
      /\ (logged_hours logs == 345 # 10)%Q
  | _ => False
  end.
Proof. vm_compute. split; reflexivity. Qed.

(** *** Stored totals of the logs that the builder returns *)

Lemma split_body_consistent (status location : string) (s : ELDService.split_state) :
  cursor_consistent (cursor_of s) ->
  cursor_consistent (cursor_of (ELDService.split_body status location s)).
Proof.
  unfold cursor_consistent, cursor_of, ELDService.split_body. intros [Hlog Hlogs].
  destruct (Py.Qleb _ _);
    cbn [ELDService.current_time ELDService.current_log ELDService.daily_logs].
  - split; [now apply LogTotals.consistent_add_entry | exact Hlogs].
  - split; [apply LogTotals.consistent_new|].
    apply Forall_app. split; [exact Hlogs|].
    constructor; [now apply LogTotals.consistent_add_entry | constructor].
Qed.

Lemma add_entry_split_consistent (c c' : ELDService.Cursor) (status location : string)
    (duration : Q) :
  ELDService.add_entry_split c status location duration = Some c' ->
  cursor_consistent c -> cursor_consistent c'.
Proof.
  destruct c as [[cur log] logs]. unfold ELDService.add_entry_split.
  destruct (negb _).
  - destruct (while _ _ _ _) as [s' |] eqn:Hrun; [| discriminate].
    cbn [option_map]. intros E Hc. inversion E; subst c'.
    change (cursor_consistent
              (cursor_of (ELDService.mkSplit cur log logs duration))) in Hc.
    destruct (while_inv _ _ (fun s => cursor_consistent (cursor_of s))
                (fun s H _ => split_body_consistent status location s H)
                _ _ _ Hc Hrun) as [H _].
    exact H.
  - intros E [Hlog Hlogs]. inversion E; subst c'.
    split; [now apply LogTotals.consistent_add_entry | exact Hlogs].
Qed.

Lemma process_stops_consistent (route : RouteData.t) (all_stops : list Stop.t) :
  forall (prev : option Stop.t) (c c' : ELDService.Cursor),
    ELDService.process_stops route prev all_stops c = Some c' ->
    cursor_consistent c -> cursor_consistent c'.
Proof.
  induction all_stops as [| stop rest IH]; intros prev c c' Hrun Hc.
  - cbn in Hrun. now inversion Hrun; subst.
  - cbn [ELDService.process_stops] in Hrun.
    destruct (Py.Qltb 0 (ELDService.leg_drive_time route prev stop)).
    + destruct c as [[cur log] logs]. unfold ELDService._add_driving_entry in Hrun.
      destruct (ELDService.add_entry_split (cur, log, logs) _ _ _)
        as [[[cur1 log1] logs1] |] eqn:E1; [| discriminate].
      apply add_entry_split_consistent in E1; [| exact Hc].
      unfold ELDService._add_stop_entry in Hrun.
      destruct (ELDService.add_entry_split (cur1, log1, logs1) _ _ _)
        as [c2 |] eqn:E2; [| discriminate].
      apply add_entry_split_consistent in E2; [| exact E1].
      exact (IH _ _ _ Hrun E2).
    + destruct c as [[cur log] logs]. unfold ELDService._add_stop_entry in Hrun.
      destruct (ELDService.add_entry_split (cur, log, logs) _ _ _)
        as [c2 |] eqn:E2; [| discriminate].
      apply add_entry_split_consistent in E2; [| exact Hc].
      exact (IH _ _ _ Hrun E2).
Qed.

Lemma returned_logs_consistent (c : ELDService.Cursor) :
  cursor_consistent c -> Forall Recount.consistent (returned_logs c).
Proof.
  destruct c as [[cur log] logs]. intros [Hlog Hlogs]. unfold returned_logs.
  destruct (DailyLog.entries log); [exact Hlogs|].
  apply Forall_app. split; [exact Hlogs | constructor; [exact Hlog | constructor]].
Qed.

(** C6.  A [DailyLog] built from a fresh log by [add_entry] calls holds
    exactly the appended entries, its stored [total_drive_time] is the sum
    of the durations of its [driving] entries and its stored
    [total_duty_time] the sum of the durations of its [driving] and
    [on_duty] entries; and every daily log that the log builder returns
    stores these recomputed totals: the incremental updates do not
    drift. *)
Theorem C6_totals_are_entry_sums :
  (forall (d : Datetime.date) (es : list ELDEntry.t),
     let log := Recount.appended (DailyLog.new d) es in
     DailyLog.entries log = es
     /\ DailyLog.total_drive_time log = Recount.drive_hours es
     /\ DailyLog.total_duty_time log = Recount.duty_hours es)
  /\ (forall (World : Type) (env : Env World) (w : World)
             (route_data : RouteResult.t) (tr : TripRequest.t),
      exists (logs : list DailyLog.t) (w' : World),
        ELDService.generate_logs env route_data tr w = (Ok logs, w')
        /\ Forall
             (fun log =>
                DailyLog.total_drive_time log
                = Recount.drive_hours (DailyLog.entries log)
                /\ DailyLog.total_duty_time log
                   = Recount.duty_hours (DailyLog.entries log))
             logs).
Proof.
  split.
  - intros d es log. subst log.
    rewrite LogTotals.appended_entries, LogTotals.appended_drive,
      LogTotals.appended_duty.
    repeat split; reflexivity.
  - intros World env w route_data tr.
    destruct (generate_logs_run env w route_data tr) as [t [w' [c [Hc Hrun]]]].
    exists (returned_logs c), w'. split; [exact Hrun|].
    apply returned_logs_consistent.
    apply (process_stops_consistent _ _ _ _ _ Hc).
    split; [apply LogTotals.consistent_new | constructor].
Qed.

End LogFacts.

(** ** The request handler end to end *)

Module Pipeline.

(** When the three addresses are geocoded and the routing service answers,
    [calculate_route] is the planner run on the converted summary. *)
Lemma calculate_route_plan {World : Type} (env : Env World)
    (w w1 w2 w3 w4 w5 : World) (tr : TripRequest.t)
    (l1 l2 l3 : Location.t) (metres seconds : Q) (r : RouteResult.t) :
  nominatim_search env (TripRequest.current_location tr) w = (Some l1, w1) ->
  nominatim_search env (TripRequest.pickup_location tr) w1 = (Some l2, w2) ->
  nominatim_search env (TripRequest.dropoff_location tr) w2 = (Some l3, w3) ->
  openroute_directions env (map Location.to_coords [l1; l2; l3]) w3
  = (Some (metres, seconds), w4) ->
  Planner.plan env
    (RouteData.mk (metres / (160934 # 100)) (seconds / 3600)
                  (map Location.to_coords [l1; l2; l3])) tr w4 = (Ok r, w5) ->
  RouteService.calculate_route env tr w = (Ok r, w5).
Proof.
  intros H1 H2 H3 H4 H5.
  unfold RouteService.calculate_route, try_except.
  unfold bind at 1. unfold RouteService.geocode_location at 1. rewrite H1.
  unfold bind at 1. unfold RouteService.geocode_location at 1. rewrite H2.
  unfold bind at 1. unfold RouteService.geocode_location at 1. rewrite H3.
  unfold bind at 1.
  unfold RouteService._calculate_multi_stop_route, try_except.
  unfold bind at 1. unfold RouteService._call_openroute_api. rewrite H4.
  unfold ret at 1. cbn [fst snd].
  unfold Planner.plan in H5. rewrite H5. reflexivity.
Qed.

(** A request with 45 cycle hours is answered with status 200 after four
    HTTP requests; one with 71 cycle hours is answered with status 400
    and no HTTP request has been made. *)
Example post_accepts_and_rejects :
  TestWorld.answered
    (Views.post TestWorld.env (TestWorld.request 45) TestWorld.w_routed)
  = Some (200, 4%nat)
  /\ TestWorld.answered
       (Views.post TestWorld.env (TestWorld.request 71) TestWorld.w_routed)
     = Some (400, 0%nat).
Proof. split; vm_compute; reflexivity. Qed.

End Pipeline.

(** ** More on the stop planner *)

Module PlannerMore.
Import Planner Schedule.

(** [_calculate_rest_stops] on a route with a coordinate: the clock is
    read once, the loop returns, and the result is the loop's stops
    followed by the dropoff at the loop's final time. *)
Lemma rest_stops_run {World : Type} (env : Env World) (w : World)
    (rd : RouteData.t) (tr : TripRequest.t) :
  RouteData.coordinates rd <> [] ->
  exists (t : datetime) (w' : World) (pickup_coords : Q * Q)
         (s' : RouteService.rest_state),
    datetime_now env w = (t, w')
    /\ In pickup_coords (RouteData.coordinates rd)
    /\ while RouteService.rest_cond (RouteService.rest_body rd)
             (RouteService.rest_budget (RouteData.distance rd))
             (RouteService.mkRest
                [Stop.mk "pickup"
                   (Location.mk "Pickup Location" (snd pickup_coords) (fst pickup_coords))
                   (t + timedelta_hours 0) ROUTE_CONSTANTS.PICKUP_DURATION "Pickup cargo"]
                (t + timedelta_hours ROUTE_CONSTANTS.PICKUP_DURATION) 0%Q 0%Q
                (RouteData.distance rd)) = Some s'
    /\ RouteService._calculate_rest_stops env rd tr w
       = (Ok (RouteService.stops s' ++
              [Stop.mk "dropoff"
                 (Location.mk "Dropoff Location"
                    (snd (last (RouteData.coordinates rd) (0%Q, 0%Q)))
                    (fst (last (RouteData.coordinates rd) (0%Q, 0%Q))))
                 (RouteService.current_time s')
                 ROUTE_CONSTANTS.DROPOFF_DURATION "Deliver cargo"]), w').
Proof.
  intros Hne.
  destruct (datetime_now env w) as [t w1] eqn:Hnow.
  set (pickup_coords :=
         match RouteData.coordinates rd with
         | _ :: c :: _ => c
         | [c] => c
         | [] => (0%Q, 0%Q)
         end).
  assert (Hin : In pickup_coords (RouteData.coordinates rd)).
  { subst pickup_coords. destruct (RouteData.coordinates rd) as [| c [| c' l]];
      [congruence | now left | right; now left]. }
  assert (Hp : (match RouteData.coordinates rd with
                | _ :: c :: _ => ret c
                | [c] => ret c
                | [] => raise (mkExn IndexError "list index out of range")
                end) w1 = (@Ok (Q * Q) pickup_coords, w1)).
  { subst pickup_coords. destruct (RouteData.coordinates rd) as [| c [| c' l]];
      [congruence | reflexivity | reflexivity]. }
  set (s0 := RouteService.mkRest
               [Stop.mk "pickup"
                  (Location.mk "Pickup Location" (snd pickup_coords) (fst pickup_coords))
                  (t + timedelta_hours 0) ROUTE_CONSTANTS.PICKUP_DURATION "Pickup cargo"]
               (t + timedelta_hours ROUTE_CONSTANTS.PICKUP_DURATION) 0%Q 0%Q
               (RouteData.distance rd)).
  destruct (PlannerFacts.rest_loop_total rd s0 eq_refl) as [s' Hs'].
  exists t, w1, pickup_coords, s'. split; [reflexivity|]. split; [exact Hin|].
  split; [exact Hs'|].
  unfold RouteService._calculate_rest_stops, bind, now. rewrite Hnow, Hp.
  fold s0. rewrite Hs'. reflexivity.
Qed.

(** *** Positions *)

Lemma last_In (coordinates : list (Q * Q)) :
  coordinates <> [] -> In (last coordinates (0%Q, 0%Q)) coordinates.
Proof.
  intros Hne. destruct (exists_last Hne) as [l' [a E]].
  rewrite E, last_last. apply in_or_app. right. now left.
Qed.

Lemma interpolate_In (coordinates : list (Q * Q)) (mile_marker total_distance : Q) :
  coordinates <> [] ->
  In (Helpers.interpolate_route_position coordinates mile_marker total_distance)
     coordinates.
Proof.
  intros Hne. pose proof (last_In coordinates Hne) as Hlast.
  destruct coordinates as [| c cs]; [congruence|].
  unfold Helpers.interpolate_route_position. cbn [orb].
  destruct (Py.Qleb mile_marker 0); [now left|].
  destruct (Py.Qleb total_distance mile_marker); [exact Hlast|].
  destruct (Z.leb_spec (Z.of_nat (List.length (c :: cs)))
              (Py.int (mile_marker / total_distance
                       * inject_Z (Z.of_nat (List.length (c :: cs)) - 1))));
    [exact Hlast|].
  apply nth_In. cbn [List.length] in *. lia.
Qed.

(** X1.  [interpolate_route_position] returns one of the given
    coordinates whenever there is one, and [[0, 0]] for an empty list.  On
    a list that is not empty a mile marker of 0 or less gives the first
    coordinate, whatever the total distance, and a marker above 0 that is
    at or beyond the total distance gives the last. *)
Theorem interpolate_route_position_on_route :
  forall (c : Q * Q) (cs : list (Q * Q)) (mile_marker total_distance : Q),
    In (Helpers.interpolate_route_position (c :: cs) mile_marker total_distance) (c :: cs)
    /\ Helpers.interpolate_route_position [] mile_marker total_distance = (0%Q, 0%Q)
    /\ ((mile_marker <= 0)%Q ->
        Helpers.interpolate_route_position (c :: cs) mile_marker total_distance = c)
    /\ ((0 < mile_marker)%Q -> (total_distance <= mile_marker)%Q ->
        Helpers.interpolate_route_position (c :: cs) mile_marker total_distance
        = last (c :: cs) (0%Q, 0%Q)).
Proof.
  intros c cs m D.
  split; [apply interpolate_In; discriminate|]. split; [| split].
  - unfold Helpers.interpolate_route_position. cbn [orb]. reflexivity.
  - intros Hm. unfold Helpers.interpolate_route_position. cbn [orb].
    destruct (Qleb_spec m 0); [reflexivity | contradiction].
  - intros Hpos Hge. unfold Helpers.interpolate_route_position. cbn [orb].
    destruct (Qleb_spec m 0); [lra|].
    destruct (Qleb_spec D m); [reflexivity | contradiction].
Qed.

(** The theorem on a route of three coordinates. *)
Lemma interpolate_route_position_on_route_witness :
  Helpers.interpolate_route_position TestWorld.coords3 0 100 = ((-74)%Q, 40%Q)
  /\ Helpers.interpolate_route_position TestWorld.coords3 100 100 = ((-84)%Q, 33%Q).
Proof.
  split.
  - apply (interpolate_route_position_on_route ((-74)%Q, 40%Q)
             [((-75)%Q, 39%Q); ((-84)%Q, 33%Q)] 0 100). lra.
  - apply (interpolate_route_position_on_route ((-74)%Q, 40%Q)
             [((-75)%Q, 39%Q); ((-84)%Q, 33%Q)] 100 100); lra.
Defined.

(** *** The schedule of the stops *)

Lemma last_end_cons (t : datetime) (a : Stop.t) (l : list Stop.t) :
  l <> [] -> last_end t (a :: l) = last_end t l.
Proof.
  intros Hne. unfold last_end. cbn [rev].
  destruct (rev l) as [| b l'] eqn:E; [| reflexivity].
  apply (f_equal (@rev Stop.t)) in E. rewrite rev_involutive in E. contradiction.
Qed.

Lemma last_end_snoc (t : datetime) (l : list Stop.t) (x : Stop.t) :
  last_end t (l ++ [x]) = Stop.time x + timedelta_hours (Stop.duration x).
Proof. unfold last_end. now rewrite rev_unit. Qed.

Lemma chained_snoc (t : datetime) (l : list Stop.t) (x : Stop.t) :
  l <> [] -> chained l -> last_end t l <= Stop.time x -> chained (l ++ [x]).
Proof.
  induction l as [| a l IH]; intros Hne Hch Hle; [congruence|].
  destruct l as [| b l].
  - cbn. unfold last_end in Hle. cbn in Hle. split; [exact Hle | exact I].
  - cbn [app chained] in *. destruct Hch as [Hab Hch]. split; [exact Hab|].
    apply IH; [discriminate | exact Hch|].
    now rewrite last_end_cons in Hle by discriminate.
Qed.

(** What the rest-stop loop keeps: its stops lie on the route, none starts
    before the one in front of it has ended, and the last has ended by the
    loop's current time. *)
Lemma rest_loop_schedule (rd : RouteData.t) (t : datetime)
    (fuel : nat) (s0 s' : RouteService.rest_state) :
  RouteData.coordinates rd <> [] ->
  while RouteService.rest_cond (RouteService.rest_body rd) fuel s0 = Some s' ->
  RouteService.stops s0 <> [] ->
  Forall (anchored (RouteData.coordinates rd)) (RouteService.stops s0) ->
  chained (RouteService.stops s0) ->
  last_end t (RouteService.stops s0) <= RouteService.current_time s0 ->
  RouteService.stops s' <> []
  /\ Forall (anchored (RouteData.coordinates rd)) (RouteService.stops s')
  /\ chained (RouteService.stops s')
  /\ last_end t (RouteService.stops s') <= RouteService.current_time s'.
Proof.
  intros Hne Hrun H1 H2 H3 H4.
  set (Inv := fun s : RouteService.rest_state =>
         RouteService.stops s <> []
         /\ Forall (anchored (RouteData.coordinates rd)) (RouteService.stops s)
         /\ chained (RouteService.stops s)
         /\ last_end t (RouteService.stops s) <= RouteService.current_time s).
  assert (Hstep : forall s, Inv s -> RouteService.rest_cond s = true ->
                            Inv (RouteService.rest_body rd s)).
  { intros s [I1 [I2 [I3 I4]]] Hc. unfold RouteService.rest_cond in Hc.
    destruct (Qltb_spec 0 (RouteService.remaining_distance s)) as [Hpos |];
      [| discriminate].
    assert (Hdt : 0 <= timedelta_hours
                         (Py.min (inject_Z (ROUTE_CONSTANTS.AVERAGE_SPEED * 11))
                                 (RouteService.remaining_distance s)
                          / inject_Z ROUTE_CONSTANTS.AVERAGE_SPEED)).
    { apply LogFacts.timedelta_nonneg. apply Qle_shift_div_l; [reflexivity|].
      change (inject_Z (ROUTE_CONSTANTS.AVERAGE_SPEED * 11)) with 605%Q.
      destruct (min_cases 605 (RouteService.remaining_distance s))
        as [[-> _] | [-> _]]; lra. }
    unfold Inv, RouteService.rest_body.
    destruct (Py.Qltb _ (RouteData.distance rd));
      cbn [RouteService.stops RouteService.current_time].
    - split; [intro E; apply app_eq_nil in E; destruct E; discriminate|].
      split.
      { apply Forall_app. split; [exact I2|]. constructor; [| constructor].
        unfold anchored. cbn. rewrite <- surjective_pairing.
        now apply interpolate_In. }
      split.
      { apply (chained_snoc t); [exact I1 | exact I3|]. cbn [Stop.time]. lia. }
      rewrite last_end_snoc. cbn [Stop.time Stop.duration]. lia.
    - repeat split; try assumption. lia. }
  destruct (while_inv _ _ Inv Hstep _ _ _ (conj H1 (conj H2 (conj H3 H4))) Hrun)
    as [H _].
  exact H.
Qed.

(** [_calculate_fuel_stops] returns the stop built for each marker at
    some clock reading. *)
Lemma fuel_stops_built {World : Type} (env : Env World) (w : World) (rd : RouteData.t) :
  exists (fs : list Stop.t) (w' : World) (j : nat),
    RouteService._calculate_fuel_stops env rd w = (Ok fs, w')
    /\ Forall2 (fun m s => exists t, s = fuel_stop_at rd m t)
               (below (RouteData.distance rd) j) fs.
Proof.
  destruct (PlannerFacts.fuel_loop_result (RouteData.distance rd)) as [j [Hm _]].
  destruct (PlannerFacts.mapM_now env (fuel_stop_at rd)
              (below (RouteData.distance rd) j) w) as [fs [w' [Hrun Hall]]].
  exists fs, w', j. split; [| exact Hall].
  unfold RouteService._calculate_fuel_stops, bind. rewrite Hm. unfold of_option.
  exact Hrun.
Qed.

(** X2.  On a route with at least one coordinate the planner returns a
    plan in which every stop and every fuel stop is placed on one of the
    route's coordinates. *)
Theorem planned_stops_lie_on_the_route :
  forall (World : Type) (env : Env World) (w : World)
         (rd : RouteData.t) (tr : TripRequest.t),
    RouteData.coordinates rd <> [] ->
    exists (r : RouteResult.t) (w' : World),
      plan env rd tr w = (Ok r, w')
      /\ Forall (anchored (RouteData.coordinates rd)) (RouteResult.stops r)
      /\ Forall (anchored (RouteData.coordinates rd)) (RouteResult.fuel_stops r).
Proof.
  intros World env w rd tr Hne.
  destruct (rest_stops_run env w rd tr Hne) as [t [w1 [pc [s' [Hnow [Hin [Hrun Hres]]]]]]].
  destruct (fuel_stops_built env w1 rd) as [fs [w2 [j [Hfuel Hall]]]].
  eexists. exists w2. split.
  { unfold plan, bind. rewrite Hres, Hfuel. reflexivity. }
  cbn [RouteResult.stops RouteResult.fuel_stops].
  split.
  - apply Forall_app. split.
    + refine (proj1 (proj2 (rest_loop_schedule rd t _ _ s' Hne Hrun _ _ _ _))).
      * discriminate.
      * constructor; [| constructor]. unfold anchored. cbn.
        now rewrite <- surjective_pairing.
      * exact I.
      * unfold last_end. cbn. lia.
    + constructor; [| constructor]. unfold anchored. cbn. rewrite <- surjective_pairing.
      now apply last_In.
  - clear Hfuel. induction Hall as [| m s ms ss [t0 ->] _ IH]; constructor.
    + unfold anchored, fuel_stop_at. cbn. rewrite <- surjective_pairing.
      now apply interpolate_In.
    + exact IH.
Qed.

(** The theorem on the route of the test world. *)
Lemma planned_stops_lie_on_the_route_witness :
  exists (r : RouteResult.t) (w' : TestWorld.World),
    plan TestWorld.env (TestWorld.route 1300 40) (TestWorld.trip 45) TestWorld.w0
    = (Ok r, w')
    /\ Forall (anchored (RouteData.coordinates (TestWorld.route 1300 40)))
              (RouteResult.stops r)
    /\ Forall (anchored (RouteData.coordinates (TestWorld.route 1300 40)))
              (RouteResult.fuel_stops r).
Proof.
  apply (planned_stops_lie_on_the_route TestWorld.World TestWorld.env TestWorld.w0
           (TestWorld.route 1300 40) (TestWorld.trip 45)).
  simpl. discriminate.
Defined.

(** The loop only appends to its stops. *)
Lemma rest_loop_prefix (rd : RouteData.t) (fuel : nat)
    (s0 s' : RouteService.rest_state) :
  while RouteService.rest_cond (RouteService.rest_body rd) fuel s0 = Some s' ->
  exists tail : list Stop.t, RouteService.stops s' = RouteService.stops s0 ++ tail.
Proof.
  intros Hrun.
  destruct (while_inv RouteService.rest_cond (RouteService.rest_body rd)
              (fun s => exists tail, RouteService.stops s = RouteService.stops s0 ++ tail))
    with (fuel := fuel) (s := s0) (s' := s') as [H _].
  - intros s [tail E] _. unfold RouteService.rest_body.
    destruct (Py.Qltb _ (RouteData.distance rd)); cbn [RouteService.stops].
    + eexists. rewrite E, <- app_assoc. reflexivity.
    + now exists tail.
  - exists []. now rewrite app_nil_r.
  - exact Hrun.
  - exact H.
Qed.

(** X3.  In the stop list of [_calculate_rest_stops] the first stop is
    scheduled at the clock reading, and no stop is scheduled before the
    stop in front of it has ended: each scheduled time is at least the
    previous scheduled time plus the previous stop's duration. *)
Theorem planned_stops_follow_one_another :
  forall (World : Type) (env : Env World) (w : World)
         (rd : RouteData.t) (tr : TripRequest.t),
    RouteData.coordinates rd <> [] ->
    exists (t : datetime) (w' : World) (first : Stop.t) (others : list Stop.t),
      datetime_now env w = (t, w')
      /\ RouteService._calculate_rest_stops env rd tr w = (Ok (first :: others), w')
      /\ Stop.time first = t
      /\ chained (first :: others).
Proof.
  intros World env w rd tr Hne.
  destruct (rest_stops_run env w rd tr Hne) as [t [w1 [pc [s' [Hnow [Hin [Hrun Hres]]]]]]].
  destruct (rest_loop_prefix rd _ _ _ Hrun) as [tail Htail].
  cbn [RouteService.stops app] in Htail.
  destruct (rest_loop_schedule rd t _ _ s' Hne Hrun) as [N [_ [Hch Hlast]]].
  - discriminate.
  - constructor; [| constructor]. unfold anchored. cbn.
    now rewrite <- surjective_pairing.
  - exact I.
  - unfold last_end. cbn. lia.
  - exists t, w1. eexists. eexists. split; [exact Hnow|]. split.
    + rewrite Hres, Htail. cbn [app]. reflexivity.
    + split; [cbn; lia|].
      rewrite app_comm_cons, <- Htail. apply (chained_snoc t); [exact N | exact Hch | exact Hlast].
Qed.

(** The theorem on the route of the test world. *)
Lemma planned_stops_follow_one_another_witness :
  exists (t : datetime) (w' : TestWorld.World) (first : Stop.t) (others : list Stop.t),
    datetime_now TestWorld.env TestWorld.w0 = (t, w')
    /\ RouteService._calculate_rest_stops TestWorld.env (TestWorld.route 2200 40)
         (TestWorld.trip 45) TestWorld.w0 = (Ok (first :: others), w')
    /\ Stop.time first = t
    /\ chained (first :: others).
Proof.
  apply (planned_stops_follow_one_another TestWorld.World TestWorld.env TestWorld.w0
           (TestWorld.route 2200 40) (TestWorld.trip 45)).
  simpl. discriminate.
Defined.

(** *** How many rest stops *)

Lemma of_nat_succ_Q (i : nat) :
  (inject_Z (Z.of_nat (S i)) == inject_Z (Z.of_nat i) + 1)%Q.
Proof. rewrite Nat2Z.inj_succ. unfold Z.succ. rewrite inject_Z_plus. reflexivity. Qed.

Lemma of_nat_le_Q (i n : nat) :
  (i <= n)%nat -> (inject_Z (Z.of_nat i) <= inject_Z (Z.of_nat n))%Q.
Proof. intros H. rewrite <- Zle_Qle. lia. Qed.

Lemma of_nat_lt_succ_Q (i n : nat) :
  (inject_Z (Z.of_nat n) < inject_Z (Z.of_nat i) + 1)%Q -> (n <= i)%nat.
Proof.
  intros H. rewrite <- of_nat_succ_Q in H. rewrite <- Zlt_Qlt in H. lia.
Qed.

Lemma filter_repeat_same (sh : string * Q) (kind : string) (n : nat) :
  String.eqb (fst sh) kind = true ->
  filter (fun x : string * Q => String.eqb (fst x) kind) (repeat sh n) = repeat sh n.
Proof. intros H. induction n as [| n IH]; cbn; [reflexivity|]. now rewrite H, IH. Qed.

(** The sketched loop on a distance [D] with [605 * n < D <= 605 * (n + 1)]
    ends with the pickup and [n] rest stops. *)
Lemma sketch_rest_count (D : Q) (n fuel : nat) (k : Sketch) :
  (605 * inject_Z (Z.of_nat n) < D)%Q ->
  (D <= 605 * (inject_Z (Z.of_nat n) + 1))%Q ->
  while sketch_cond (sketch_body D) fuel ([("pickup", 1%Q)], 0%Q, D) = Some k ->
  fst (fst k) = ("pickup", 1%Q) :: repeat ("rest", 10%Q) n.
Proof.
  intros Hlo Hhi Hrun.
  set (Inv := fun k : Sketch =>
         (exists i : nat,
            (i <= n)%nat
            /\ fst (fst k) = ("pickup", 1%Q) :: repeat ("rest", 10%Q) i
            /\ (snd (fst k) == 605 * inject_Z (Z.of_nat i))%Q
            /\ (snd k == D - 605 * inject_Z (Z.of_nat i))%Q)
         \/ (fst (fst k) = ("pickup", 1%Q) :: repeat ("rest", 10%Q) n
             /\ (snd k <= 0)%Q)).
  assert (Hstep : forall k, Inv k -> sketch_cond k = true -> Inv (sketch_body D k)).
  { intros [[shapes traveled] remaining] HI Hc.
    unfold Inv, sketch_cond, sketch_body in *. cbn [fst snd] in *.
    destruct (Qltb_spec 0 remaining) as [Hpos |]; [| discriminate].
    destruct HI as [[i [Hi [Hs [Ht Hr]]]] | [_ Hle]]; [| lra].
    change (inject_Z (ROUTE_CONSTANTS.AVERAGE_SPEED * 11)) with 605%Q.
    pose proof (of_nat_le_Q i n Hi) as Hin.
    destruct (min_cases 605 remaining) as [[-> Hmin] | [-> Hmin]].
    - destruct (Nat.eq_dec i n) as [-> | Hneq].
      + rewrite Qltb_false by lra. cbn [fst snd]. right. split; [exact Hs | lra].
      + assert (Hlt : (i < n)%nat) by lia.
        pose proof (of_nat_le_Q (S i) n Hlt) as Hsn. rewrite of_nat_succ_Q in Hsn.
        rewrite Qltb_true by lra. cbn [fst snd]. left. exists (S i).
        split; [lia|]. split.
        { rewrite Hs. cbn [repeat]. rewrite repeat_cons. reflexivity. }
        rewrite of_nat_succ_Q. split; lra.
    - assert (Hni : (n <= i)%nat) by (apply of_nat_lt_succ_Q; lra).
      assert (i = n) by lia. subst i.
      rewrite Qltb_false by lra. cbn [fst snd]. right. split; [exact Hs | lra]. }
  assert (Hinit : Inv ([("pickup", 1%Q)], 0%Q, D)).
  { left. exists 0%nat. cbn [fst snd repeat]. split; [lia|]. split; [reflexivity|].
    change (inject_Z (Z.of_nat 0)) with 0%Q. split; lra. }
  destruct (while_inv _ _ Inv Hstep _ _ _ Hinit Hrun) as [HI Hc].
  destruct HI as [[i [Hi [Hs [Ht Hr]]]] | [Hs _]]; [| exact Hs].
  exfalso. unfold sketch_cond in Hc.
  destruct (Qltb_spec 0 (snd k)); [discriminate|].
  pose proof (of_nat_le_Q i n Hi). lra.
Qed.

(** X4.  A rest stop is planned after every 605 miles that leave part of
    the route to drive: on a route with at least one coordinate and a
    distance [D] with [605 * n < D <= 605 * (n + 1)] the planner emits the
    pickup, exactly [n] rest stops, and the dropoff, in this order. *)
Theorem rest_stops_every_605_miles :
  forall (World : Type) (env : Env World) (w : World)
         (rd : RouteData.t) (tr : TripRequest.t) (n : nat),
    RouteData.coordinates rd <> [] ->
    (605 * inject_Z (Z.of_nat n) < RouteData.distance rd)%Q ->
    (RouteData.distance rd <= 605 * (inject_Z (Z.of_nat n) + 1))%Q ->
    exists (stops : list Stop.t) (w' : World),
      RouteService._calculate_rest_stops env rd tr w = (Ok stops, w')
      /\ map Stop.type stops = "pickup" :: repeat "rest" n ++ ["dropoff"]
      /\ count_type "rest" stops = n.
Proof.
  intros World env w rd tr n Hne Hlo Hhi.
  destruct (PlannerFacts.rest_stops_shapes env w rd tr Hne)
    as [stops [w' [k [Hrun [Hk Hshape]]]]].
  rewrite (sketch_rest_count _ n _ k Hlo Hhi Hk) in Hshape.
  exists stops, w'. split; [exact Hrun|]. split.
  - rewrite PlannerFacts.types_of_shapes, Hshape. cbn [map app fst].
    now rewrite map_app, map_repeat.
  - rewrite PlannerFacts.count_type_of_shapes, Hshape. cbn [app filter fst String.eqb].
    change (String.eqb "pickup" "rest") with false. cbn iota.
    rewrite filter_app, filter_repeat_same by reflexivity.
    cbn. rewrite length_app, repeat_length. cbn. lia.
Qed.

(** The theorem on 2200 miles: three rest stops. *)
Lemma rest_stops_every_605_miles_witness :
  exists (stops : list Stop.t) (w' : TestWorld.World),
    RouteService._calculate_rest_stops TestWorld.env (TestWorld.route 2200 40)
      (TestWorld.trip 45) TestWorld.w0 = (Ok stops, w')
    /\ map Stop.type stops = "pickup" :: repeat "rest" 3 ++ ["dropoff"]
    /\ count_type "rest" stops = 3%nat.
Proof.
  apply (rest_stops_every_605_miles TestWorld.World TestWorld.env TestWorld.w0
           (TestWorld.route 2200 40) (TestWorld.trip 45) 3).
  - simpl. discriminate.
  - vm_compute. reflexivity.
  - vm_compute. discriminate.
Defined.

(** X5.  The planner returns a plan exactly when the route has at least
    one coordinate; with an empty coordinate list it raises [IndexError]
    after one reading of the clock, whatever the distance. *)
Theorem plan_needs_a_coordinate :
  forall (World : Type) (env : Env World) (w : World)
         (rd : RouteData.t) (tr : TripRequest.t),
    ((exists (r : RouteResult.t) (w' : World), plan env rd tr w = (Ok r, w'))
     <-> RouteData.coordinates rd <> [])
    /\ (RouteData.coordinates rd = [] ->
        plan env rd tr w
        = (Raise (mkExn IndexError "list index out of range"),
           snd (datetime_now env w))).
Proof.
  intros World env w rd tr.
  assert (Hempty : RouteData.coordinates rd = [] ->
                   plan env rd tr w
                   = (Raise (mkExn IndexError "list index out of range"),
                      snd (datetime_now env w))).
  { intros E. unfold plan, RouteService._calculate_rest_stops, bind, now.
    destruct (datetime_now env w) as [t w1]. rewrite E. reflexivity. }
  split; [| exact Hempty]. split.
  - intros [r [w' Hrun]] E. rewrite (Hempty E) in Hrun. discriminate.
  - intros Hne.
    destruct (PlannerFacts.plan_shapes env w rd tr Hne)
      as [stops [fs [w' [_ [_ [Hplan _]]]]]].
    eauto.
Qed.

(** The theorem on a route without coordinates. *)
Lemma plan_needs_a_coordinate_witness :
  plan TestWorld.env (RouteData.mk 300 6 []) (TestWorld.trip 10) TestWorld.w0
  = (Raise (mkExn IndexError "list index out of range"),
     snd (datetime_now TestWorld.env TestWorld.w0)).
Proof.
  apply (plan_needs_a_coordinate TestWorld.World TestWorld.env TestWorld.w0
           (RouteData.mk 300 6 []) (TestWorld.trip 10)).
  reflexivity.
Defined.

(** *** The make-up of a plan *)

(** The sketched loop ends with the pickup followed by rest stops only. *)
Lemma sketch_shape_form (D : Q) (fuel : nat) (k : Sketch) :
  while sketch_cond (sketch_body D) fuel ([("pickup", 1%Q)], 0%Q, D) = Some k ->
  exists m : nat, fst (fst k) = ("pickup", 1%Q) :: repeat ("rest", 10%Q) m.
Proof.
  intros Hrun.
  destruct (while_inv sketch_cond (sketch_body D)
              (fun k : Sketch =>
                 exists m : nat, fst (fst k) = ("pickup", 1%Q) :: repeat ("rest", 10%Q) m))
    with (fuel := fuel) (s := ([("pickup", 1%Q)], 0%Q, D)) (s' := k) as [H _].
  - intros [[shapes traveled] remaining] [m Hm] _. unfold sketch_body.
    cbn [fst snd] in *. destruct (Py.Qltb _ D); cbn [fst snd].
    + exists (S m). rewrite Hm. cbn [repeat]. now rewrite repeat_cons.
    + now exists m.
  - now exists 0%nat.
  - exact Hrun.
  - exact H.
Qed.

Lemma shapes_repeat_inv (l : list Stop.t) (sh : string * Q) (m : nat) :
  map shape l = repeat sh m -> Forall (fun s => shape s = sh) l.
Proof.
  revert m. induction l as [| s l IH]; intros m H; [constructor|].
  destruct m as [| m]; [discriminate|]. cbn in H.
  injection H as Hs Hl.
  constructor; [exact Hs | exact (IH m Hl)].
Qed.

Lemma shapes_const_inv (fs : list Stop.t) (sh : string * Q) (l : list Q) :
  map shape fs = map (fun _ => sh) l -> Forall (fun s => shape s = sh) fs.
Proof.
  revert l. induction fs as [| f fs IH]; intros l Hl; [constructor|].
  destruct l as [| a l]; [discriminate|]. cbn in Hl.
  injection Hl as Hf Hl.
  constructor; [exact Hf | exact (IH l Hl)].
Qed.

(** A plan is a pickup, rest stops of ten hours and a dropoff, in this
    order, beside fuel stops of half an hour. *)
Lemma plan_structure {World : Type} (env : Env World) (w : World)
    (rd : RouteData.t) (tr : TripRequest.t) :
  RouteData.coordinates rd <> [] ->
  exists (p d : Stop.t) (rests fs : list Stop.t) (w' : World),
    plan env rd tr w = (Ok (RouteResult.mk rd (p :: rests ++ [d]) fs), w')
    /\ shape p = ("pickup", 1%Q)
    /\ Forall (fun s => shape s = ("rest", 10%Q)) rests
    /\ shape d = ("dropoff", 1%Q)
    /\ Forall (fun s => shape s = ("fuel", 5 # 10)) fs.
Proof.
  intros Hne.
  destruct (PlannerFacts.plan_shapes env w rd tr Hne)
    as [stops [fs [w' [k [j [Hplan [Hk [Hshape [_ [_ [_ Hs]]]]]]]]]]].
  destruct (sketch_shape_form _ _ _ Hk) as [m Hm]. rewrite Hm in Hshape.
  cbn [app] in Hshape.
  apply map_eq_cons in Hshape. destruct Hshape as [p [tl [-> [Hp Htl]]]].
  apply map_eq_app in Htl. destruct Htl as [rests [dl [-> [Hrests Hd]]]].
  apply map_eq_cons in Hd. destruct Hd as [d [nil' [-> [Hd Hnil]]]].
  apply PlannerFacts.map_eq_nil_inv in Hnil. subst nil'.
  exists p, d, rests, fs, w'. split; [exact Hplan|]. split; [exact Hp|].
  split; [now apply shapes_repeat_inv with (m := m)|]. split; [exact Hd|].
  exact (shapes_const_inv _ _ _ Hs).
Qed.

Lemma filter_kind_none (kind : string) (sh : string * Q) (l : list Stop.t) :
  String.eqb (fst sh) kind = false ->
  Forall (fun s => shape s = sh) l ->
  filter (fun s => String.eqb (Stop.type s) kind) l = [].
Proof.
  intros Hk Hall. induction Hall as [| s l Hs _ IH]; [reflexivity|].
  cbn. change (Stop.type s) with (fst (shape s)). now rewrite Hs, Hk.
Qed.

Lemma filter_kind_all (kind : string) (sh : string * Q) (l : list Stop.t) :
  String.eqb (fst sh) kind = true ->
  Forall (fun s => shape s = sh) l ->
  filter (fun s => String.eqb (Stop.type s) kind) l = l.
Proof.
  intros Hk Hall. induction Hall as [| s l Hs _ IH]; [reflexivity|].
  cbn. change (Stop.type s) with (fst (shape s)). now rewrite Hs, Hk, IH.
Qed.

(** [_merge_and_sort_stops] on stops of the planner's shapes. *)
Lemma merge_planned (p d : Stop.t) (rests fs : list Stop.t) :
  shape p = ("pickup", 1%Q) ->
  Forall (fun s => shape s = ("rest", 10%Q)) rests ->
  shape d = ("dropoff", 1%Q) ->
  ELDService._merge_and_sort_stops (p :: rests ++ [d]) fs = p :: fs ++ rests ++ [d].
Proof.
  intros Hp Hrests Hd.
  assert (Tp : Stop.type p = "pickup")
    by (change (Stop.type p) with (fst (shape p)); now rewrite Hp).
  assert (Td : Stop.type d = "dropoff")
    by (change (Stop.type d) with (fst (shape d)); now rewrite Hd).
  unfold ELDService._merge_and_sort_stops. cbn [app filter].
  rewrite Tp. cbn [String.eqb Ascii.eqb Bool.eqb]. cbn iota.
  rewrite !filter_app. cbn [filter]. rewrite Td.
  rewrite (filter_kind_none "pickup" ("rest", 10%Q) rests eq_refl Hrests).
  rewrite (filter_kind_all "rest" ("rest", 10%Q) rests eq_refl Hrests).
  rewrite (filter_kind_none "dropoff" ("rest", 10%Q) rests eq_refl Hrests).
  change (String.eqb "dropoff" "pickup") with false.
  change (String.eqb "dropoff" "rest") with false.
  change (String.eqb "dropoff" "dropoff") with true.
  change (String.eqb "pickup" "rest") with false.
  change (String.eqb "pickup" "dropoff") with false.
  cbn [app]. rewrite !app_nil_r. rewrite <- !app_assoc. reflexivity.
Qed.

(** X6.  The log builder visits the stops of a plan in the order pickup,
    all fuel stops, all rest stops, dropoff: [_merge_and_sort_stops]
    moves the whole block of fuel stops in front of the rest stops and
    loses no stop of the plan. *)
Theorem merged_plan_puts_fuel_stops_before_rest_stops :
  forall (World : Type) (env : Env World) (w : World)
         (rd : RouteData.t) (tr : TripRequest.t),
    RouteData.coordinates rd <> [] ->
    exists (p d : Stop.t) (rests fs : list Stop.t) (w' : World),
      plan env rd tr w = (Ok (RouteResult.mk rd (p :: rests ++ [d]) fs), w')
      /\ Stop.type p = "pickup"
      /\ Forall (fun s => Stop.type s = "rest") rests
      /\ Stop.type d = "dropoff"
      /\ Forall (fun s => Stop.type s = "fuel") fs
      /\ ELDService._merge_and_sort_stops (p :: rests ++ [d]) fs
         = p :: fs ++ rests ++ [d].
Proof.
  intros World env w rd tr Hne.
  destruct (plan_structure env w rd tr Hne)
    as [p [d [rests [fs [w' [Hplan [Hp [Hrests [Hd Hfs]]]]]]]]].
  exists p, d, rests, fs, w'. split; [exact Hplan|].
  assert (Tp : Stop.type p = "pickup") by (change (Stop.type p) with (fst (shape p)); now rewrite Hp).
  assert (Td : Stop.type d = "dropoff") by (change (Stop.type d) with (fst (shape d)); now rewrite Hd).
  split; [exact Tp|]. split.
  { eapply Forall_impl; [| exact Hrests]. intros s Hs.
    change (Stop.type s) with (fst (shape s)). now rewrite Hs. }
  split; [exact Td|]. split.
  { eapply Forall_impl; [| exact Hfs]. intros s Hs.
    change (Stop.type s) with (fst (shape s)). now rewrite Hs. }
  unfold ELDService._merge_and_sort_stops. cbn [app filter].
  rewrite Tp. cbn [String.eqb Ascii.eqb Bool.eqb]. cbn iota.
  rewrite !filter_app. cbn [filter]. rewrite Td.
  rewrite (filter_kind_none "pickup" ("rest", 10%Q) rests eq_refl Hrests).
  rewrite (filter_kind_all "rest" ("rest", 10%Q) rests eq_refl Hrests).
  rewrite (filter_kind_none "dropoff" ("rest", 10%Q) rests eq_refl Hrests).
  change (String.eqb "dropoff" "pickup") with false.
  change (String.eqb "dropoff" "rest") with false.
  change (String.eqb "dropoff" "dropoff") with true.
  change (String.eqb "pickup" "rest") with false.
  change (String.eqb "pickup" "dropoff") with false.
  cbn [app]. rewrite !app_nil_r. rewrite <- !app_assoc. reflexivity.
Qed.

(** The theorem on the route of the test world. *)
Lemma merged_plan_witness :
  exists (p d : Stop.t) (rests fs : list Stop.t) (w' : TestWorld.World),
    plan TestWorld.env (TestWorld.route 2200 40) (TestWorld.trip 45) TestWorld.w0
    = (Ok (RouteResult.mk (TestWorld.route 2200 40) (p :: rests ++ [d]) fs), w')
    /\ Stop.type p = "pickup"
    /\ Forall (fun s => Stop.type s = "rest") rests
    /\ Stop.type d = "dropoff"
    /\ Forall (fun s => Stop.type s = "fuel") fs
    /\ ELDService._merge_and_sort_stops (p :: rests ++ [d]) fs
       = p :: fs ++ rests ++ [d].
Proof.
  apply (merged_plan_puts_fuel_stops_before_rest_stops TestWorld.World TestWorld.env
           TestWorld.w0 (TestWorld.route 2200 40) (TestWorld.trip 45)).
  simpl. discriminate.
Defined.

End PlannerMore.

(** ** More on the log builder *)

Module LogMore.
Import Timeline LogShape.

Lemma last_entry_end_snoc (t : datetime) (es : list ELDEntry.t) (e : ELDEntry.t) :
  last_entry_end t (es ++ [e]) = ELDEntry.end_time e.
Proof. unfold last_entry_end. now rewrite rev_unit. Qed.

Lemma last_entry_end_cons (t : datetime) (a : ELDEntry.t) (es : list ELDEntry.t) :
  es <> [] -> last_entry_end t (a :: es) = last_entry_end t es.
Proof.
  intros Hne. unfold last_entry_end. cbn [rev].
  destruct (rev es) as [| b l] eqn:E; [| reflexivity].
  apply (f_equal (@rev ELDEntry.t)) in E. rewrite rev_involutive in E. contradiction.
Qed.

Lemma contiguous_snoc (t : datetime) (es : list ELDEntry.t) (e : ELDEntry.t) :
  contiguous es -> last_entry_end (ELDEntry.start_time e) es = ELDEntry.start_time e ->
  contiguous (es ++ [e]).
Proof.
  induction es as [| a es IH]; intros Hc Hl; [exact I|].
  destruct es as [| b es].
  - cbn. unfold last_entry_end in Hl. cbn in Hl. split; [exact Hl | exact I].
  - cbn [app contiguous] in *. destruct Hc as [Hab Hc]. split; [exact Hab|].
    apply IH; [exact Hc|]. now rewrite last_entry_end_cons in Hl by discriminate.
Qed.

(** Appending an entry that starts at the cursor, on the log's date,
    and spans its duration keeps a log well shaped. *)
Lemma well_shaped_add_entry (log : DailyLog.t) (e : ELDEntry.t) :
  well_shaped log ->
  last_entry_end (ELDEntry.start_time e) (DailyLog.entries log) = ELDEntry.start_time e ->
  date_of (ELDEntry.start_time e) = DailyLog.date log ->
  date_of (ELDEntry.end_time e) = DailyLog.date log ->
  spans_duration e ->
  well_shaped (DailyLog.add_entry log e).
Proof.
  intros [Hd [Hc Hs]] Hlast Hs1 Hs2 Hspan.
  unfold well_shaped, on_its_date. cbn [DailyLog.add_entry DailyLog.entries DailyLog.date].
  split; [| split].
  - apply Forall_app. split; [exact Hd|]. constructor; [now split | constructor].
  - now apply (contiguous_snoc (ELDEntry.start_time e)).
  - apply Forall_app. split; [exact Hs|]. constructor; [exact Hspan | constructor].
Qed.

Lemma last_entry_end_irrelevant (t t' : datetime) (es : list ELDEntry.t) :
  last_entry_end t es = t -> last_entry_end t' es = t' \/ last_entry_end t' es = t.
Proof.
  unfold last_entry_end. destruct (rev es); intros H; [now left | now right].
Qed.

(** One round of the day-splitting loop keeps the cursor well formed. *)
Lemma split_body_well_formed (d0 : date) (status location : string)
    (s : ELDService.split_state) :
  well_formed d0 (cursor_of s) -> ELDService.split_cond s = true ->
  well_formed d0 (cursor_of (ELDService.split_body status location s)).
Proof.
  unfold well_formed, cursor_of.
  intros [Hdate [Hshape [Hlast [Hlogs [Hdays Hlen]]]]] Hc.
  unfold ELDService.split_cond in Hc.
  destruct (Qltb_spec 0 (ELDService.remaining_time s)) as [Hpos |]; [| discriminate].
  pose proof (LogFacts.combine_max_ge (ELDService.current_time s)) as Hge.
  unfold ELDService.split_body.
  destruct (Qleb_spec (ELDService.remaining_time s)
              (total_hours (combine_max (date_of (ELDService.current_time s))
                            - ELDService.current_time s))) as [Hle | Hgt];
    cbn [ELDService.current_time ELDService.current_log ELDService.daily_logs].
  - assert (Hwithin : date_of (ELDService.current_time s
                               + timedelta_hours (ELDService.remaining_time s))
                      = date_of (ELDService.current_time s)).
    { apply LogFacts.date_of_within. split.
      - pose proof (LogFacts.timedelta_nonneg (ELDService.remaining_time s)
                      ltac:(lra)). lia.
      - apply LogFacts.timedelta_mono in Hle.
        rewrite LogFacts.timedelta_total_hours in Hle. lia. }
    split; [cbn [DailyLog.add_entry DailyLog.date]; congruence|].
    split.
    { apply well_shaped_add_entry; cbn [ELDEntry.start_time ELDEntry.end_time
                                         ELDEntry.duration];
        [exact Hshape | exact Hlast | congruence | congruence |].
      unfold spans_duration. cbn. lia. }
    split.
    { cbn [DailyLog.add_entry DailyLog.entries]. now rewrite last_entry_end_snoc. }
    split; [exact Hlogs|]. split; [exact Hdays|].
    cbn [DailyLog.add_entry DailyLog.date]. exact Hlen.
  - split.
    { cbn [DailyLog.new DailyLog.date]. reflexivity. }
    split.
    { unfold well_shaped, on_its_date. cbn. repeat split; constructor. }
    split; [reflexivity|].
    split.
    { apply Forall_app. split; [exact Hlogs|]. constructor; [| constructor].
      apply well_shaped_add_entry; cbn [ELDEntry.start_time ELDEntry.end_time
                                         ELDEntry.duration];
        [exact Hshape | exact Hlast | congruence | |].
      - rewrite Hdate. apply LogFacts.date_of_within. lia.
      - unfold spans_duration. cbn. now rewrite LogFacts.timedelta_total_hours. }
    split.
    { unfold days_from in *. rewrite length_app, map_app. cbn [List.length map].
      rewrite Nat.add_1_r, seq_S, map_app, Hdays. cbn [map Nat.add].
      cbn [DailyLog.add_entry DailyLog.date]. now rewrite Hlen. }
    cbn [DailyLog.new DailyLog.date]. rewrite LogFacts.date_of_combine_min.
    rewrite length_app. cbn [List.length]. lia.
Qed.

(** An entry within the day keeps the cursor well formed. *)
Lemma same_day_well_formed (d0 : date) (cur : datetime) (log : DailyLog.t)
    (logs : list DailyLog.t) (status location : string) (duration : Q) :
  well_formed d0 (cur, log, logs) ->
  date_of cur = date_of (cur + timedelta_hours duration) ->
  well_formed d0
    (cur + timedelta_hours duration,
     DailyLog.add_entry log
       (ELDEntry.mk status cur (cur + timedelta_hours duration) location duration),
     logs).
Proof.
  unfold well_formed. intros [Hdate [Hshape [Hlast [Hlogs [Hdays Hlen]]]]] Hsame.
  split; [cbn [DailyLog.add_entry DailyLog.date]; congruence|].
  split.
  { apply well_shaped_add_entry; cbn [ELDEntry.start_time ELDEntry.end_time
                                       ELDEntry.duration];
      [exact Hshape | exact Hlast | congruence | congruence |].
    unfold spans_duration. cbn. lia. }
  split.
  { cbn [DailyLog.add_entry DailyLog.entries]. now rewrite last_entry_end_snoc. }
  split; [exact Hlogs|]. split; [exact Hdays|].
  cbn [DailyLog.add_entry DailyLog.date]. exact Hlen.
Qed.

Lemma add_entry_split_well_formed (d0 : date) (c c' : ELDService.Cursor)
    (status location : string) (duration : Q) :
  ELDService.add_entry_split c status location duration = Some c' ->
  well_formed d0 c -> well_formed d0 c'.
Proof.
  destruct c as [[cur log] logs]. unfold ELDService.add_entry_split.
  destruct (date_of cur =? date_of (cur + timedelta_hours duration)) eqn:Hd; cbn [negb].
  - intros E Hc. inversion E; subst c'.
    apply same_day_well_formed; [exact Hc | now apply Z.eqb_eq].
  - destruct (while _ _ _ _) as [s' |] eqn:Hrun; [| discriminate].
    cbn [option_map]. intros E Hc. inversion E; subst c'.
    change (well_formed d0 (cursor_of (ELDService.mkSplit cur log logs duration))) in Hc.
    destruct (while_inv _ _ (fun s => well_formed d0 (cursor_of s))
                (split_body_well_formed d0 status location) _ _ _ Hc Hrun) as [H _].
    exact H.
Qed.

Lemma process_stops_well_formed (d0 : date) (route : RouteData.t)
    (all_stops : list Stop.t) :
  forall (prev : option Stop.t) (c c' : ELDService.Cursor),
    ELDService.process_stops route prev all_stops c = Some c' ->
    well_formed d0 c -> well_formed d0 c'.
Proof.
  induction all_stops as [| stop rest IH]; intros prev c c' Hrun Hc.
  - cbn in Hrun. now inversion Hrun; subst.
  - cbn [ELDService.process_stops] in Hrun.
    destruct (Py.Qltb 0 (ELDService.leg_drive_time route prev stop)).
    + destruct c as [[cur log] logs]. unfold ELDService._add_driving_entry in Hrun.
      destruct (ELDService.add_entry_split (cur, log, logs) _ _ _)
        as [[[cur1 log1] logs1] |] eqn:E1; [| discriminate].
      apply (add_entry_split_well_formed d0) in E1; [| exact Hc].
      unfold ELDService._add_stop_entry in Hrun.
      destruct (ELDService.add_entry_split (cur1, log1, logs1) _ _ _)
        as [c2 |] eqn:E2; [| discriminate].
      apply (add_entry_split_well_formed d0) in E2; [| exact E1].
      exact (IH _ _ _ Hrun E2).
    + destruct c as [[cur log] logs]. unfold ELDService._add_stop_entry in Hrun.
      destruct (ELDService.add_entry_split (cur, log, logs) _ _ _)
        as [c2 |] eqn:E2; [| discriminate].
      apply (add_entry_split_well_formed d0) in E2; [| exact Hc].
      exact (IH _ _ _ Hrun E2).
Qed.

Lemma generate_logs_run_at {World : Type} (env : Env World) (w w1 : World)
    (t : datetime) (route_data : RouteResult.t) (tr : TripRequest.t) :
  datetime_now env w = (t, w1) ->
  exists c : ELDService.Cursor,
    ELDService.process_stops (RouteResult.route route_data) None
      (ELDService._merge_and_sort_stops (RouteResult.stops route_data)
                                        (RouteResult.fuel_stops route_data))
      (t, DailyLog.new (date_of t), []) = Some c
    /\ ELDService.generate_logs env route_data tr w = (Ok (returned_logs c), w1).
Proof.
  intros Hnow.
  destruct (LogFacts.process_stops_spec (RouteResult.route route_data)
              (ELDService._merge_and_sort_stops (RouteResult.stops route_data)
                                                (RouteResult.fuel_stops route_data))
              None (t, DailyLog.new (date_of t), [])) as [c [es [Hc _]]].
  exists c. split; [exact Hc|].
  unfold ELDService.generate_logs, try_except, bind, now. rewrite Hnow.
  unfold of_option. rewrite Hc.
  destruct c as [[cur log] logs]. unfold returned_logs, ret.
  destruct (DailyLog.entries log); reflexivity.
Qed.

Lemma returned_logs_well_formed (d0 : date) (c : ELDService.Cursor) :
  well_formed d0 c ->
  Forall well_shaped (returned_logs c) /\ days_from d0 (returned_logs c).
Proof.
  destruct c as [[cur log] logs]. unfold well_formed, returned_logs.
  intros [Hdate [Hshape [Hlast [Hlogs [Hdays Hlen]]]]].
  destruct (DailyLog.entries log); [now split|]. split.
  - apply Forall_app. split; [exact Hlogs | constructor; [exact Hshape | constructor]].
  - unfold days_from in *. rewrite length_app, map_app. cbn [List.length map].
    rewrite Nat.add_1_r, seq_S, map_app, Hdays. cbn [map Nat.add]. now rewrite Hlen.
Qed.

(** The logs that [generate_logs] returns are well shaped and dated from
    the date of its clock reading on. *)
Lemma generate_logs_well_formed {World : Type} (env : Env World) (w : World)
    (route_data : RouteResult.t) (tr : TripRequest.t) :
  exists (t : datetime) (w' : World) (logs : list DailyLog.t),
    datetime_now env w = (t, w')
    /\ ELDService.generate_logs env route_data tr w = (Ok logs, w')
    /\ Forall well_shaped logs
    /\ days_from (date_of t) logs.
Proof.
  destruct (datetime_now env w) as [t w1] eqn:Hnow.
  destruct (generate_logs_run_at env w w1 t route_data tr Hnow) as [c [Hc Hrun]].
  exists t, w1, (returned_logs c). split; [reflexivity|]. split; [exact Hrun|].
  apply returned_logs_well_formed.
  apply (process_stops_well_formed _ _ _ _ _ _ Hc).
  unfold well_formed. cbn [DailyLog.new DailyLog.date DailyLog.entries List.length].
  split; [reflexivity|]. split.
  { unfold well_shaped, on_its_date. cbn. repeat split; constructor. }
  split; [reflexivity|]. split; [constructor|]. split; [reflexivity | lia].
Qed.

(** X7.  The daily logs returned by the log builder are dated with
    consecutive calendar dates that begin at the date of the builder's
    clock reading, and every entry of a log starts and ends on the date
    of that log. *)
Theorem logs_cover_consecutive_dates :
  forall (World : Type) (env : Env World) (w : World)
         (route_data : RouteResult.t) (tr : TripRequest.t),
  exists (t : datetime) (w' : World) (logs : list DailyLog.t),
    datetime_now env w = (t, w')
    /\ ELDService.generate_logs env route_data tr w = (Ok logs, w')
    /\ map DailyLog.date logs
       = map (fun i => date_of t + Z.of_nat i) (seq 0 (List.length logs))
    /\ Forall (fun log =>
                 Forall (fun e =>
                           date_of (ELDEntry.start_time e) = DailyLog.date log
                           /\ date_of (ELDEntry.end_time e) = DailyLog.date log)
                        (DailyLog.entries log))
              logs.
Proof.
  intros World env w route_data tr.
  destruct (generate_logs_well_formed env w route_data tr)
    as [t [w' [logs [Hnow [Hrun [Hshape Hdays]]]]]].
  exists t, w', logs. split; [exact Hnow|]. split; [exact Hrun|].
  split; [exact Hdays|].
  eapply Forall_impl; [| exact Hshape]. intros log [H _]. exact H.
Qed.

(** X8.  Within every daily log returned by the log builder the entries
    are contiguous: each entry starts at the very time at which the entry
    in front of it ends. *)
Theorem log_entries_are_contiguous :
  forall (World : Type) (env : Env World) (w : World)
         (route_data : RouteResult.t) (tr : TripRequest.t),
  exists (logs : list DailyLog.t) (w' : World),
    ELDService.generate_logs env route_data tr w = (Ok logs, w')
    /\ Forall (fun log => contiguous (DailyLog.entries log)) logs.
Proof.
  intros World env w route_data tr.
  destruct (generate_logs_well_formed env w route_data tr)
    as [t [w' [logs [Hnow [Hrun [Hshape Hdays]]]]]].
  exists logs, w'. split; [exact Hrun|].
  eapply Forall_impl; [| exact Hshape]. intros log [_ [H _]]. exact H.
Qed.

(** X9.  For every entry of every daily log returned by the log builder,
    the end time minus the start time is the entry's duration in hours
    rounded to whole microseconds. *)
Theorem log_entries_span_their_duration :
  forall (World : Type) (env : Env World) (w : World)
         (route_data : RouteResult.t) (tr : TripRequest.t),
  exists (logs : list DailyLog.t) (w' : World),
    ELDService.generate_logs env route_data tr w = (Ok logs, w')
    /\ Forall (fun log =>
                 Forall (fun e =>
                           ELDEntry.end_time e - ELDEntry.start_time e
                           = timedelta_hours (ELDEntry.duration e))
                        (DailyLog.entries log))
              logs.
Proof.
  intros World env w route_data tr.
  destruct (generate_logs_well_formed env w route_data tr)
    as [t [w' [logs [Hnow [Hrun [Hshape Hdays]]]]]].
  exists logs, w'. split; [exact Hrun|].
  eapply Forall_impl; [| exact Hshape]. intros log [_ [_ H]]. exact H.
Qed.

(** *** Validation of generated logs *)

Lemma validate_fold (date_str : date -> string) (logs : list DailyLog.t) :
  forall acc : list string,
    fold_left
      (fun violations log =>
         let violations :=
           if Py.Qltb (inject_Z HOS_LIMITS.DAILY_DRIVE_LIMIT) (DailyLog.total_drive_time log)
           then violations ++ [ELDService.drive_limit_message date_str log]
           else violations in
         if Py.Qltb (inject_Z HOS_LIMITS.DAILY_DUTY_LIMIT) (DailyLog.total_duty_time log)
         then violations ++ [ELDService.duty_limit_message date_str log]
         else violations)
      logs acc
    = acc ++ flat_map (Limits.log_messages date_str) logs.
Proof.
  induction logs as [| log logs IH]; intros acc; cbn [fold_left flat_map].
  - now rewrite app_nil_r.
  - rewrite IH. unfold Limits.log_messages.
    destruct (Py.Qltb _ (DailyLog.total_drive_time log));
      destruct (Py.Qltb _ (DailyLog.total_duty_time log));
      cbn [app]; rewrite <- ?app_assoc; cbn [app]; reflexivity.
Qed.

(** X10.  [validate_hos_compliance] reports no violation exactly when
    every log has at most 11 hours of driving and at most 14 hours of
    duty; it reports at most two violations per log, and its report for a
    list of logs is the report for the earlier logs followed by the
    report for the later ones. *)
Theorem validate_hos_compliance_flags_exceeded_days :
  forall (date_str : date -> string) (logs logs' : list DailyLog.t),
    (ELDService.validate_hos_compliance date_str logs = []
     <-> Forall Limits.within_limits logs)
    /\ (List.length (ELDService.validate_hos_compliance date_str logs)
        <= 2 * List.length logs)%nat
    /\ ELDService.validate_hos_compliance date_str (logs ++ logs')
       = ELDService.validate_hos_compliance date_str logs
         ++ ELDService.validate_hos_compliance date_str logs'.
Proof.
  intros date_str logs logs'. unfold ELDService.validate_hos_compliance.
  rewrite !validate_fold. cbn [app]. split; [| split].
  - induction logs as [| log logs IH]; cbn [flat_map].
    + split; [constructor | reflexivity].
    + split.
      * intros E. apply app_eq_nil in E. destruct E as [E1 E2].
        constructor; [| now apply IH].
        unfold Limits.log_messages in E1. unfold Limits.within_limits.
        change (inject_Z HOS_LIMITS.DAILY_DRIVE_LIMIT) with 11%Q in E1.
        change (inject_Z HOS_LIMITS.DAILY_DUTY_LIMIT) with 14%Q in E1.
        destruct (Qltb_spec 11 (DailyLog.total_drive_time log)); [discriminate|].
        destruct (Qltb_spec 14 (DailyLog.total_duty_time log)); [discriminate|].
        split; lra.
      * intros Hall. inversion Hall as [| ? ? [Hd Hu] Hrest]; subst.
        rewrite (proj2 IH Hrest), app_nil_r. unfold Limits.log_messages.
        change (inject_Z HOS_LIMITS.DAILY_DRIVE_LIMIT) with 11%Q.
        change (inject_Z HOS_LIMITS.DAILY_DUTY_LIMIT) with 14%Q.
        now rewrite !Qltb_false.
  - induction logs as [| log logs IH]; cbn [flat_map List.length]; [lia|].
    rewrite length_app. unfold Limits.log_messages at 1.
    destruct (Py.Qltb _ (DailyLog.total_drive_time log));
      destruct (Py.Qltb _ (DailyLog.total_duty_time log)); cbn [app List.length]; lia.
  - apply flat_map_app.
Qed.

(** *** Weekly totals of generated logs *)

Lemma hours_of_app (f : ELDEntry.t -> bool) (l1 l2 : list ELDEntry.t) :
  (Weekly.hours_of f (l1 ++ l2) == Weekly.hours_of f l1 + Weekly.hours_of f l2)%Q.
Proof. unfold Weekly.hours_of. now rewrite filter_app, map_app, LogFacts.sum_app. Qed.

Lemma hours_of_nil (f : ELDEntry.t -> bool) : (Weekly.hours_of f [] == 0)%Q.
Proof. reflexivity. Qed.

(** Entries of one status count in full or not at all. *)
Lemma hours_of_status (f : ELDEntry.t -> bool) (status : string) (es : list ELDEntry.t)
    (b : bool) :
  (forall e, ELDEntry.status e = status -> f e = b) ->
  Forall (fun e => ELDEntry.status e = status) es ->
  (Weekly.hours_of f es
   == if b then Py.sum (map ELDEntry.duration es) else 0)%Q.
Proof.
  intros Hf Hall. unfold Weekly.hours_of.
  assert (E : filter f es = if b then es else []).
  { induction Hall as [| e es He _ IH]; [now destruct b|].
    cbn. rewrite (Hf e He), IH. now destruct b. }
  rewrite E. destruct b; reflexivity.
Qed.

(** Either entry routine appends entries of the given status only. *)
Lemma add_entry_split_status (c : ELDService.Cursor) (status location : string)
    (duration : Q) :
  exists (c' : ELDService.Cursor) (es : list ELDEntry.t),
    ELDService.add_entry_split c status location duration = Some c'
    /\ cursor_entries c' = cursor_entries c ++ es
    /\ Forall (fun e => ELDEntry.status e = status) es
    /\ ((0 <= duration)%Q -> (Py.sum (map ELDEntry.duration es) == duration)%Q).
Proof.
  destruct c as [[cur log] logs]. unfold ELDService.add_entry_split.
  destruct (date_of cur =? date_of (cur + timedelta_hours duration)); cbn [negb].
  - eexists. exists [ELDEntry.mk status cur (cur + timedelta_hours duration)
                                 location duration].
    split; [reflexivity|]. split.
    { unfold cursor_entries. cbn. now rewrite app_assoc. }
    split; [constructor; [reflexivity | constructor]|].
    intros _. unfold Py.sum. cbn. lra.
  - set (s0 := ELDService.mkSplit cur log logs duration).
    destruct (LogFacts.split_loop_total status location s0) as [s' Hs'].
    change (ELDService.remaining_time s0) with duration in Hs'.
    rewrite Hs'. cbn [option_map].
    set (Inv := fun s : ELDService.split_state =>
           exists es : list ELDEntry.t,
             cursor_entries (cursor_of s) = cursor_entries (cursor_of s0) ++ es
             /\ Forall (fun e => ELDEntry.status e = status) es
             /\ ((0 <= duration)%Q ->
                 (0 <= ELDService.remaining_time s)%Q
                 /\ (Py.sum (map ELDEntry.duration es) + ELDService.remaining_time s
                     == duration)%Q)).
    assert (Hstep : forall s, Inv s -> ELDService.split_cond s = true ->
                              Inv (ELDService.split_body status location s)).
    { intros s [es [Hes [Hst Hsum]]] _.
      unfold Inv, ELDService.split_body.
      destruct (Qleb_spec (ELDService.remaining_time s)
                  (total_hours (combine_max (date_of (ELDService.current_time s))
                                - ELDService.current_time s))) as [Hle | Hgt].
      - eexists (es ++ [_]). split.
        { change (cursor_entries (cursor_of s))
            with (all_entries (ELDService.daily_logs s)
                  ++ DailyLog.entries (ELDService.current_log s)) in Hes.
          unfold cursor_of at 1. unfold cursor_entries at 1.
          cbn [ELDService.current_time ELDService.current_log ELDService.daily_logs
               DailyLog.add_entry DailyLog.entries].
          rewrite app_assoc, Hes, <- !app_assoc. reflexivity. }
        split; [apply Forall_app; split;
                [exact Hst | constructor; [reflexivity | constructor]]|].
        intros Hnn. destruct (Hsum Hnn) as [Hrem Htot].
        rewrite map_app, LogFacts.sum_app. cbn [map ELDService.remaining_time].
        rewrite LogFacts.sum_cons. unfold Py.sum at 2. cbn [fold_left ELDEntry.duration].
        split; lra.
      - eexists (es ++ [_]). split.
        { change (cursor_entries (cursor_of s))
            with (all_entries (ELDService.daily_logs s)
                  ++ DailyLog.entries (ELDService.current_log s)) in Hes.
          unfold cursor_of at 1. unfold cursor_entries at 1.
          cbn [ELDService.current_time ELDService.current_log ELDService.daily_logs].
          rewrite LogFacts.all_entries_app. cbn [DailyLog.new DailyLog.entries
                                                DailyLog.add_entry].
          rewrite app_nil_r, app_assoc, Hes, <- !app_assoc. reflexivity. }
        split; [apply Forall_app; split;
                [exact Hst | constructor; [reflexivity | constructor]]|].
        intros Hnn. destruct (Hsum Hnn) as [Hrem Htot].
        rewrite map_app, LogFacts.sum_app. cbn [map ELDService.remaining_time].
        rewrite LogFacts.sum_cons. unfold Py.sum at 2. cbn [fold_left ELDEntry.duration].
        split; lra. }
    assert (Hinit : Inv s0).
    { exists []. split; [now rewrite app_nil_r|]. split; [constructor|].
      intros Hnn. unfold Py.sum. cbn. split; lra. }
    destruct (while_inv _ _ Inv Hstep _ _ _ Hinit Hs') as [[es [Hes [Hst Hsum]]] Hc].
    eexists. exists es. split; [reflexivity|]. split; [exact Hes|].
    split; [exact Hst|]. intros Hnn. destruct (Hsum Hnn) as [Hrem Htot].
    unfold ELDService.split_cond in Hc.
    destruct (Qltb_spec 0 (ELDService.remaining_time s')); [discriminate | lra].
Qed.

Lemma stop_status_flags (stop : Stop.t) (e : ELDEntry.t) :
  ELDEntry.status e = Weekly.stop_status stop ->
  Recount.is_driving e = false /\ Recount.is_duty e = Planner.on_duty_stop stop.
Proof.
  intros E. unfold Recount.is_driving, Recount.is_duty, Planner.on_duty_stop.
  rewrite E. unfold Weekly.stop_status.
  destruct (existsb (String.eqb (Stop.type stop)) ["pickup"; "dropoff"; "fuel"]).
  - split; reflexivity.
  - destruct (String.eqb (Stop.type stop) "rest"); split; reflexivity.
Qed.

Lemma on_duty_hours_cons (stop : Stop.t) (rest : list Stop.t) :
  (Weekly.on_duty_hours (stop :: rest)
   == (if Planner.on_duty_stop stop then Stop.duration stop else 0)
      + Weekly.on_duty_hours rest)%Q.
Proof.
  unfold Weekly.on_duty_hours. cbn [filter].
  destruct (Planner.on_duty_stop stop); cbn [map].
  - now rewrite LogFacts.sum_cons.
  - lra.
Qed.

(** The loop over the stops logs the leg drive times as driving hours and,
    beside them, the on-duty stops as duty hours. *)
Lemma process_stops_hours (route : RouteData.t) (all_stops : list Stop.t) :
  forall (prev : option Stop.t) (c : ELDService.Cursor),
  exists (c' : ELDService.Cursor) (es : list ELDEntry.t),
    ELDService.process_stops route prev all_stops c = Some c'
    /\ cursor_entries c' = cursor_entries c ++ es
    /\ ((0 <= RouteData.duration route)%Q ->
        Forall (fun s => (0 <= Stop.duration s)%Q) all_stops ->
        (Weekly.hours_of Recount.is_driving es
         == Py.sum (leg_drive_times route prev all_stops))%Q
        /\ (Weekly.hours_of Recount.is_duty es
            == Py.sum (leg_drive_times route prev all_stops)
               + Weekly.on_duty_hours all_stops)%Q).
Proof.
  induction all_stops as [| stop rest IH]; intros prev c.
  - exists c, []. split; [reflexivity|]. split; [now rewrite app_nil_r|].
    intros _ _. split; reflexivity.
  - cbn [ELDService.process_stops leg_drive_times].
    set (drive_time := ELDService.leg_drive_time route prev stop).
    set (label := match prev with
                  | Some p => Location.address (Stop.location p)
                  | None => "Start Location"
                  end).
    assert (Hdrive : exists (c1 : ELDService.Cursor) (es1 : list ELDEntry.t),
               (if Py.Qltb 0 drive_time
                then let '(current_time, current_log, daily_logs) := c in
                     ELDService._add_driving_entry current_time current_log daily_logs
                       drive_time label
                else Some c) = Some c1
               /\ cursor_entries c1 = cursor_entries c ++ es1
               /\ Forall (fun e => ELDEntry.status e = "driving") es1
               /\ ((0 <= drive_time)%Q ->
                   (Py.sum (map ELDEntry.duration es1) == drive_time)%Q)).
    { destruct (Qltb_spec 0 drive_time) as [Hpos | Hle].
      - destruct c as [[cur log] logs]. unfold ELDService._add_driving_entry.
        apply add_entry_split_status.
      - exists c, []. split; [reflexivity|]. split; [now rewrite app_nil_r|].
        split; [constructor|]. intros Hnn. unfold Py.sum. cbn. lra. }
    destruct Hdrive as [c1 [es1 [E1 [Hc1 [Hs1 Hsum1]]]]]. rewrite E1.
    destruct c1 as [[cur1 log1] logs1].
    destruct (add_entry_split_status (cur1, log1, logs1) (Weekly.stop_status stop)
                (Location.address (Stop.location stop)) (Stop.duration stop))
      as [c2 [es2 [E2 [Hc2 [Hs2 Hsum2]]]]].
    unfold ELDService._add_stop_entry. fold (Weekly.stop_status stop). rewrite E2.
    destruct (IH (Some stop) c2) as [c3 [es3 [E3 [Hc3 Hsum3]]]].
    rewrite E3. exists c3, (es1 ++ es2 ++ es3).
    split; [reflexivity|]. split.
    { rewrite Hc3, Hc2, Hc1. now rewrite !app_assoc. }
    intros Hnn Hall. inversion Hall as [| ? ? Hstop Hrest]; subst.
    destruct (Hsum3 Hnn Hrest) as [Hd3 Hu3].
    pose proof (Hsum1 (LogFacts.leg_drive_time_nonneg route prev stop Hnn)) as Hd1.
    pose proof (Hsum2 Hstop) as Hd2.
    rewrite !hours_of_app, LogFacts.sum_cons, on_duty_hours_cons, Hd3, Hu3.
    rewrite (hours_of_status Recount.is_driving "driving" es1 true)
      by (try exact Hs1; intros e He; unfold Recount.is_driving; now rewrite He).
    rewrite (hours_of_status Recount.is_duty "driving" es1 true)
      by (try exact Hs1; intros e He; unfold Recount.is_duty; now rewrite He).
    rewrite (hours_of_status Recount.is_driving (Weekly.stop_status stop) es2 false)
      by (try exact Hs2; intros e He; now apply (stop_status_flags stop)).
    rewrite (hours_of_status Recount.is_duty (Weekly.stop_status stop) es2
               (Planner.on_duty_stop stop))
      by (try exact Hs2; intros e He; now apply (stop_status_flags stop)).
    fold drive_time. rewrite Hd1.
    destruct (Planner.on_duty_stop stop); [rewrite Hd2|]; split; lra.
Qed.

(** What the fold of [calculate_weekly_hours] computes. *)
Lemma weekly_fold (logs : list DailyLog.t) :
  forall acc : HOSCalculator.WeeklyTotals.t,
    let r :=
      fold_left
        (fun weekly_totals log =>
           HOSCalculator.WeeklyTotals.mk
             (HOSCalculator.WeeklyTotals.total_drive_time weekly_totals
              + DailyLog.total_drive_time log)%Q
             (HOSCalculator.WeeklyTotals.total_duty_time weekly_totals
              + DailyLog.total_duty_time log)%Q
             (if Py.Qltb 0 (DailyLog.total_drive_time log)
              then HOSCalculator.WeeklyTotals.days_with_driving weekly_totals + 1
              else HOSCalculator.WeeklyTotals.days_with_driving weekly_totals))
        logs acc in
    HOSCalculator.WeeklyTotals.total_drive_time r
    = fold_left Qplus (map DailyLog.total_drive_time logs)
                (HOSCalculator.WeeklyTotals.total_drive_time acc)
    /\ HOSCalculator.WeeklyTotals.total_duty_time r
       = fold_left Qplus (map DailyLog.total_duty_time logs)
                   (HOSCalculator.WeeklyTotals.total_duty_time acc)
    /\ HOSCalculator.WeeklyTotals.days_with_driving acc
       <= HOSCalculator.WeeklyTotals.days_with_driving r
       <= HOSCalculator.WeeklyTotals.days_with_driving acc + Z.of_nat (List.length logs).
Proof.
  induction logs as [| log logs IH]; intros acc; cbn [fold_left map List.length].
  - repeat split; lia.
  - specialize (IH (HOSCalculator.WeeklyTotals.mk
             (HOSCalculator.WeeklyTotals.total_drive_time acc
              + DailyLog.total_drive_time log)%Q
             (HOSCalculator.WeeklyTotals.total_duty_time acc
              + DailyLog.total_duty_time log)%Q
             (if Py.Qltb 0 (DailyLog.total_drive_time log)
              then HOSCalculator.WeeklyTotals.days_with_driving acc + 1
              else HOSCalculator.WeeklyTotals.days_with_driving acc))).
    cbn zeta in *. destruct IH as [H1 [H2 H3]].
    cbn [HOSCalculator.WeeklyTotals.total_drive_time
         HOSCalculator.WeeklyTotals.total_duty_time
         HOSCalculator.WeeklyTotals.days_with_driving] in H1, H2, H3.
    split; [exact H1|]. split; [exact H2|].
    destruct (Py.Qltb 0 (DailyLog.total_drive_time log)); lia.
Qed.

(** The stored totals of consistent logs add up to the hours of their
    entries. *)
Lemma consistent_totals (logs : list DailyLog.t) :
  Forall Recount.consistent logs ->
  (Py.sum (map DailyLog.total_drive_time logs)
   == Weekly.hours_of Recount.is_driving (all_entries logs))%Q
  /\ (Py.sum (map DailyLog.total_duty_time logs)
      == Weekly.hours_of Recount.is_duty (all_entries logs))%Q.
Proof.
  intros Hall. induction Hall as [| log logs [Hd Hu] _ [IHd IHu]].
  - split; reflexivity.
  - cbn [map all_entries flat_map]. fold (all_entries logs).
    rewrite !LogFacts.sum_cons, !hours_of_app, IHd, IHu, Hd, Hu.
    split; reflexivity.
Qed.

(** For a route duration and stop durations that are not negative, the
    weekly totals of the logs returned by [generate_logs] are the drive
    times of the legs between the stops that the builder visits and,
    beside them, the durations of the visited on-duty stops. *)
Lemma weekly_hours_of_visited_stops :
  forall (World : Type) (env : Env World) (w : World)
         (route_data : RouteResult.t) (tr : TripRequest.t),
    let route := RouteResult.route route_data in
    let all_stops :=
      ELDService._merge_and_sort_stops (RouteResult.stops route_data)
                                       (RouteResult.fuel_stops route_data) in
    (0 <= RouteData.duration route)%Q ->
    Forall (fun s => (0 <= Stop.duration s)%Q) all_stops ->
    exists (logs : list DailyLog.t) (w' : World),
      ELDService.generate_logs env route_data tr w = (Ok logs, w')
      /\ (HOSCalculator.WeeklyTotals.total_drive_time
            (HOSCalculator.calculate_weekly_hours logs)
          == Py.sum (leg_drive_times route None all_stops))%Q
      /\ (HOSCalculator.WeeklyTotals.total_duty_time
            (HOSCalculator.calculate_weekly_hours logs)
          == Py.sum (leg_drive_times route None all_stops)
             + Weekly.on_duty_hours all_stops)%Q
      /\ 0 <= HOSCalculator.WeeklyTotals.days_with_driving
                (HOSCalculator.calculate_weekly_hours logs)
           <= Z.of_nat (List.length logs).
Proof.
  intros World env w route_data tr route all_stops Hnn Hall.
  destruct (LogFacts.generate_logs_run env w route_data tr) as [t [w' [c [Hc Hrun]]]].
  exists (returned_logs c), w'. split; [exact Hrun|].
  destruct (process_stops_hours route all_stops None (t, DailyLog.new (date_of t), []))
    as [c' [es [Hc' [Hes Hsum]]]].
  subst route all_stops. rewrite Hc in Hc'. inversion Hc'; subst c'.
  destruct (Hsum Hnn Hall) as [Hd Hu].
  assert (Hcons : Forall Recount.consistent (returned_logs c)).
  { apply LogFacts.returned_logs_consistent.
    apply (LogFacts.process_stops_consistent _ _ _ _ _ Hc).
    split; [apply LogTotals.consistent_new | constructor]. }
  destruct (consistent_totals _ Hcons) as [Td Tu].
  rewrite LogFacts.returned_logs_entries, Hes in Td, Tu.
  cbn [cursor_entries all_entries flat_map DailyLog.new DailyLog.entries app] in Td, Tu.
  destruct (weekly_fold (returned_logs c) (HOSCalculator.WeeklyTotals.mk 0 0 0))
    as [W1 [W2 W3]].
  unfold HOSCalculator.calculate_weekly_hours.
  cbn [HOSCalculator.WeeklyTotals.total_drive_time
       HOSCalculator.WeeklyTotals.total_duty_time
       HOSCalculator.WeeklyTotals.days_with_driving] in W1, W2, W3.
  rewrite W1, W2. fold (Py.sum (map DailyLog.total_drive_time (returned_logs c))).
  fold (Py.sum (map DailyLog.total_duty_time (returned_logs c))).
  rewrite Td, Tu, Hd, Hu. split; [reflexivity|]. split; [reflexivity | lia].
Qed.

End LogMore.

(** ** The hours logged for a planned trip *)

Module TripTotals.
Import Timeline Planner.

Lemma type_of_shape (s : Stop.t) (kind : string) (hours : Q) :
  shape s = (kind, hours) -> Stop.type s = kind /\ Stop.duration s = hours.
Proof. unfold shape. intros E. now inversion E. Qed.

(** The legs that follow a stop other than the pickup, up to the dropoff:
    0.5 of a fifth of the route duration for every leg but the last,
    which gets 0.3. *)
Lemma legs_to_dropoff (rd : RouteData.t) (d : Stop.t) (mid : list Stop.t) :
  Stop.type d = "dropoff" ->
  Forall (fun s => Stop.type s <> "pickup" /\ Stop.type s <> "dropoff") mid ->
  forall prev : Stop.t,
    Stop.type prev <> "pickup" ->
    (Py.sum (leg_drive_times rd (Some prev) (mid ++ [d]))
     == RouteData.duration rd / 5 * (5 # 10) * inject_Z (Z.of_nat (List.length mid))
        + RouteData.duration rd / 5 * (3 # 10))%Q.
Proof.
  intros Td Hmid. induction Hmid as [| m mid [Hm1 Hm2] _ IH]; intros prev Hprev.
  - cbn [app leg_drive_times List.length]. rewrite LogFacts.sum_cons.
    unfold ELDService.leg_drive_time, ELDService._calculate_drive_time_between_stops.
    apply String.eqb_neq in Hprev. rewrite Hprev, Td.
    change (String.eqb "dropoff" "dropoff") with true. cbn iota.
    change (Py.sum []) with 0%Q. change (inject_Z (Z.of_nat 0)) with 0%Q. lra.
  - cbn [app leg_drive_times List.length]. rewrite LogFacts.sum_cons, (IH m Hm1).
    unfold ELDService.leg_drive_time, ELDService._calculate_drive_time_between_stops.
    apply String.eqb_neq in Hprev, Hm2. rewrite Hprev, Hm2.
    rewrite Nat2Z.inj_succ. unfold Z.succ. rewrite inject_Z_plus.
    change (inject_Z 1) with 1%Q. lra.
Qed.

(** The legs of a trip from the pickup over [mid] to the dropoff. *)
Lemma legs_of_trip (rd : RouteData.t) (p d : Stop.t) (mid : list Stop.t) :
  Stop.type p = "pickup" ->
  Stop.type d = "dropoff" ->
  Forall (fun s => Stop.type s <> "pickup" /\ Stop.type s <> "dropoff") mid ->
  (Py.sum (leg_drive_times rd None (p :: mid ++ [d]))
   == RouteData.duration rd * driven_share (List.length mid))%Q.
Proof.
  intros Tp Td Hmid. cbn [leg_drive_times]. rewrite LogFacts.sum_cons.
  cbn [ELDService.leg_drive_time].
  destruct mid as [| m mid].
  - cbn [app leg_drive_times List.length driven_share]. rewrite LogFacts.sum_cons.
    unfold ELDService.leg_drive_time, ELDService._calculate_drive_time_between_stops.
    rewrite Tp. change (String.eqb "pickup" "pickup") with true. cbn iota.
    change (Py.sum []) with 0%Q. field.
  - inversion Hmid as [| ? ? [Hm1 Hm2] Hrest]; subst.
    cbn [app leg_drive_times]. rewrite LogFacts.sum_cons.
    rewrite (legs_to_dropoff rd d mid Td Hrest m Hm1).
    unfold ELDService.leg_drive_time, ELDService._calculate_drive_time_between_stops.
    rewrite Tp. change (String.eqb "pickup" "pickup") with true. cbn iota.
    unfold driven_share. cbn [List.length].
    rewrite Nat2Z.inj_succ. unfold Z.succ. rewrite inject_Z_plus.
    change (inject_Z 1) with 1%Q. field.
Qed.

(** What the log builder needs to know of a plan: the stops between
    pickup and dropoff are neither, and no duration is negative. *)
Lemma planned_between (rests fs : list Stop.t) :
  Forall (fun s => shape s = ("rest", 10%Q)) rests ->
  Forall (fun s => shape s = ("fuel", 5 # 10)) fs ->
  Forall (fun s => Stop.type s <> "pickup" /\ Stop.type s <> "dropoff") (fs ++ rests)
  /\ Forall (fun s => (0 <= Stop.duration s)%Q) (fs ++ rests).
Proof.
  intros Hrests Hfs. split; apply Forall_app; split.
  - eapply Forall_impl; [| exact Hfs]. intros s Hs.
    destruct (type_of_shape _ _ _ Hs) as [-> _]. split; discriminate.
  - eapply Forall_impl; [| exact Hrests]. intros s Hs.
    destruct (type_of_shape _ _ _ Hs) as [-> _]. split; discriminate.
  - eapply Forall_impl; [| exact Hfs]. intros s Hs.
    destruct (type_of_shape _ _ _ Hs) as [_ ->]. discriminate.
  - eapply Forall_impl; [| exact Hrests]. intros s Hs.
    destruct (type_of_shape _ _ _ Hs) as [_ ->]. discriminate.
Qed.

Lemma on_duty_hours_app (l1 l2 : list Stop.t) :
  (Weekly.on_duty_hours (l1 ++ l2)
   == Weekly.on_duty_hours l1 + Weekly.on_duty_hours l2)%Q.
Proof. unfold Weekly.on_duty_hours. now rewrite filter_app, map_app, LogFacts.sum_app. Qed.

Lemma on_duty_hours_rests (rests : list Stop.t) :
  Forall (fun s => shape s = ("rest", 10%Q)) rests ->
  (Weekly.on_duty_hours rests == 0)%Q.
Proof.
  intros H. induction H as [| s l Hs _ IH]; [reflexivity|].
  rewrite LogMore.on_duty_hours_cons, IH. unfold on_duty_stop.
  destruct (type_of_shape _ _ _ Hs) as [-> _]. cbn. lra.
Qed.

Lemma on_duty_hours_fuel (fs : list Stop.t) :
  Forall (fun s => shape s = ("fuel", 5 # 10)) fs ->
  (Weekly.on_duty_hours fs == (1 # 2) * inject_Z (Z.of_nat (List.length fs)))%Q.
Proof.
  intros H. induction H as [| s l Hs _ IH].
  - change (Weekly.on_duty_hours []) with 0%Q. cbn [List.length].
    change (inject_Z (Z.of_nat 0)) with 0%Q. lra.
  - rewrite LogMore.on_duty_hours_cons, IH. unfold on_duty_stop.
    destruct (type_of_shape _ _ _ Hs) as [-> ->]. cbn [existsb String.eqb Ascii.eqb Bool.eqb orb].
    cbn [List.length]. rewrite Nat2Z.inj_succ. unfold Z.succ. rewrite inject_Z_plus.
    change (inject_Z 1) with 1%Q. cbn iota. lra.
Qed.

(** C7.  Day-splitting preserves total time.  For every trip that the
    planner plans on a route with a coordinate and a duration that is not
    negative, the durations of all entries of all daily logs that the log
    builder returns add up to the apportioned drive times of the legs
    from the pickup over all fuel stops and all rest stops to the dropoff,
    plus the durations of all stops and all fuel stops of the plan.  The
    apportioned drive times add up to the route duration times
    [driven_share] of the number of fuel and rest stops. *)
Theorem C7_day_splitting_preserves_total_time :
  forall (World : Type) (env : Env World) (w w2 : World)
         (rd : RouteData.t) (tr : TripRequest.t),
    RouteData.coordinates rd <> [] ->
    (0 <= RouteData.duration rd)%Q ->
    exists (pickup dropoff : Stop.t) (rests fuel_stops : list Stop.t)
           (w1 : World) (logs : list DailyLog.t) (w' : World),
      plan env rd tr w
      = (Ok (RouteResult.mk rd (pickup :: rests ++ [dropoff]) fuel_stops), w1)
      /\ ELDService.generate_logs env
           (RouteResult.mk rd (pickup :: rests ++ [dropoff]) fuel_stops) tr w2
         = (Ok logs, w')
      /\ (logged_hours logs
          == Py.sum (leg_drive_times rd None
                       (pickup :: fuel_stops ++ rests ++ [dropoff]))
             + Py.sum (map Stop.duration
                         ((pickup :: rests ++ [dropoff]) ++ fuel_stops)))%Q
      /\ (Py.sum (leg_drive_times rd None
                    (pickup :: fuel_stops ++ rests ++ [dropoff]))
          == RouteData.duration rd
             * driven_share (List.length fuel_stops + List.length rests))%Q.
Proof.
  intros World env w w2 rd tr Hne Hnn.
  destruct (PlannerMore.plan_structure env w rd tr Hne)
    as [p [d [rests [fs [w1 [Hplan [Hp [Hrests [Hd Hfs]]]]]]]]].
  destruct (type_of_shape _ _ _ Hp) as [Tp Dp].
  destruct (type_of_shape _ _ _ Hd) as [Td Dd].
  destruct (planned_between rests fs Hrests Hfs) as [Hmid Hdur].
  pose proof (LogFacts.logged_hours_of_visited_stops World env w2
                (RouteResult.mk rd (p :: rests ++ [d]) fs) tr) as Hlog.
  cbv zeta in Hlog.
  cbn [RouteResult.route RouteResult.stops RouteResult.fuel_stops] in Hlog.
  rewrite (PlannerMore.merge_planned p d rests fs Hp Hrests Hd) in Hlog.
  destruct (Hlog Hnn) as [logs [w' [Hrun Hsum]]].
  { constructor; [rewrite Dp; discriminate|].
    rewrite app_assoc. apply Forall_app. split; [exact Hdur|].
    constructor; [rewrite Dd; discriminate | constructor]. }
  exists p, d, rests, fs, w1, logs, w'.
  split; [exact Hplan|]. split; [exact Hrun|]. split.
  - rewrite Hsum. cbn [app map]. rewrite !map_app. cbn [map].
    rewrite !LogFacts.sum_cons, !LogFacts.sum_app, !LogFacts.sum_cons. lra.
  - rewrite app_assoc, (legs_of_trip rd p d (fs ++ rests) Tp Td Hmid).
    now rewrite length_app.
Qed.

(** The theorem on the route of 1300 miles and 40 hours in the test
    world. *)
Lemma C7_witness :
  exists (pickup dropoff : Stop.t) (rests fuel_stops : list Stop.t)
         (w1 : TestWorld.World) (logs : list DailyLog.t) (w' : TestWorld.World),
    plan TestWorld.env (TestWorld.route 1300 40) (TestWorld.trip 45) TestWorld.w0
    = (Ok (RouteResult.mk (TestWorld.route 1300 40)
             (pickup :: rests ++ [dropoff]) fuel_stops), w1)
    /\ ELDService.generate_logs TestWorld.env
         (RouteResult.mk (TestWorld.route 1300 40)
            (pickup :: rests ++ [dropoff]) fuel_stops) (TestWorld.trip 45) TestWorld.w0
       = (Ok logs, w')
    /\ (logged_hours logs
        == Py.sum (leg_drive_times (TestWorld.route 1300 40) None
                     (pickup :: fuel_stops ++ rests ++ [dropoff]))
           + Py.sum (map Stop.duration
                       ((pickup :: rests ++ [dropoff]) ++ fuel_stops)))%Q
    /\ (Py.sum (leg_drive_times (TestWorld.route 1300 40) None
                  (pickup :: fuel_stops ++ rests ++ [dropoff]))
        == RouteData.duration (TestWorld.route 1300 40)
           * driven_share (List.length fuel_stops + List.length rests))%Q.
Proof.
  apply (C7_day_splitting_preserves_total_time TestWorld.World TestWorld.env
           TestWorld.w0 TestWorld.w0 (TestWorld.route 1300 40) (TestWorld.trip 45)).
  - simpl. discriminate.
  - vm_compute. discriminate.
Defined.

(** On that route the legs take 12 of the 40 hours of the route and the
    five stops 22.5 hours. *)
Example planned_trip_hours :
  match fst (ELDService.generate_logs TestWorld.env Scenario.planned
               (TestWorld.trip 45) TestWorld.w0) with
  | Ok logs =>
      (logged_hours logs == 12 + (225 # 10))%Q
      /\ (RouteData.duration (TestWorld.route 1300 40) * driven_share 3 == 12)%Q
      /\ (Py.sum (map Stop.duration
                    (RouteResult.stops Scenario.planned
                     ++ RouteResult.fuel_stops Scenario.planned)) == 225 # 10)%Q
  | _ => False
  end.
Proof. vm_compute. repeat split; reflexivity. Qed.

(** X11.  For every trip that the planner plans on a route with a
    coordinate and a duration that is not negative, the weekly totals
    that [calculate_weekly_hours] computes from the logs of
    [generate_logs] are: as drive time the route duration times
    [driven_share] of the number of fuel and rest stops of the plan, and
    as duty time this drive time plus the durations of the pickup, the
    dropoff and the fuel stops of the plan, which are two hours and half
    an hour for each fuel stop; the rest stops add nothing.  The number
    of days with driving is at most the number of logs. *)
Theorem weekly_hours_of_generated_logs :
  forall (World : Type) (env : Env World) (w w2 : World)
         (rd : RouteData.t) (tr : TripRequest.t),
    RouteData.coordinates rd <> [] ->
    (0 <= RouteData.duration rd)%Q ->
    exists (pickup dropoff : Stop.t) (rests fuel_stops : list Stop.t)
           (w1 : World) (logs : list DailyLog.t) (w' : World),
      plan env rd tr w
      = (Ok (RouteResult.mk rd (pickup :: rests ++ [dropoff]) fuel_stops), w1)
      /\ ELDService.generate_logs env
           (RouteResult.mk rd (pickup :: rests ++ [dropoff]) fuel_stops) tr w2
         = (Ok logs, w')
      /\ (HOSCalculator.WeeklyTotals.total_drive_time
            (HOSCalculator.calculate_weekly_hours logs)
          == RouteData.duration rd
             * driven_share (List.length fuel_stops + List.length rests))%Q
      /\ (HOSCalculator.WeeklyTotals.total_duty_time
            (HOSCalculator.calculate_weekly_hours logs)
          == RouteData.duration rd
             * driven_share (List.length fuel_stops + List.length rests)
             + Weekly.on_duty_hours ((pickup :: rests ++ [dropoff]) ++ fuel_stops))%Q
      /\ (Weekly.on_duty_hours ((pickup :: rests ++ [dropoff]) ++ fuel_stops)
          == 2 + (1 # 2) * inject_Z (Z.of_nat (List.length fuel_stops)))%Q
      /\ 0 <= HOSCalculator.WeeklyTotals.days_with_driving
                (HOSCalculator.calculate_weekly_hours logs)
           <= Z.of_nat (List.length logs).
Proof.
  intros World env w w2 rd tr Hne Hnn.
  destruct (PlannerMore.plan_structure env w rd tr Hne)
    as [p [d [rests [fs [w1 [Hplan [Hp [Hrests [Hd Hfs]]]]]]]]].
  destruct (type_of_shape _ _ _ Hp) as [Tp Dp].
  destruct (type_of_shape _ _ _ Hd) as [Td Dd].
  destruct (planned_between rests fs Hrests Hfs) as [Hmid Hdur].
  pose proof (LogMore.weekly_hours_of_visited_stops World env w2
                (RouteResult.mk rd (p :: rests ++ [d]) fs) tr) as Hlog.
  cbv zeta in Hlog.
  cbn [RouteResult.route RouteResult.stops RouteResult.fuel_stops] in Hlog.
  rewrite (PlannerMore.merge_planned p d rests fs Hp Hrests Hd) in Hlog.
  destruct (Hlog Hnn) as [logs [w' [Hrun [Hdrive [Hduty Hdays]]]]].
  { constructor; [rewrite Dp; discriminate|].
    rewrite app_assoc. apply Forall_app. split; [exact Hdur|].
    constructor; [rewrite Dd; discriminate | constructor]. }
  assert (Hlegs : (Py.sum (leg_drive_times rd None (p :: fs ++ rests ++ [d]))
                   == RouteData.duration rd
                      * driven_share (List.length fs + List.length rests))%Q).
  { rewrite app_assoc, (legs_of_trip rd p d (fs ++ rests) Tp Td Hmid).
    now rewrite length_app. }
  assert (Hp1 : Weekly.on_duty_hours [p] == 1).
  { rewrite LogMore.on_duty_hours_cons. unfold on_duty_stop. rewrite Tp, Dp.
    change (Weekly.on_duty_hours []) with 0%Q. cbn. lra. }
  assert (Hd1 : Weekly.on_duty_hours [d] == 1).
  { rewrite LogMore.on_duty_hours_cons. unfold on_duty_stop. rewrite Td, Dd.
    change (Weekly.on_duty_hours []) with 0%Q. cbn. lra. }
  pose proof (on_duty_hours_rests rests Hrests) as Hr0.
  pose proof (on_duty_hours_fuel fs Hfs) as Hf.
  exists p, d, rests, fs, w1, logs, w'.
  split; [exact Hplan|]. split; [exact Hrun|].
  split; [now rewrite Hdrive, Hlegs|]. split; [| split; [| exact Hdays]].
  - rewrite Hduty, Hlegs.
    change (p :: fs ++ rests ++ [d]) with ([p] ++ fs ++ rests ++ [d]).
    change ((p :: rests ++ [d]) ++ fs) with (([p] ++ rests ++ [d]) ++ fs).
    rewrite !on_duty_hours_app. lra.
  - change ((p :: rests ++ [d]) ++ fs) with (([p] ++ rests ++ [d]) ++ fs).
    rewrite !on_duty_hours_app, Hp1, Hd1, Hr0, Hf. lra.
Qed.

(** The theorem on the route of 1300 miles and 40 hours in the test
    world. *)
Lemma weekly_hours_of_generated_logs_witness :
  exists (pickup dropoff : Stop.t) (rests fuel_stops : list Stop.t)
         (w1 : TestWorld.World) (logs : list DailyLog.t) (w' : TestWorld.World),
    plan TestWorld.env (TestWorld.route 1300 40) (TestWorld.trip 45) TestWorld.w0
    = (Ok (RouteResult.mk (TestWorld.route 1300 40)
             (pickup :: rests ++ [dropoff]) fuel_stops), w1)
    /\ ELDService.generate_logs TestWorld.env
         (RouteResult.mk (TestWorld.route 1300 40)
            (pickup :: rests ++ [dropoff]) fuel_stops) (TestWorld.trip 45) TestWorld.w0
       = (Ok logs, w')
    /\ (HOSCalculator.WeeklyTotals.total_drive_time
          (HOSCalculator.calculate_weekly_hours logs)
        == RouteData.duration (TestWorld.route 1300 40)
           * driven_share (List.length fuel_stops + List.length rests))%Q
    /\ (HOSCalculator.WeeklyTotals.total_duty_time
          (HOSCalculator.calculate_weekly_hours logs)
        == RouteData.duration (TestWorld.route 1300 40)
           * driven_share (List.length fuel_stops + List.length rests)
           + Weekly.on_duty_hours ((pickup :: rests ++ [dropoff]) ++ fuel_stops))%Q
    /\ (Weekly.on_duty_hours ((pickup :: rests ++ [dropoff]) ++ fuel_stops)
        == 2 + (1 # 2) * inject_Z (Z.of_nat (List.length fuel_stops)))%Q
    /\ 0 <= HOSCalculator.WeeklyTotals.days_with_driving
              (HOSCalculator.calculate_weekly_hours logs)
         <= Z.of_nat (List.length logs).
Proof.
  apply (weekly_hours_of_generated_logs TestWorld.World TestWorld.env
           TestWorld.w0 TestWorld.w0 (TestWorld.route 1300 40) (TestWorld.trip 45)).
  - simpl. discriminate.
  - vm_compute. discriminate.
Defined.

(** On that route the weekly totals are 12 hours of driving and 14.5
    hours of duty. *)
Example planned_trip_weekly_hours :
  match fst (ELDService.generate_logs TestWorld.env Scenario.planned
               (TestWorld.trip 45) TestWorld.w0) with
  | Ok logs =>
      (HOSCalculator.WeeklyTotals.total_drive_time
         (HOSCalculator.calculate_weekly_hours logs) == 12)%Q
      /\ (HOSCalculator.WeeklyTotals.total_duty_time
            (HOSCalculator.calculate_weekly_hours logs) == 145 # 10)%Q
  | _ => False
  end.
Proof. vm_compute. split; reflexivity. Qed.

End TripTotals.

(** ** More on the compliance calculator *)

Module HosMore.
Import Planner.

(** *** Violations of a planned trip *)

Lemma duty_step_rests (m : nat) (total : Q) :
  fold_left duty_step (repeat ("rest", 10%Q) m) total = total.
Proof. induction m as [| m IH]; [reflexivity | exact IH]. Qed.

Lemma shapes_of_forall (l : list Stop.t) (sh : string * Q) :
  Forall (fun s => shape s = sh) l -> map shape l = repeat sh (List.length l).
Proof.
  intros Hall. induction Hall as [| s l Hs _ IH]; [reflexivity|].
  cbn [map List.length repeat]. now rewrite Hs, IH.
Qed.

(** The violation list is empty exactly when neither the weekly-cycle
    test nor the multi-day test fires. *)
Lemma violations_nil_iff (tr : TripRequest.t) (route : RouteData.t) (drive duty : Q) :
  (drive <= 11)%Q -> (duty <= 14)%Q ->
  (HOSCalculator._check_violations tr route drive duty = []
   <-> (inject_Z (TripRequest.cycle_used tr) + duty <= 70)%Q
       /\ (RouteData.duration route <= 11)%Q).
Proof.
  intros Hd Hu. unfold HOSCalculator._check_violations.
  rewrite (Qltb_false (inject_Z HOS_LIMITS.DAILY_DRIVE_LIMIT) drive)
    by (unfold HOS_LIMITS.DAILY_DRIVE_LIMIT; exact Hd).
  rewrite (Qltb_false (inject_Z HOS_LIMITS.DAILY_DUTY_LIMIT) duty)
    by (unfold HOS_LIMITS.DAILY_DUTY_LIMIT; exact Hu).
  change (inject_Z HOS_LIMITS.WEEKLY_LIMIT) with 70%Q.
  change (inject_Z HOS_LIMITS.DAILY_DRIVE_LIMIT) with 11%Q.
  destruct (Qltb_spec 70 (inject_Z (TripRequest.cycle_used tr) + duty));
    destruct (Qltb_spec 11 (RouteData.duration route)); cbn [app];
    split; try discriminate; try (intros [? ?]; lra); try (intros _; split; lra);
    reflexivity.
Qed.

(** X12.  For a trip planned on a route with at least one coordinate the
    compliance evaluation reports no violation exactly when the route
    takes at most 11 hours and the hours used in the cycle plus the route
    duration plus the two hours of pickup and dropoff stay within 70; the
    remaining hours are 70 less the hours used. *)
Theorem planned_trip_is_compliant_iff :
  forall (World : Type) (env : Env World) (w : World)
         (rd : RouteData.t) (tr : TripRequest.t),
    RouteData.coordinates rd <> [] ->
    exists (r : RouteResult.t) (w1 : World),
      plan env rd tr w = (Ok r, w1)
      /\ forall w2 : World,
         exists (hos : HOSStatus.t) (w3 : World),
           HOSCalculator.calculate_compliance env tr r w2 = (Ok hos, w3)
           /\ HOSStatus.remaining_hours hos = 70 - TripRequest.cycle_used tr
           /\ (HOSStatus.violations hos = []
               <-> (RouteData.duration rd <= 11)%Q
                   /\ (inject_Z (TripRequest.cycle_used tr) + RouteData.duration rd + 2
                       <= 70)%Q).
Proof.
  intros World env w rd tr Hne.
  destruct (PlannerMore.plan_structure env w rd tr Hne)
    as [p [d [rests [fs [w1 [Hplan [Hp [Hrests [Hd _]]]]]]]]].
  eexists. exists w1. split; [exact Hplan|]. intros w2.
  destruct (PlannerFacts.compliance_run env w2 tr
              (RouteResult.mk rd (p :: rests ++ [d]) fs)) as [t [w3 Hrun]].
  eexists. exists w3. split; [exact Hrun|].
  cbn [HOSStatus.remaining_hours HOSStatus.violations RouteResult.route].
  split; [reflexivity|].
  assert (Hduty : HOSCalculator._calculate_estimated_duty_time
                    (RouteResult.mk rd (p :: rests ++ [d]) fs)
                  = Py.min (RouteData.duration rd + 1 + 1)%Q 14).
  { rewrite PlannerFacts.duty_time_of_shapes.
    cbn [RouteResult.stops RouteResult.route map]. rewrite map_app. cbn [map].
    rewrite Hp, Hd.
    rewrite (shapes_of_forall _ _ Hrests). cbn [fold_left]. rewrite fold_left_app, duty_step_rests. reflexivity. }
  rewrite Hduty.
  rewrite violations_nil_iff by apply min_le_r.
  destruct (min_cases (RouteData.duration rd + 1 + 1) 14) as [[-> Hm] | [-> Hm]];
    split; intros [H1 H2]; split; lra.
Qed.

(** The theorem on the route of the test world. *)
Lemma planned_trip_is_compliant_iff_witness :
  exists (r : RouteResult.t) (w1 : TestWorld.World),
    plan TestWorld.env (TestWorld.route 300 5) (TestWorld.trip 10) TestWorld.w0
    = (Ok r, w1)
    /\ forall w2 : TestWorld.World,
       exists (hos : HOSStatus.t) (w3 : TestWorld.World),
         HOSCalculator.calculate_compliance TestWorld.env (TestWorld.trip 10) r w2
         = (Ok hos, w3)
         /\ HOSStatus.remaining_hours hos
            = 70 - TripRequest.cycle_used (TestWorld.trip 10)
         /\ (HOSStatus.violations hos = []
             <-> (RouteData.duration (TestWorld.route 300 5) <= 11)%Q
                 /\ (inject_Z (TripRequest.cycle_used (TestWorld.trip 10))
                     + RouteData.duration (TestWorld.route 300 5) + 2 <= 70)%Q).
Proof.
  apply (planned_trip_is_compliant_iff TestWorld.World TestWorld.env TestWorld.w0
           (TestWorld.route 300 5) (TestWorld.trip 10)).
  simpl. discriminate.
Defined.

(** *** Required rest periods *)

Lemma full_days_drive_time (a i : nat) :
  (Py.sum (map HOSCalculator.RestPeriod.drive_time (map RestPlan.full_day (seq a i)))
   == 11 * inject_Z (Z.of_nat i))%Q.
Proof.
  revert a. induction i as [| i IH]; intros a.
  - reflexivity.
  - cbn [seq map]. rewrite LogFacts.sum_cons, IH, PlannerMore.of_nat_succ_Q.
    cbn [RestPlan.full_day HOSCalculator.RestPeriod.drive_time]. lra.
Qed.

(** X13.  [calculate_required_rest_periods] returns no period for a
    duration of at most 11 hours.  For a duration [d] with
    [11 * n < d <= 11 * (n + 1)] and [n >= 1] it returns [n] full days,
    numbered from 1, of 11 hours of driving followed by 10 hours of rest,
    and one last day [n + 1] with the remaining [d - 11 * n] hours and no
    rest; the drive times add up to [d]. *)
Theorem required_rest_periods_split_the_duration :
  forall (route_duration : Q),
    ((route_duration <= 11)%Q ->
     HOSCalculator.calculate_required_rest_periods route_duration = Some [])
    /\ forall n : nat,
         (1 <= n)%nat ->
         (11 * inject_Z (Z.of_nat n) < route_duration)%Q ->
         (route_duration <= 11 * (inject_Z (Z.of_nat n) + 1))%Q ->
         exists last : Q,
           HOSCalculator.calculate_required_rest_periods route_duration
           = Some (map RestPlan.full_day (seq 1 n) ++ [RestPlan.last_day (S n) last])
           /\ (last == route_duration - 11 * inject_Z (Z.of_nat n))%Q
           /\ (0 < last)%Q /\ (last <= 11)%Q
           /\ (Py.sum (map HOSCalculator.RestPeriod.drive_time
                         (map RestPlan.full_day (seq 1 n)
                          ++ [RestPlan.last_day (S n) last]))
               == route_duration)%Q.
Proof.
  intros d. split.
  - intros Hle. unfold HOSCalculator.calculate_required_rest_periods.
    change (inject_Z HOS_LIMITS.DAILY_DRIVE_LIMIT) with 11%Q.
    destruct (Qleb_spec d 11); [reflexivity | contradiction].
  - intros n Hn Hlo Hhi.
    assert (Hn1 : (1 <= inject_Z (Z.of_nat n))%Q).
    { change 1%Q with (inject_Z 1). rewrite <- Zle_Qle. lia. }
    unfold HOSCalculator.calculate_required_rest_periods.
    change (inject_Z HOS_LIMITS.DAILY_DRIVE_LIMIT) with 11%Q.
    destruct (Qleb_spec d 11) as [Hle |]; [lra|].
    destruct (while_total HOSCalculator.rest_periods_cond HOSCalculator.rest_periods_body
                (fun _ => True) (fun s => snd (fst s)) 11%Q)
      with (n := Z.to_nat (Qceiling (d / 11)))
           (s := (@nil HOSCalculator.RestPeriod.t, d, 1)) as [s' Hs'].
    { lra. }
    { intros s H. unfold HOSCalculator.rest_periods_cond. now apply Qltb_false. }
    { intros [[periods remaining] day] _ _. unfold HOSCalculator.rest_periods_body.
      change (inject_Z HOS_LIMITS.DAILY_DRIVE_LIMIT) with 11%Q.
      destruct (Py.Qltb 11 remaining); cbn [fst snd]; [left; split; [exact I | lra]|].
      right. lra. }
    { exact I. }
    { cbn [fst snd]. apply budget_covers. lra. }
    unfold HOSCalculator.rest_periods_budget. rewrite Hs'. cbn [option_map].
    set (Inv := fun s : list HOSCalculator.RestPeriod.t * Q * Z =>
           (exists i : nat,
              (i <= n)%nat
              /\ fst (fst s) = map RestPlan.full_day (seq 1 i)
              /\ (snd (fst s) == d - 11 * inject_Z (Z.of_nat i))%Q
              /\ snd s = Z.of_nat (S i))
           \/ (exists last : Q,
                 fst (fst s)
                 = map RestPlan.full_day (seq 1 n) ++ [RestPlan.last_day (S n) last]
                 /\ (last == d - 11 * inject_Z (Z.of_nat n))%Q
                 /\ (snd (fst s) <= 0)%Q)).
    assert (Hstep : forall s, Inv s -> HOSCalculator.rest_periods_cond s = true ->
                              Inv (HOSCalculator.rest_periods_body s)).
    { intros [[periods remaining] day] HI Hc.
      unfold Inv, HOSCalculator.rest_periods_cond, HOSCalculator.rest_periods_body in *.
      cbn [fst snd] in *.
      destruct (Qltb_spec 0 remaining) as [Hpos |]; [| discriminate].
      destruct HI as [[i [Hi [Hp [Hr Hday]]]] | [last [_ [_ Hle]]]]; [| lra].
      change (inject_Z HOS_LIMITS.DAILY_DRIVE_LIMIT) with 11%Q.
      pose proof (PlannerMore.of_nat_le_Q i n Hi) as Hin.
      destruct (Qltb_spec 11 remaining) as [Hbig | Hsmall]; cbn [fst snd].
      - assert (Hlt : (i < n)%nat).
        { destruct (Nat.eq_dec i n) as [-> |]; [lra | lia]. }
        left. exists (S i). split; [lia|]. split.
        { rewrite Hp, seq_S, map_app. cbn [map Nat.add]. subst day. reflexivity. }
        rewrite PlannerMore.of_nat_succ_Q. split; [lra | lia].
      - assert (Hni : (n <= i)%nat) by (apply PlannerMore.of_nat_lt_succ_Q; lra).
        assert (i = n) by lia. subst i.
        right. exists remaining. split.
        { rewrite Hp. subst day. reflexivity. }
        split; [exact Hr | lra]. }
    assert (Hinit : Inv ([], d, 1)).
    { left. exists 0%nat. cbn [fst snd seq map]. split; [lia|]. split; [reflexivity|].
      change (inject_Z (Z.of_nat 0)) with 0%Q. split; [lra | reflexivity]. }
    destruct (while_inv _ _ Inv Hstep _ _ _ Hinit Hs') as [HI Hc].
    unfold HOSCalculator.rest_periods_cond in Hc.
    destruct (Qltb_spec 0 (snd (fst s'))) as [| Hexit]; [discriminate|].
    destruct HI as [[i [Hi [_ [Hr _]]]] | [last [Hp [Hlast _]]]].
    { exfalso. pose proof (PlannerMore.of_nat_le_Q i n Hi). lra. }
    exists last. split; [now rewrite Hp|]. split; [exact Hlast|].
    split; [lra|]. split; [lra|].
    rewrite map_app, LogFacts.sum_app, full_days_drive_time. cbn [map].
    rewrite LogFacts.sum_cons. unfold Py.sum at 1. cbn [fold_left].
    cbn [RestPlan.last_day HOSCalculator.RestPeriod.drive_time]. lra.
Qed.

(** The theorem at 8 hours and at 40 hours (three full days and 7 hours). *)
Lemma required_rest_periods_witness :
  HOSCalculator.calculate_required_rest_periods 8 = Some []
  /\ exists last : Q,
       HOSCalculator.calculate_required_rest_periods 40
       = Some (map RestPlan.full_day (seq 1 3) ++ [RestPlan.last_day 4 last])
       /\ (last == 40 - 11 * inject_Z (Z.of_nat 3))%Q
       /\ (0 < last)%Q /\ (last <= 11)%Q
       /\ (Py.sum (map HOSCalculator.RestPeriod.drive_time
                     (map RestPlan.full_day (seq 1 3) ++ [RestPlan.last_day 4 last]))
           == 40)%Q.
Proof.
  split.
  - apply (required_rest_periods_split_the_duration 8). vm_compute. discriminate.
  - apply (proj2 (required_rest_periods_split_the_duration 40) 3%nat).
    + lia.
    + vm_compute. reflexivity.
    + vm_compute. discriminate.
Defined.

(** *** Feasibility *)

(** X14.  [validate_trip_feasibility] finds a trip feasible exactly when
    its duration is at most 11 hours and at most the 70 hours of the cycle
    less the hours used; a feasible result carries neither reason nor
    recommendation.  A duration above 11 hours is infeasible for the
    reason of multi-day planning whatever the hours used, and any other
    infeasible trip for the reason of insufficient cycle hours. *)
Theorem trip_feasibility_reasons :
  forall (tr : TripRequest.t) (route_duration : Q),
    let result := HOSCalculator.validate_trip_feasibility tr route_duration in
    (HOSCalculator.Feasibility.feasible result = true
     <-> (route_duration <= 11)%Q
         /\ (route_duration <= inject_Z (70 - TripRequest.cycle_used tr))%Q)
    /\ (HOSCalculator.Feasibility.feasible result = true ->
        HOSCalculator.Feasibility.reason result = None
        /\ HOSCalculator.Feasibility.recommendation result = None
        /\ HOSCalculator.Feasibility.requires_rest result = false)
    /\ ((11 < route_duration)%Q ->
        HOSCalculator.Feasibility.feasible result = false
        /\ HOSCalculator.Feasibility.requires_rest result = true
        /\ HOSCalculator.Feasibility.reason result
           = Some "Trip requires multi-day planning"
        /\ HOSCalculator.Feasibility.recommendation result
           = Some "Plan mandatory rest periods")
    /\ ((route_duration <= 11)%Q ->
        HOSCalculator.Feasibility.feasible result = false ->
        HOSCalculator.Feasibility.reason result
        = Some "Insufficient hours in current cycle"
        /\ HOSCalculator.Feasibility.recommendation result
           = Some "Wait for cycle reset or reduce trip scope").
Proof.
  intros tr d result. subst result.
  unfold HOSCalculator.validate_trip_feasibility,
    HOSCalculator.calculate_available_drive_time, HOSCalculator.int_min.
  cbn [HOSCalculator.AvailableDriveTime.effective_limit].
  change HOS_LIMITS.WEEKLY_LIMIT with 70. change HOS_LIMITS.DAILY_DRIVE_LIMIT with 11.
  change (inject_Z 11) with 11%Q.
  set (remaining := 70 - TripRequest.cycle_used tr).
  assert (Heff : (inject_Z (if remaining <? 11 then remaining else 11) <= 11)%Q
                 /\ (inject_Z (if remaining <? 11 then remaining else 11)
                     <= inject_Z remaining)%Q
                 /\ ((inject_Z (if remaining <? 11 then remaining else 11) == 11)%Q
                     \/ (inject_Z (if remaining <? 11 then remaining else 11)
                          == inject_Z remaining)%Q)).
  { destruct (Z.ltb_spec remaining 11).
    - split; [change 11%Q with (inject_Z 11); rewrite <- Zle_Qle; lia|].
      split; [lra | right; reflexivity].
    - split; [apply Qle_refl|]. split; [| left; reflexivity].
      rewrite <- Zle_Qle. lia. }
  destruct Heff as [H11 [Hrem Hcase]].
  destruct (Qleb_spec d (inject_Z (if remaining <? 11 then remaining else 11)))
    as [Hf | Hnf]; cbn [negb].
  - cbn [HOSCalculator.Feasibility.feasible HOSCalculator.Feasibility.reason
         HOSCalculator.Feasibility.recommendation
         HOSCalculator.Feasibility.requires_rest].
    split; [split; [intros _; split; lra | reflexivity]|].
    split; [intros _; repeat split; apply Qltb_false; lra|].
    split; [intros Hbig; lra | intros _ Hfalse; discriminate].
  - destruct (Qltb_spec 11 d) as [Hbig | Hsmall];
      cbn [HOSCalculator.Feasibility.feasible HOSCalculator.Feasibility.reason
           HOSCalculator.Feasibility.recommendation
           HOSCalculator.Feasibility.requires_rest].
    + split; [split; [discriminate | intros [? ?]; lra]|].
      split; [discriminate|].
      split; [intros _; repeat split | intros ?; lra].
    + split; [split; [discriminate | intros [? ?]; destruct Hcase; lra]|].
      split; [discriminate|].
      split; [intros ?; lra | intros _ _; split; reflexivity].
Qed.

(** The theorem on a trip of 15 hours with 10 hours used. *)
Lemma trip_feasibility_reasons_witness :
  HOSCalculator.Feasibility.feasible
    (HOSCalculator.validate_trip_feasibility (TestWorld.trip 10) 15) = false
  /\ HOSCalculator.Feasibility.requires_rest
       (HOSCalculator.validate_trip_feasibility (TestWorld.trip 10) 15) = true
  /\ HOSCalculator.Feasibility.reason
       (HOSCalculator.validate_trip_feasibility (TestWorld.trip 10) 15)
     = Some "Trip requires multi-day planning"
  /\ HOSCalculator.Feasibility.recommendation
       (HOSCalculator.validate_trip_feasibility (TestWorld.trip 10) 15)
     = Some "Plan mandatory rest periods".
Proof.
  apply (trip_feasibility_reasons (TestWorld.trip 10) 15). vm_compute. reflexivity.
Defined.

(** *** Cycle reset *)

(** X15.  [check_cycle_reset_eligibility] reads the clock once; the
    driver is eligible exactly when no day is left until eligibility,
    that is from the eighth day after the last reset on; before that the
    days since the reset and the days until eligibility add up to 8, and
    the hours until the limit are 70 less the current cycle hours. *)
Theorem cycle_reset_eligibility_counts_days :
  forall (World : Type) (env : Env World) (w : World)
         (current_cycle_hours : Z) (last_reset_date : date),
  exists (t : datetime) (w' : World) (r : HOSCalculator.ResetEligibility.t),
    datetime_now env w = (t, w')
    /\ HOSCalculator.check_cycle_reset_eligibility env current_cycle_hours
         last_reset_date w = (Ok r, w')
    /\ HOSCalculator.ResetEligibility.days_since_reset r = date_of t - last_reset_date
    /\ (HOSCalculator.ResetEligibility.eligible r = true
        <-> HOSCalculator.ResetEligibility.days_until_eligible r = 0)
    /\ (HOSCalculator.ResetEligibility.eligible r = true
        <-> 8 <= date_of t - last_reset_date)
    /\ 0 <= HOSCalculator.ResetEligibility.days_until_eligible r
    /\ (HOSCalculator.ResetEligibility.eligible r = false
        -> HOSCalculator.ResetEligibility.days_since_reset r
           + HOSCalculator.ResetEligibility.days_until_eligible r = 8)
    /\ HOSCalculator.ResetEligibility.hours_until_limit r
       = 70 - current_cycle_hours.
Proof.
  intros World env w hours last.
  destruct (datetime_now env w) as [t w'] eqn:Hnow.
  exists t, w'. eexists. split; [reflexivity|]. split.
  { unfold HOSCalculator.check_cycle_reset_eligibility, bind, now, ret.
    rewrite Hnow. reflexivity. }
  cbn [HOSCalculator.ResetEligibility.days_since_reset
       HOSCalculator.ResetEligibility.eligible
       HOSCalculator.ResetEligibility.days_until_eligible
       HOSCalculator.ResetEligibility.hours_until_limit].
  unfold HOSCalculator.int_max. change HOS_LIMITS.CYCLE_DAYS with 8.
  change HOS_LIMITS.WEEKLY_LIMIT with 70.
  destruct (Z.leb_spec 8 (date_of t - last)); destruct (Z.ltb_spec 0 (8 - (date_of t - last)));
    repeat split; intros; try lia; try discriminate; try reflexivity.
Qed.

End HosMore.

(** ** More on the request handler *)

Module ViewsMore.

Lemma new_valid (current pickup dropoff : string) (cycle : Z) :
  0 <= cycle <= 70 ->
  TripRequest.new current pickup dropoff cycle
  = Ok (TripRequest.mk current pickup dropoff cycle).
Proof.
  intros [H0 H70]. unfold TripRequest.new.
  apply Z.leb_le in H0, H70. now rewrite H0, H70.
Qed.

Lemma new_invalid (current pickup dropoff : string) (cycle : Z) :
  ~ (0 <= cycle <= 70) ->
  TripRequest.new current pickup dropoff cycle = Raise TripRequest.cycle_error.
Proof.
  intros Hout. unfold TripRequest.new.
  assert (E : (0 <=? cycle) && (cycle <=? 70) = false).
  { apply andb_false_iff.
    destruct (Z.leb_spec 0 cycle); [| now left].
    destruct (Z.leb_spec cycle 70); [lia | now right]. }
  now rewrite E.
Qed.

(** [calculate_route] returns a result or raises a plain [Exception]; it
    never raises another class and never runs out of fuel. *)
Lemma calculate_route_outcome {World : Type} (env : Env World) (w : World)
    (tr : TripRequest.t) :
  exists w' : World,
    (exists r : RouteResult.t, RouteService.calculate_route env tr w = (Ok r, w'))
    \/ (exists msg : string,
          RouteService.calculate_route env tr w = (Raise (mkExn Exception msg), w')).
Proof.
  destruct (nominatim_search env (TripRequest.current_location tr) w)
    as [[l1 |] w1] eqn:H1.
  2:{ exists w1. right. eexists.
      unfold RouteService.calculate_route, try_except.
      unfold bind at 1. unfold RouteService.geocode_location at 1. rewrite H1.
      reflexivity. }
  destruct (nominatim_search env (TripRequest.pickup_location tr) w1)
    as [[l2 |] w2] eqn:H2.
  2:{ exists w2. right. eexists.
      unfold RouteService.calculate_route, try_except.
      unfold bind at 1. unfold RouteService.geocode_location at 1. rewrite H1.
      unfold bind at 1. unfold RouteService.geocode_location at 1. rewrite H2.
      reflexivity. }
  destruct (nominatim_search env (TripRequest.dropoff_location tr) w2)
    as [[l3 |] w3] eqn:H3.
  2:{ exists w3. right. eexists.
      unfold RouteService.calculate_route, try_except.
      unfold bind at 1. unfold RouteService.geocode_location at 1. rewrite H1.
      unfold bind at 1. unfold RouteService.geocode_location at 1. rewrite H2.
      unfold bind at 1. unfold RouteService.geocode_location at 1. rewrite H3.
      reflexivity. }
  destruct (openroute_directions env (map Location.to_coords [l1; l2; l3]) w3)
    as [[[metres seconds] |] w4] eqn:H4.
  2:{ exists w4. right. eexists.
      unfold RouteService.calculate_route, try_except.
      unfold bind at 1. unfold RouteService.geocode_location at 1. rewrite H1.
      unfold bind at 1. unfold RouteService.geocode_location at 1. rewrite H2.
      unfold bind at 1. unfold RouteService.geocode_location at 1. rewrite H3.
      unfold bind at 1.
      unfold RouteService._calculate_multi_stop_route, try_except.
      unfold bind at 1. unfold RouteService._call_openroute_api. rewrite H4.
      reflexivity. }
  destruct (PlannerFacts.plan_shapes env w4
              (RouteData.mk (metres / (160934 # 100)) (seconds / 3600)
                            (map Location.to_coords [l1; l2; l3])) tr)
    as [stops [fs [w5 [_ [_ [Hplan _]]]]]]; [discriminate|].
  exists w5. left. eexists.
  exact (Pipeline.calculate_route_plan env w w1 w2 w3 w4 w5 tr l1 l2 l3
           metres seconds _ H1 H2 H3 H4 Hplan).
Qed.

(** The handler on a well-formed request, after the route calculation. *)
Lemma post_after_route {World : Type} (env : Env World) (w : World)
    (current pickup dropoff : string) (v : Views.PyValue) (cycle : Z) :
  Views.int env v = Ok cycle ->
  0 <= cycle <= 70 ->
  let tr := TripRequest.mk current pickup dropoff cycle in
  (forall (r : RouteResult.t) (w1 : World),
     RouteService.calculate_route env tr w = (Ok r, w1) ->
     exists (logs : list DailyLog.t) (hos : HOSStatus.t) (w2 w3 : World),
       ELDService.generate_logs env r tr w1 = (Ok logs, w2)
       /\ HOSCalculator.calculate_compliance env tr r w2 = (Ok hos, w3)
       /\ Views.post env
            (Views.mkData (Some current) (Some pickup) (Some dropoff) (Some v)) w
          = (Ok (Views.mkResponse
                   (Views.RouteBody
                      (RouteResponse.mk (RouteResult.route r) (RouteResult.stops r)
                         (RouteResult.fuel_stops r) logs hos))
                   Views.HTTP_200_OK), w3))
  /\ (forall (msg : string) (w1 : World),
        RouteService.calculate_route env tr w = (Raise (mkExn Exception msg), w1) ->
        Views.post env
          (Views.mkData (Some current) (Some pickup) (Some dropoff) (Some v)) w
        = (Ok (Views.mkResponse Request.internal_error
                                Views.HTTP_500_INTERNAL_SERVER_ERROR), w1)).
Proof.
  intros Hint Hc tr. split.
  - intros r w1 Hroute.
    destruct (LogFacts.generate_logs_run env w1 r tr) as [t [w2 [c [_ Hlogs]]]].
    destruct (PlannerFacts.compliance_run env w2 tr r) as [t' [w3 Hhos]].
    eexists. eexists. exists w2, w3. split; [exact Hlogs|]. split; [exact Hhos|].
    unfold Views.post, try_except. cbn [Views.current_location Views.pickup_location
                                         Views.dropoff_location Views.cycle_used].
    unfold bind at 1. unfold Views.of_outcome at 1. rewrite Hint.
    unfold bind at 1. unfold Views.of_outcome. rewrite (new_valid _ _ _ _ Hc).
    unfold bind at 1. fold tr. rewrite Hroute.
    unfold bind at 1. rewrite Hlogs.
    unfold bind at 1. rewrite Hhos. reflexivity.
  - intros msg w1 Hroute.
    unfold Views.post, try_except. cbn [Views.current_location Views.pickup_location
                                         Views.dropoff_location Views.cycle_used].
    unfold bind at 1. unfold Views.of_outcome at 1. rewrite Hint.
    unfold bind at 1. unfold Views.of_outcome. rewrite (new_valid _ _ _ _ Hc).
    unfold bind at 1. fold tr. rewrite Hroute. reflexivity.
Qed.

(** [int(...)] returns an integer or raises; it never runs out of fuel. *)
Lemma int_cases {World : Type} (env : Env World) (v : Views.PyValue) :
  (exists z : Z, Views.int env v = Ok z)
  \/ (exists (kind : ExnKind) (msg : string), Views.int env v = Raise (mkExn kind msg)).
Proof.
  destruct v; cbn [Views.int]; try (left; eexists; reflexivity);
    try (right; eexists; eexists; reflexivity).
  destruct (int_of_str env s); [left | right; exists ValueError]; eexists; reflexivity.
Qed.

(** The handler on a request whose [cycle_used] cannot be converted. *)
Lemma post_unreadable {World : Type} (env : Env World) (w : World)
    (current pickup dropoff : string) (v : Views.PyValue) (e : PyExn) :
  Views.int env v = Raise e ->
  Views.post env
    (Views.mkData (Some current) (Some pickup) (Some dropoff) (Some v)) w
  = (Ok match exn_kind e with
        | ValueError => Views.mkResponse (Views.ErrorBody (exn_msg e)) 400
        | _ => Views.mkResponse Request.internal_error 500
        end, w).
Proof.
  intros Hint. unfold Views.post, try_except.
  cbn [Views.current_location Views.pickup_location Views.dropoff_location
       Views.cycle_used].
  unfold bind at 1. unfold Views.of_outcome at 1. rewrite Hint.
  destruct e as [[] msg]; reflexivity.
Qed.

(** The handler on a request whose [cycle_used] is out of range. *)
Lemma post_out_of_range {World : Type} (env : Env World) (w : World)
    (current pickup dropoff : string) (v : Views.PyValue) (cycle : Z) :
  Views.int env v = Ok cycle ->
  ~ 0 <= cycle <= 70 ->
  Views.post env
    (Views.mkData (Some current) (Some pickup) (Some dropoff) (Some v)) w
  = (Ok (Views.mkResponse (Views.ErrorBody (exn_msg TripRequest.cycle_error)) 400), w).
Proof.
  intros Hint Hout. unfold Views.post, try_except.
  cbn [Views.current_location Views.pickup_location Views.dropoff_location
       Views.cycle_used].
  unfold bind at 1. unfold Views.of_outcome at 1. rewrite Hint.
  unfold bind at 1. unfold Views.of_outcome.
  rewrite (new_invalid current pickup dropoff cycle Hout). reflexivity.
Qed.

(** X16.  The request handler answers every request whose address fields
    are strings, whatever [cycle_used] holds: it returns a response with
    status 200, 400 or 500 and lets no exception through.  The status is
    400 exactly when a field is missing, or [int(cycle_used)] raises
    [ValueError], or the integer it returns is outside 0..70.  Unless the
    four fields are there and [int(cycle_used)] returns an integer in
    0..70, nothing outside has been called and the status is not 200;
    every answer with status 500 carries the same generic error text. *)
Theorem post_always_answers :
  forall (World : Type) (env : Env World) (w : World)
         (request_data : Views.RequestData),
  exists (resp : Views.Response) (w' : World),
    Views.post env request_data w = (Ok resp, w')
    /\ In (Views.status resp) [200; 400; 500]
    /\ (Views.status resp = 400 <-> Request.bad_request env request_data)
    /\ (~ Request.well_formed env request_data ->
        w' = w /\ Views.status resp <> 200)
    /\ (Views.status resp = 500 -> Views.data resp = Request.internal_error).
Proof.
  intros World env w [[current |] [pickup |] [dropoff |] [v |]];
    try (eexists; exists w; split; [reflexivity|];
         cbn [Views.status Views.HTTP_400_BAD_REQUEST];
         split; [right; left; reflexivity|];
         split; [split; [intros _; left; reflexivity | reflexivity]|];
         split; [intros _; split; [reflexivity | discriminate] | discriminate]).
  assert (Hread : Request.cycle_hours env
                    (Views.mkData (Some current) (Some pickup) (Some dropoff) (Some v))
                  = Some (Views.int env v)) by reflexivity.
  unfold Request.bad_request, Request.well_formed. rewrite Hread.
  destruct (int_cases env v) as [[cycle Hint] | [kind [msg Hint]]].
  - rewrite Hint.
    destruct (Z_le_dec 0 cycle) as [H0 |];
      [destruct (Z_le_dec cycle 70) as [H70 |]|].
    + assert (Hc : 0 <= cycle <= 70) by lia.
      destruct (post_after_route env w current pickup dropoff v cycle Hint Hc)
        as [Hok Herr].
      destruct (calculate_route_outcome env w
                  (TripRequest.mk current pickup dropoff cycle))
        as [w1 [[r Hr] | [msg Hr]]].
      * destruct (Hok r w1 Hr) as [logs [hos [w2 [w3 [_ [_ Hpost]]]]]].
        eexists. exists w3. split; [exact Hpost|]. cbn [Views.status Views.data].
        split; [left; reflexivity|]. split.
        { split; [discriminate|].
          intros [E | [[m E] | [c [E Hout]]]]; try discriminate.
          inversion E; subst. contradiction. }
        split; [| discriminate].
        intros Hnot. exfalso. apply Hnot. exists cycle. now split.
      * eexists. exists w1. split; [exact (Herr msg w1 Hr)|].
        cbn [Views.status Views.data].
        split; [right; right; left; reflexivity|]. split.
        { split; [discriminate|].
          intros [E | [[m E] | [c [E Hout]]]]; try discriminate.
          inversion E; subst. contradiction. }
        split; [| reflexivity].
        intros Hnot. exfalso. apply Hnot. exists cycle. now split.
    + assert (Hout : ~ 0 <= cycle <= 70) by lia.
      eexists. exists w. split; [exact (post_out_of_range env w _ _ _ v cycle Hint Hout)|].
      cbn [Views.status Views.data].
      split; [right; left; reflexivity|]. split.
      { split; [| reflexivity]. intros _. right. right. exists cycle. now split. }
      split; [intros _; split; [reflexivity | discriminate] | discriminate].
    + assert (Hout : ~ 0 <= cycle <= 70) by lia.
      eexists. exists w. split; [exact (post_out_of_range env w _ _ _ v cycle Hint Hout)|].
      cbn [Views.status Views.data].
      split; [right; left; reflexivity|]. split.
      { split; [| reflexivity]. intros _. right. right. exists cycle. now split. }
      split; [intros _; split; [reflexivity | discriminate] | discriminate].
  - rewrite Hint. eexists. exists w.
    split; [exact (post_unreadable env w current pickup dropoff v _ Hint)|].
    destruct kind; cbn [exn_kind exn_msg Views.status Views.data].
    + split; [right; left; reflexivity|]. split.
      { split; [| reflexivity]. intros _. right. left. exists msg. reflexivity. }
      split; [intros _; split; [reflexivity | discriminate] | discriminate].
    + split; [right; right; left; reflexivity|]. split.
      { split; [discriminate|].
        intros [E | [[m E] | [c [E _]]]]; discriminate. }
      split; [intros _; split; [reflexivity | discriminate] | reflexivity].
    + split; [right; right; left; reflexivity|]. split.
      { split; [discriminate|].
        intros [E | [[m E] | [c [E _]]]]; discriminate. }
      split; [intros _; split; [reflexivity | discriminate] | reflexivity].
    + split; [right; right; left; reflexivity|]. split.
      { split; [discriminate|].
        intros [E | [[m E] | [c [E _]]]]; discriminate. }
      split; [intros _; split; [reflexivity | discriminate] | reflexivity].
    + split; [right; right; left; reflexivity|]. split.
      { split; [discriminate|].
        intros [E | [[m E] | [c [E _]]]]; discriminate. }
      split; [intros _; split; [reflexivity | discriminate] | reflexivity].
Qed.

(** In the test world: 70.5 cycle hours are read as 70 and the trip is
    planned; the text 45 is read as 45; a text that is no number is
    answered with status 400, [null] and a list with status 500, each
    without a request to the services. *)
Example post_reads_cycle_used :
  let request (v : Views.PyValue) :=
    Views.mkData (Some "New York, NY") (Some "Philadelphia, PA") (Some "Atlanta, GA")
                 (Some v) in
  let answer (v : Views.PyValue) :=
    TestWorld.answered (Views.post TestWorld.env (request v) TestWorld.w_routed) in
  answer (Views.PyFloat (705 # 10)) = Some (200, 4%nat)
  /\ Views.post TestWorld.env (request (Views.PyFloat (705 # 10))) TestWorld.w_routed
     = Views.post TestWorld.env (request (Views.PyInt 70)) TestWorld.w_routed
  /\ answer (Views.PyStr "45") = Some (200, 4%nat)
  /\ answer (Views.PyFloat (709 # 10)) = Some (200, 4%nat)
  /\ answer (Views.PyFloat 71) = Some (400, 0%nat)
  /\ answer (Views.PyStr "abc") = Some (400, 0%nat)
  /\ answer Views.PyNaN = Some (400, 0%nat)
  /\ answer Views.PyNone = Some (500, 0%nat)
  /\ answer Views.PyList = Some (500, 0%nat)
  /\ answer (Views.PyInfinity false) = Some (500, 0%nat).
Proof. cbv zeta. repeat split; vm_compute; reflexivity. Qed.

(** X17.  When the request is well formed, the three addresses are
    geocoded and the routing service answers, the handler responds with
    status 200; the response carries the route converted from metres to
    miles and from seconds to hours, on the three geocoded points, a stop
    list that begins with the pickup and ends with the dropoff, and a
    compliance status for the requested cycle hours. *)
Theorem post_succeeds_when_services_answer :
  forall (World : Type) (env : Env World) (w w1 w2 w3 w4 : World)
         (current pickup dropoff : string) (cycle : Z)
         (l1 l2 l3 : Location.t) (metres seconds : Q),
    0 <= cycle <= 70 ->
    nominatim_search env current w = (Some l1, w1) ->
    nominatim_search env pickup w1 = (Some l2, w2) ->
    nominatim_search env dropoff w2 = (Some l3, w3) ->
    openroute_directions env (map Location.to_coords [l1; l2; l3]) w3
    = (Some (metres, seconds), w4) ->
    exists (response_data : RouteResponse.t) (w' : World)
           (p d : Stop.t) (rests : list Stop.t),
      Views.post env
        (Views.mkData (Some current) (Some pickup) (Some dropoff)
                      (Some (Views.PyInt cycle))) w
      = (Ok (Views.mkResponse (Views.RouteBody response_data) 200), w')
      /\ RouteResponse.route response_data
         = RouteData.mk (metres / (160934 # 100)) (seconds / 3600)
                        (map Location.to_coords [l1; l2; l3])
      /\ RouteResponse.stops response_data = p :: rests ++ [d]
      /\ Stop.type p = "pickup" /\ Stop.type d = "dropoff"
      /\ Forall (fun s => Stop.type s = "rest") rests
      /\ HOSStatus.cycle_used (RouteResponse.hos_status response_data) = cycle
      /\ HOSStatus.remaining_hours (RouteResponse.hos_status response_data)
         = 70 - cycle.
Proof.
  intros World env w w1 w2 w3 w4 current pickup dropoff cycle l1 l2 l3 metres seconds
         Hc H1 H2 H3 H4.
  set (tr := TripRequest.mk current pickup dropoff cycle).
  set (rd := RouteData.mk (metres / (160934 # 100)) (seconds / 3600)
                          (map Location.to_coords [l1; l2; l3])).
  destruct (PlannerMore.plan_structure env w4 rd tr ltac:(discriminate))
    as [p [d [rests [fs [w5 [Hplan [Hp [Hrests [Hd _]]]]]]]]].
  assert (Tp : Stop.type p = "pickup")
    by (change (Stop.type p) with (fst (Planner.shape p)); now rewrite Hp).
  assert (Td : Stop.type d = "dropoff")
    by (change (Stop.type d) with (fst (Planner.shape d)); now rewrite Hd).
  assert (Tr : Forall (fun s => Stop.type s = "rest") rests).
  { eapply Forall_impl; [| exact Hrests]. intros s0 Hs0.
    change (Stop.type s0) with (fst (Planner.shape s0)). now rewrite Hs0. }
  pose proof (Pipeline.calculate_route_plan env w w1 w2 w3 w4 w5 tr l1 l2 l3
                metres seconds _ H1 H2 H3 H4 Hplan) as Hroute.
  destruct (post_after_route env w current pickup dropoff (Views.PyInt cycle) cycle
              eq_refl Hc) as [Hok _].
  destruct (Hok _ _ Hroute) as [logs [hos [w6 [w7 [_ [Hhos Hpost]]]]]].
  destruct (PlannerFacts.compliance_run env w6 tr
              (RouteResult.mk rd (p :: rests ++ [d]) fs)) as [t [w8 Hrun]].
  fold tr in Hhos. rewrite Hrun in Hhos. inversion Hhos; subst hos w7.
  eexists. exists w8, p, d, rests. split; [exact Hpost|].
  cbn [RouteResponse.route RouteResponse.stops RouteResponse.hos_status
       RouteResult.route RouteResult.stops HOSStatus.cycle_used
       HOSStatus.remaining_hours TripRequest.cycle_used tr].
  repeat split; assumption || reflexivity.
Qed.

(** The theorem in the test world whose routing service answers. *)
Lemma post_succeeds_when_services_answer_witness :
  exists (response_data : RouteResponse.t) (w' : TestWorld.World)
         (p d : Stop.t) (rests : list Stop.t),
    Views.post TestWorld.env
      (Views.mkData (Some "New York, NY") (Some "Philadelphia, PA")
                    (Some "Atlanta, GA") (Some (Views.PyInt 45))) TestWorld.w_routed
    = (Ok (Views.mkResponse (Views.RouteBody response_data) 200), w')
    /\ RouteResponse.route response_data
       = RouteData.mk (2092142 / (160934 # 100)) (144000 / 3600)
           (map Location.to_coords
              [Location.mk "New York, NY" 40 (-74);
               Location.mk "Philadelphia, PA" 40 (-74);
               Location.mk "Atlanta, GA" 40 (-74)])
    /\ RouteResponse.stops response_data = p :: rests ++ [d]
    /\ Stop.type p = "pickup" /\ Stop.type d = "dropoff"
    /\ Forall (fun s => Stop.type s = "rest") rests
    /\ HOSStatus.cycle_used (RouteResponse.hos_status response_data) = 45
    /\ HOSStatus.remaining_hours (RouteResponse.hos_status response_data) = 70 - 45.
Proof.
  eapply (post_succeeds_when_services_answer TestWorld.World TestWorld.env
            TestWorld.w_routed).
  - lia.
  - reflexivity.
  - reflexivity.
  - reflexivity.
  - reflexivity.
Defined.

End ViewsMore.

(** ** Rounding to binary64 *)

Module Float64Facts.
Import Float64.
Local Open Scope Q_scope.

Lemma pow2_pos (e : Z) : 0 < pow2 e.
Proof. apply Qpower_0_lt. reflexivity. Qed.

Lemma pow2_add (a b : Z) : pow2 (a + b) == pow2 a * pow2 b.
Proof. apply Qpower_plus. discriminate. Qed.

Lemma pow2_le (a b : Z) : (a <= b)%Z -> pow2 a <= pow2 b.
Proof. intros H. apply Qpower_le_compat_l; [exact H | discriminate]. Qed.

Lemma pow2_lt (a b : Z) : (a < b)%Z -> pow2 a < pow2 b.
Proof. intros H. apply Qpower_lt_compat_l; [exact H | reflexivity]. Qed.

Lemma pow2_lt_inv (a b : Z) : pow2 a < pow2 b -> (a < b)%Z.
Proof. intros H. apply (Qpower_lt_compat_l_inv 2); [exact H | reflexivity]. Qed.

Lemma pow2_Z (k : Z) : (0 <= k)%Z -> pow2 k == inject_Z (2 ^ k).
Proof. intros H. unfold pow2. now rewrite Zpower_Qpower. Qed.

Lemma pow2_split (a b : Z) : pow2 a == pow2 (a - b) * pow2 b.
Proof. rewrite <- pow2_add. now replace (a - b + b)%Z with a by lia. Qed.

(** The binade of a number other than 0. *)
Lemma exponent_spec (x : Q) :
  ~ x == 0 -> pow2 (exponent x) <= Qabs x /\ Qabs x < pow2 (exponent x + 1).
Proof.
  intros Hx. unfold exponent.
  set (n := Z.abs (Qnum x)). set (d := QDen x).
  assert (Hn : (0 < n)%Z).
  { subst n. destruct x as [[| p | p] q]; try reflexivity. exfalso. apply Hx. reflexivity. }
  assert (Hd : (0 < d)%Z) by reflexivity.
  assert (Habs : Qabs x == inject_Z n / inject_Z d).
  { destruct x as [xn xd]. unfold Qabs. subst n d. cbn [Qnum Qden]. apply Qmake_Qdiv. }
  pose proof (Z.log2_spec n Hn) as [Ln1 Ln2].
  pose proof (Z.log2_spec d Hd) as [Ld1 Ld2].
  pose proof (Z.log2_nonneg n) as Ln0. pose proof (Z.log2_nonneg d) as Ld0.
  set (ln := Z.log2 n) in *. set (ld := Z.log2 d) in *.
  assert (Qn1 : pow2 ln <= inject_Z n) by (rewrite pow2_Z by lia; now rewrite <- Zle_Qle).
  assert (Qn2 : inject_Z n < pow2 (ln + 1))
    by (rewrite pow2_Z by lia; rewrite <- Zlt_Qlt; unfold Z.succ in Ln2; lia).
  assert (Qd1 : pow2 ld <= inject_Z d) by (rewrite pow2_Z by lia; now rewrite <- Zle_Qle).
  assert (Qd2 : inject_Z d < pow2 (ld + 1))
    by (rewrite pow2_Z by lia; rewrite <- Zlt_Qlt; unfold Z.succ in Ld2; lia).
  assert (Qd0 : 0 < inject_Z d) by (change 0 with (inject_Z 0); now rewrite <- Zlt_Qlt).
  pose proof (pow2_pos ld) as Pld. pose proof (pow2_pos (ln - ld + 1)) as Pe1.
  pose proof (pow2_pos (ln - ld - 1)) as Pe0. pose proof (pow2_pos (ln - ld)) as Pe.
  assert (Hup : Qabs x < pow2 (ln - ld + 1)).
  { rewrite Habs. apply Qlt_shift_div_r; [exact Qd0|].
    apply Qlt_le_trans with (pow2 (ln + 1)); [exact Qn2|].
    rewrite (pow2_split (ln + 1) ld). replace (ln + 1 - ld)%Z with (ln - ld + 1)%Z by lia.
    apply Qmult_le_l; assumption. }
  assert (Hlo : pow2 (ln - ld - 1) <= Qabs x).
  { rewrite Habs. apply Qle_shift_div_l; [exact Qd0|].
    apply Qle_trans with (pow2 ln); [| exact Qn1].
    rewrite (pow2_split ln (ld + 1)). replace (ln - (ld + 1))%Z with (ln - ld - 1)%Z by lia.
    apply Qmult_le_l; [assumption | lra]. }
  destruct (Qltb_spec (Qabs x) (pow2 (ln - ld))) as [Hlt | Hge].
  - split; [exact Hlo|]. now replace (ln - ld - 1 + 1)%Z with (ln - ld)%Z by lia.
  - split; [lra | exact Hup].
Qed.

Lemma exponent_unique (x : Q) (e : Z) :
  pow2 e <= Qabs x -> Qabs x < pow2 (e + 1) -> exponent x = e.
Proof.
  intros H1 H2.
  assert (Hx : ~ x == 0).
  { intros E. pose proof (Qabs_wd x 0 E) as A. change (Qabs 0) with 0 in A.
    pose proof (pow2_pos e). lra. }
  destruct (exponent_spec x Hx) as [S1 S2].
  assert (e < exponent x + 1)%Z by (apply pow2_lt_inv; lra).
  assert (exponent x < e + 1)%Z by (apply pow2_lt_inv; lra).
  lia.
Qed.

Lemma exponent_comp (x y : Q) : ~ x == 0 -> x == y -> exponent x = exponent y.
Proof.
  intros Hx E. destruct (exponent_spec x Hx) as [S1 S2].
  pose proof (Qabs_wd x y E) as A.
  symmetry. apply exponent_unique; rewrite <- A; assumption.
Qed.

Lemma exponent_mono (x y : Q) : 0 < x -> x <= y -> (exponent x <= exponent y)%Z.
Proof.
  intros Hx Hxy.
  destruct (exponent_spec x) as [X1 X2]; [lra|].
  destruct (exponent_spec y) as [Y1 Y2]; [lra|].
  rewrite Qabs_pos in X1, X2, Y1, Y2 by lra.
  assert (exponent x < exponent y + 1)%Z by (apply pow2_lt_inv; lra). lia.
Qed.

Lemma ulp_pos (x : Q) : 0 < ulp x.
Proof. apply pow2_pos. Qed.

Lemma round_zero (x : Q) : x == 0 -> round x == 0.
Proof.
  intros E. unfold round.
  assert (H : x / ulp x == inject_Z 0).
  { generalize (ulp x). intros u. rewrite E. unfold Qdiv. change (inject_Z 0) with 0. ring. }
  rewrite (round_half_even_comp _ _ H), round_half_even_Z. change (inject_Z 0) with 0. ring.
Qed.

Lemma round_comp (x y : Q) : x == y -> round x == round y.
Proof.
  intros E. destruct (Qeq_dec x 0) as [Z | NZ].
  - rewrite (round_zero x Z), (round_zero y); [reflexivity | now rewrite <- E].
  - unfold round, ulp. rewrite <- (exponent_comp x y NZ E).
    generalize (pow2 (Z.max (exponent x) (-1022) - 52)). intros u.
    assert (H : x / u == y / u) by now rewrite E.
    now rewrite (round_half_even_comp _ _ H).
Qed.

Lemma round_nonneg (x : Q) : 0 <= x -> 0 <= round x.
Proof.
  intros H. unfold round. pose proof (ulp_pos x) as U.
  apply Qmult_le_0_compat; [| lra].
  change 0 with (inject_Z 0). rewrite <- Zle_Qle.
  rewrite <- (round_half_even_Z 0). apply round_half_even_mono.
  change (inject_Z 0) with 0. apply Qle_shift_div_l; [exact U | lra].
Qed.

(** Rounding stays within the binade, its upper end included. *)
Lemma round_binade (x : Q) :
  0 < x ->
  round x <= pow2 (Z.max (exponent x) (-1022) + 1)
  /\ ((-1022 <= exponent x)%Z -> pow2 (exponent x) <= round x).
Proof.
  intros Hx. destruct (exponent_spec x) as [X1 X2]; [lra|].
  rewrite Qabs_pos in X1, X2 by lra.
  unfold round, ulp. set (E := Z.max (exponent x) (-1022)).
  pose proof (pow2_pos (E - 52)) as U.
  split.
  - assert (H : x / pow2 (E - 52) <= inject_Z (2 ^ 53)).
    { apply Qle_shift_div_r; [exact U|]. rewrite <- (pow2_Z 53) by lia.
      rewrite <- pow2_add. replace (53 + (E - 52))%Z with (E + 1)%Z by lia.
      assert (pow2 (exponent x + 1) <= pow2 (E + 1)) by (apply pow2_le; lia). lra. }
    apply round_half_even_mono in H. rewrite round_half_even_Z in H.
    rewrite (pow2_split (E + 1) (E - 52)). replace (E + 1 - (E - 52))%Z with 53%Z by lia.
    apply Qmult_le_compat_r; [| lra]. rewrite (pow2_Z 53) by lia. now rewrite <- Zle_Qle.
  - intros Hn. assert (HE : E = exponent x) by lia. rewrite HE in *.
    assert (H : inject_Z (2 ^ 52) <= x / pow2 (exponent x - 52)).
    { apply Qle_shift_div_l; [exact U|]. rewrite <- (pow2_Z 52) by lia.
      rewrite <- pow2_add. now replace (52 + (exponent x - 52))%Z with (exponent x) by lia. }
    apply round_half_even_mono in H. rewrite round_half_even_Z in H.
    rewrite (pow2_split (exponent x) (exponent x - 52)).
    replace (exponent x - (exponent x - 52))%Z with 52%Z by lia.
    apply Qmult_le_compat_r; [| lra]. rewrite (pow2_Z 52) by lia. now rewrite <- Zle_Qle.
Qed.

(** Rounding is monotone. *)
Lemma round_mono (x y : Q) : 0 <= x -> x <= y -> round x <= round y.
Proof.
  intros Hx Hxy. destruct (Qeq_dec x 0) as [Z | NZ].
  - rewrite (round_zero x Z). apply round_nonneg. lra.
  - assert (Hx' : 0 < x) by (destruct (Qlt_le_dec 0 x); [assumption | exfalso; apply NZ; lra]).
    pose proof (exponent_mono x y Hx' Hxy) as He.
    destruct (Z.eq_dec (Z.max (exponent x) (-1022)) (Z.max (exponent y) (-1022)))
      as [Eq | Ne].
    + unfold round, ulp. rewrite <- Eq.
      set (u := pow2 (Z.max (exponent x) (-1022) - 52)).
      assert (U : 0 < u) by apply pow2_pos.
      apply Qmult_le_compat_r; [| lra]. rewrite <- Zle_Qle.
      apply round_half_even_mono. apply Qmult_le_compat_r; [exact Hxy|].
      apply Qlt_le_weak, Qinv_lt_0_compat, U.
    + destruct (round_binade x Hx') as [Bx _].
      destruct (round_binade y) as [_ By]; [lra|].
      assert (Hn : (-1022 <= exponent y)%Z) by lia.
      specialize (By Hn).
      assert (pow2 (Z.max (exponent x) (-1022) + 1) <= pow2 (exponent y))
        by (apply pow2_le; lia).
      lra.
Qed.

(** A significand of less than 53 bits at an exponent from -1074 on is a
    double. *)
Lemma round_representable (x : Q) (m k : Z) :
  (0 < m < 2 ^ 53)%Z -> (-1074 <= k)%Z -> x == inject_Z m * pow2 k -> round x == x.
Proof.
  intros [Hm0 Hm] Hk E.
  pose proof (pow2_pos k) as Pk.
  assert (Qm0 : 0 < inject_Z m) by (change 0 with (inject_Z 0); now rewrite <- Zlt_Qlt).
  assert (Qm : inject_Z m < pow2 53)
    by (rewrite (pow2_Z 53) by lia; now rewrite <- Zlt_Qlt).
  assert (Hx : 0 < x) by (rewrite E; apply Qmult_lt_0_compat; assumption).
  destruct (exponent_spec x) as [X1 _]; [lra|]. rewrite Qabs_pos in X1 by lra.
  assert (Hlt : x < pow2 (53 + k)).
  { rewrite E, pow2_add. apply Qmult_lt_compat_r; assumption. }
  assert (He : (exponent x < 53 + k)%Z) by (apply pow2_lt_inv; lra).
  unfold round, ulp. set (U := (Z.max (exponent x) (-1022) - 52)%Z).
  assert (HU : (U <= k)%Z) by lia.
  pose proof (pow2_pos U) as PU.
  assert (Hq : x / pow2 U == inject_Z (m * 2 ^ (k - U))).
  { rewrite E, inject_Z_mult, <- (pow2_Z (k - U)) by lia. rewrite (pow2_split k U).
    field. lra. }
  rewrite (round_half_even_comp _ _ Hq), round_half_even_Z.
  rewrite E, inject_Z_mult, <- (pow2_Z (k - U)) by lia. rewrite (pow2_split k U). ring.
Qed.

Lemma round_int (n : Z) : (0 <= n < 2 ^ 53)%Z -> round (inject_Z n) == inject_Z n.
Proof.
  intros [H0 H]. destruct (Z.eq_dec n 0) as [-> | NZ]; [now apply round_zero|].
  apply (round_representable _ n 0); [lia | lia |]. change (pow2 0) with 1. ring.
Qed.

(** A double from [2^(l + 52)] on is a multiple of [2^l]. *)
Lemma float_grid (x : Q) (l : Z) :
  round x == x -> pow2 (l + 52) <= x -> exists m : Z, x == inject_Z m * pow2 l.
Proof.
  intros Hr Hx. pose proof (pow2_pos (l + 52)) as P.
  destruct (exponent_spec x) as [X1 X2]; [lra|]. rewrite Qabs_pos in X1, X2 by lra.
  assert (Hex : (l + 52 < exponent x + 1)%Z) by (apply pow2_lt_inv; lra).
  unfold round, ulp in Hr. set (U := (Z.max (exponent x) (-1022) - 52)%Z) in *.
  exists (Py.round_half_even (x / pow2 U) * 2 ^ (U - l))%Z.
  rewrite inject_Z_mult, <- (pow2_Z (U - l)) by lia.
  rewrite <- Qmult_assoc, <- pow2_split. now symmetry.
Qed.

(** The largest double below [2^(e + 1)]. *)
Lemma float_below (x : Q) (e : Z) :
  round x == x -> 0 < x -> x < pow2 (e + 1) ->
  x <= pow2 (e + 1) - pow2 (e - 52).
Proof.
  intros Hr Hx Hlt.
  pose proof (pow2_pos (e - 52)) as P.
  assert (Hhalf : pow2 e <= pow2 (e + 1) - pow2 (e - 52)).
  { rewrite (pow2_add e 1). change (pow2 1) with 2.
    assert (pow2 (e - 52) <= pow2 e) by (apply pow2_le; lia). lra. }
  destruct (Qlt_le_dec x (pow2 e)) as [Hlow | Hhigh]; [lra|].
  destruct (float_grid x (e - 52) Hr) as [m Hm].
  { now replace (e - 52 + 52)%Z with e by lia. }
  assert (Hm53 : (m < 2 ^ 53)%Z).
  { rewrite Zlt_Qlt. rewrite <- (pow2_Z 53) by lia.
    apply Qmult_lt_r with (pow2 (e - 52)); [exact P|].
    rewrite <- Hm, <- pow2_add. now replace (53 + (e - 52))%Z with (e + 1)%Z by lia. }
  assert (Hm' : inject_Z m <= pow2 53 - 1).
  { rewrite (pow2_Z 53) by lia. change 1 with (inject_Z 1).
    unfold Qminus. rewrite <- inject_Z_opp, <- inject_Z_plus, <- Zle_Qle. lia. }
  rewrite Hm. rewrite (pow2_split (e + 1) (e - 52)).
  replace (e + 1 - (e - 52))%Z with 53%Z by lia.
  assert (inject_Z m * pow2 (e - 52) <= (pow2 53 - 1) * pow2 (e - 52))
    by (apply Qmult_le_compat_r; lra).
  lra.
Qed.

End Float64Facts.

(** ** More on the helpers *)

Module HelpersMore.
Import Float64 Float64Facts.

Lemma Qfloor_unique (x : Q) (f : Z) :
  (inject_Z f <= x)%Q -> (x < inject_Z (f + 1))%Q -> Qfloor x = f.
Proof.
  intros Hlo Hhi. pose proof (Qfloor_le x) as H1. pose proof (Qlt_floor x) as H2.
  apply Z.le_antisymm.
  - destruct (Z_le_gt_dec (Qfloor x) f) as [| Hgt]; [assumption|]. exfalso.
    assert (H : (inject_Z (f + 1) <= inject_Z (Qfloor x))%Q)
      by (rewrite <- Zle_Qle; lia).
    lra.
  - destruct (Z_le_gt_dec f (Qfloor x)) as [| Hgt]; [assumption|]. exfalso.
    assert (H : (inject_Z (Qfloor x + 1) <= inject_Z f)%Q)
      by (rewrite <- Zle_Qle; lia).
    lra.
Qed.

Lemma round_half_even_error (x : Q) :
  (inject_Z (Py.round_half_even x) - x <= 1 # 2)%Q
  /\ (x - inject_Z (Py.round_half_even x) <= 1 # 2)%Q.
Proof.
  pose proof (Qfloor_le x) as H1. pose proof (Qlt_floor x) as H2.
  rewrite inject_Z_plus in H2. change (inject_Z 1) with 1%Q in H2.
  unfold Py.round_half_even.
  destruct (Qltb_spec (x - inject_Z (Qfloor x)) (1 # 2)) as [A | A]; [split; lra|].
  destruct (Qltb_spec (1 # 2) (x - inject_Z (Qfloor x))) as [B | B].
  - rewrite inject_Z_plus. change (inject_Z 1) with 1%Q. split; lra.
  - destruct (Z.even (Qfloor x)); [split; lra|].
    rewrite inject_Z_plus. change (inject_Z 1) with 1%Q. split; lra.
Qed.

(** *** The next full hour *)

(** X18.  [time_to_next_hour] returns a full hour that lies strictly
    after the given time and at most one hour after it; a time that is
    itself a full hour is moved by a whole hour. *)
Theorem time_to_next_hour_is_next_full_hour :
  forall dt : datetime,
    Helpers.time_to_next_hour dt mod US_PER_HOUR = 0
    /\ dt < Helpers.time_to_next_hour dt <= dt + US_PER_HOUR
    /\ (dt mod US_PER_HOUR = 0 -> Helpers.time_to_next_hour dt = dt + US_PER_HOUR).
Proof.
  intros dt. unfold Helpers.time_to_next_hour.
  change (timedelta_hours 1) with 3600000000. unfold US_PER_HOUR.
  pose proof (Z.div_mod dt 3600000000 ltac:(lia)) as Hdm.
  pose proof (Z.mod_pos_bound dt 3600000000 ltac:(lia)) as Hb.
  split; [| split].
  - replace (dt / 3600000000 * 3600000000 + 3600000000)
      with ((dt / 3600000000 + 1) * 3600000000) by lia.
    apply Z.mod_mul. lia.
  - lia.
  - intros H0. lia.
Qed.

(** The theorem at 17:00:00 of the test world. *)
Lemma time_to_next_hour_witness :
  Helpers.time_to_next_hour (20000 * US_PER_DAY + 17 * US_PER_HOUR)
  = 20000 * US_PER_DAY + 17 * US_PER_HOUR + US_PER_HOUR.
Proof.
  apply (time_to_next_hour_is_next_full_hour (20000 * US_PER_DAY + 17 * US_PER_HOUR)).
  reflexivity.
Defined.

(** *** Rounding coordinates *)

Lemma round6_fixed (x : Q) : Helpers.round6 (Helpers.round6 x) = Helpers.round6 x.
Proof.
  unfold Helpers.round6.
  set (n := Py.round_half_even (x * 1000000)).
  assert (E : Py.round_half_even (inject_Z n / 1000000 * 1000000) = n).
  { rewrite (round_half_even_comp _ (inject_Z n)) by field.
    apply round_half_even_Z. }
  now rewrite E.
Qed.

(** X19.  [format_coordinates] keeps the number of coordinates, moves
    each component by at most half a millionth, and changes nothing when
    applied a second time. *)
Theorem format_coordinates_rounds_once :
  forall coordinates : list (Q * Q),
    List.length (Helpers.format_coordinates coordinates) = List.length coordinates
    /\ Helpers.format_coordinates (Helpers.format_coordinates coordinates)
       = Helpers.format_coordinates coordinates
    /\ Forall2 (fun c r =>
                  (Qabs (fst r - fst c) <= 1 # 2000000)%Q
                  /\ (Qabs (snd r - snd c) <= 1 # 2000000)%Q)
               coordinates (Helpers.format_coordinates coordinates).
Proof.
  intros coordinates. unfold Helpers.format_coordinates.
  split; [apply length_map|]. split.
  - rewrite map_map. apply map_ext. intros [x y]. cbn [fst snd].
    now rewrite !round6_fixed.
  - assert (Hround : forall x, (Qabs (Helpers.round6 x - x) <= 1 # 2000000)%Q).
    { intros x. unfold Helpers.round6.
      destruct (round_half_even_error (x * 1000000)) as [H1 H2].
      apply Qabs_Qle_condition. split.
      - assert (E : (inject_Z (Py.round_half_even (x * 1000000)) / 1000000 - x
                     == (inject_Z (Py.round_half_even (x * 1000000)) - x * 1000000)
                        / 1000000)%Q) by field.
        rewrite E. apply Qle_shift_div_l; [reflexivity|].
        change (- (1 # 2000000) * 1000000)%Q with (- (1000000 # 2000000))%Q.
        assert (Eh : ((1000000 # 2000000) == 1 # 2)%Q) by reflexivity.
        lra.
      - assert (E : (inject_Z (Py.round_half_even (x * 1000000)) / 1000000 - x
                     == (inject_Z (Py.round_half_even (x * 1000000)) - x * 1000000)
                        / 1000000)%Q) by field.
        rewrite E. apply Qle_shift_div_r; [reflexivity|].
        assert (Eh : ((1 # 2000000) * 1000000 == 1 # 2)%Q) by reflexivity.
        lra. }
    induction coordinates as [| [x y] l IH]; cbn [map]; constructor.
    + cbn [fst snd]. split; apply Hround.
    + exact IH.
Qed.

(** *** Thinning a coordinate list *)

Lemma every_nth_incl {A : Type} (step : nat) (l : list A) :
  forall (skip : nat) (a : A), In a (Helpers.every_nth step skip l) -> In a l.
Proof.
  induction l as [| b l IH]; intros skip a H; [contradiction|].
  destruct skip as [| skip]; cbn [Helpers.every_nth] in H.
  - destruct H as [-> | H]; [now left | right; eauto].
  - right. eauto.
Qed.

Lemma every_nth_length_le {A : Type} (step : nat) (l : list A) :
  forall skip : nat, (List.length (Helpers.every_nth step skip l) <= List.length l)%nat.
Proof.
  induction l as [| b l IH]; intros skip; [cbn; lia|].
  destruct skip as [| skip]; cbn [Helpers.every_nth List.length].
  - specialize (IH (Nat.pred step)). lia.
  - specialize (IH skip). lia.
Qed.

(** Between two kept elements lie [step - 1] dropped ones. *)
Lemma every_nth_length {A : Type} (step : nat) (l : list A) :
  (1 <= step)%nat ->
  forall skip : nat,
    List.length (Helpers.every_nth step skip l) = 0%nat
    \/ (List.length (Helpers.every_nth step skip l) * step + skip + 1
         <= List.length l + step)%nat.
Proof.
  intros Hstep. induction l as [| b l IH]; intros skip; [now left|].
  destruct skip as [| skip]; cbn [Helpers.every_nth List.length].
  - right. destruct (IH (Nat.pred step)) as [E | H].
    + rewrite E. lia.
    + replace (Nat.pred step + 1)%nat with step in H by lia. lia.
  - destruct (IH skip) as [E | H]; [now left | right; lia].
Qed.

(** X20.  For a positive [max_points], [chunk_coordinates] returns the
    list itself when it is short enough and otherwise a thinned list that
    keeps the first coordinate, holds only coordinates of the list and at
    most twice [max_points] of them.  With [max_points = 0] a non-empty
    list raises [ZeroDivisionError]; with a negative [max_points] the
    empty list raises the zero-step [ValueError] and a non-empty list is
    returned thinned in reverse order, beginning with its last
    coordinate. *)
Theorem chunk_coordinates_thins_the_list :
  forall (coordinates : list (Q * Q)) (max_points : Z),
    (0 < max_points ->
     exists l : list (Q * Q),
       Helpers.chunk_coordinates coordinates max_points = Helpers.Chunk l
       /\ incl l coordinates
       /\ hd_error l = hd_error coordinates
       /\ (Z.of_nat (List.length coordinates) <= max_points -> l = coordinates)
       /\ (List.length l <= List.length coordinates)%nat
       /\ Z.of_nat (List.length l) <= 2 * max_points)
    /\ (coordinates <> [] ->
        Helpers.chunk_coordinates coordinates 0 = Helpers.ZeroDivisionError)
    /\ (max_points < 0 ->
        Helpers.chunk_coordinates [] max_points = Helpers.SliceStepZero)
    /\ (max_points < 0 -> coordinates <> [] ->
        exists l : list (Q * Q),
          Helpers.chunk_coordinates coordinates max_points = Helpers.Chunk l
          /\ hd_error l = Some (last coordinates (0%Q, 0%Q))).
Proof.
  intros coordinates max_points. split; [| split; [| split]].
  - intros Hmax. unfold Helpers.chunk_coordinates.
    set (len := Z.of_nat (List.length coordinates)).
    destruct (Z.leb_spec len max_points) as [Hshort | Hlong].
    + exists coordinates. split; [reflexivity|]. split; [apply incl_refl|].
      split; [reflexivity|]. split; [reflexivity|]. split; [lia|]. subst len. lia.
    + destruct (Z.eqb_spec max_points 0); [lia|].
      pose proof (Z.div_mod len max_points ltac:(lia)) as Hdm.
      pose proof (Z.mod_pos_bound len max_points Hmax) as Hb.
      assert (Hs : 1 <= len / max_points) by nia.
      destruct (Z.eqb_spec (len / max_points) 0); [lia|].
      destruct (Z.ltb_spec 0 (len / max_points)); [| lia].
      eexists. split; [reflexivity|]. split.
      { intros a Ha. exact (every_nth_incl _ _ _ _ Ha). }
      split.
      { destruct coordinates; reflexivity. }
      split; [intros; lia|]. split; [apply every_nth_length_le|].
      destruct (every_nth_length (Z.to_nat (len / max_points)) coordinates
                  ltac:(lia) 0) as [E | Hcount].
      * rewrite E. lia.
      * set (k := List.length (Helpers.every_nth (Z.to_nat (len / max_points)) 0
                                                 coordinates)) in *.
        assert (Hk : Z.of_nat k * (len / max_points) + 1 <= len + len / max_points).
        { subst len. apply Nat2Z.inj_le in Hcount.
          rewrite !Nat2Z.inj_add, Nat2Z.inj_mul, Z2Nat.id in Hcount by lia. lia. }
        nia.
  - intros Hne. unfold Helpers.chunk_coordinates.
    destruct coordinates as [| c cs]; [congruence|].
    destruct (Z.leb_spec (Z.of_nat (List.length (c :: cs))) 0) as [H |];
      [cbn [List.length] in H; lia | reflexivity].
  - intros Hneg. unfold Helpers.chunk_coordinates. cbn [List.length Z.of_nat].
    destruct (Z.leb_spec 0 max_points); [lia|].
    destruct (Z.eqb_spec max_points 0); [lia|].
    rewrite Z.div_0_l by lia. reflexivity.
  - intros Hneg Hne. unfold Helpers.chunk_coordinates.
    set (len := Z.of_nat (List.length coordinates)).
    assert (Hlen : 0 < len).
    { subst len. destruct coordinates; [congruence | cbn [List.length]; lia]. }
    destruct (Z.leb_spec len max_points); [lia|].
    destruct (Z.eqb_spec max_points 0); [lia|].
    pose proof (Z.div_mod len max_points ltac:(lia)) as Hdm.
    pose proof (Z.mod_neg_bound len max_points Hneg) as Hb.
    assert (Hs : len / max_points < 0) by nia.
    destruct (Z.eqb_spec (len / max_points) 0); [lia|].
    destruct (Z.ltb_spec 0 (len / max_points)); [lia|].
    eexists. split; [reflexivity|].
    destruct (exists_last Hne) as [l' [a E]]. rewrite E, rev_unit, last_last.
    reflexivity.
Qed.

(** The theorem on three coordinates and two points. *)
Lemma chunk_coordinates_witness :
  exists l : list (Q * Q),
    Helpers.chunk_coordinates TestWorld.coords3 2 = Helpers.Chunk l
    /\ incl l TestWorld.coords3
    /\ hd_error l = hd_error TestWorld.coords3
    /\ (Z.of_nat (List.length TestWorld.coords3) <= 2 -> l = TestWorld.coords3)
    /\ (List.length l <= List.length TestWorld.coords3)%nat
    /\ Z.of_nat (List.length l) <= 2 * 2.
Proof.
  apply (chunk_coordinates_thins_the_list TestWorld.coords3 2). lia.
Defined.

(** Thinning 5 coordinates to at most 3 points returns all 5. *)
Example chunk_may_exceed_max_points :
  Helpers.chunk_coordinates
    [(0%Q, 0%Q); (1%Q, 0%Q); (2%Q, 0%Q); (3%Q, 0%Q); (4%Q, 0%Q)] 3
  = Helpers.Chunk [(0%Q, 0%Q); (1%Q, 0%Q); (2%Q, 0%Q); (3%Q, 0%Q); (4%Q, 0%Q)].
Proof. reflexivity. Qed.

(** *** Arrival within the driving hours *)

(** X21.  An arrival computed for a drive of at most 11 hours lies within
    the default 11 driving hours of its start, and one computed for a
    drive of 11 hours and a microsecond or more does not, whatever the
    start time. *)
Theorem arrival_within_driving_hours :
  forall (start_time : datetime) (duration_hours : Q),
    ((duration_hours <= 11)%Q ->
     Helpers.is_within_driving_hours
       (Helpers.calculate_arrival_time start_time duration_hours) start_time 11 = true)
    /\ ((11 + (1 # 3600000000) <= duration_hours)%Q ->
        Helpers.is_within_driving_hours
          (Helpers.calculate_arrival_time start_time duration_hours) start_time 11
        = false).
Proof.
  intros start d.
  unfold Helpers.is_within_driving_hours, Helpers.calculate_arrival_time.
  replace (start + timedelta_hours d - start) with (timedelta_hours d) by lia.
  split; intros H.
  - apply LogFacts.timedelta_mono in H.
    change (timedelta_hours 11) with 39600000000 in H.
    destruct (Qleb_spec (total_hours (timedelta_hours d)) 11) as [| Hn];
      [reflexivity|].
    exfalso. apply Hn. unfold total_hours. apply Qle_shift_div_r; [reflexivity|].
    change (11 * inject_Z US_PER_HOUR)%Q with (inject_Z 39600000000).
    now rewrite <- Zle_Qle.
  - apply LogFacts.timedelta_mono in H.
    change (timedelta_hours (11 + (1 # 3600000000))) with 39600000001 in H.
    destruct (Qleb_spec (total_hours (timedelta_hours d)) 11) as [Hle |];
      [| reflexivity].
    exfalso. unfold total_hours in Hle.
    assert (Hq : (inject_Z (timedelta_hours d) <= 11 * inject_Z US_PER_HOUR)%Q).
    { apply (Qmult_le_compat_r _ _ (inject_Z US_PER_HOUR)) in Hle; [| discriminate].
      assert (E : (inject_Z (timedelta_hours d) / inject_Z US_PER_HOUR
                   * inject_Z US_PER_HOUR == inject_Z (timedelta_hours d))%Q)
        by (field; discriminate).
      lra. }
    change (11 * inject_Z US_PER_HOUR)%Q with (inject_Z 39600000000) in Hq.
    rewrite <- Zle_Qle in Hq. lia.
Qed.

(** The theorem on a drive of 8 hours and on one of 12 hours. *)
Lemma arrival_within_driving_hours_witness :
  Helpers.is_within_driving_hours (Helpers.calculate_arrival_time 0 8) 0 11 = true
  /\ Helpers.is_within_driving_hours (Helpers.calculate_arrival_time 0 12) 0 11 = false.
Proof.
  split.
  - apply (arrival_within_driving_hours 0 8). vm_compute. discriminate.
  - apply (arrival_within_driving_hours 0 12). vm_compute. discriminate.
Defined.

(** *** Printing a duration *)

Lemma Qfloor_sub_Z (x : Q) (n : Z) : Qfloor (x - inject_Z n) = Qfloor x - n.
Proof.
  pose proof (Qfloor_le x) as H1. pose proof (Qlt_floor x) as H2.
  apply Qfloor_unique.
  - unfold Z.sub. rewrite inject_Z_plus, inject_Z_opp. lra.
  - replace (Qfloor x - n + 1) with (Qfloor x + 1 + - n) by lia.
    rewrite inject_Z_plus, inject_Z_opp. lra.
Qed.

Lemma int_nonneg (x : Q) : (0 <= x)%Q -> Py.int x = Qfloor x.
Proof. intros H. unfold Py.int. now rewrite Qltb_false. Qed.

Lemma Qfloor_range (x : Q) (a b : Z) :
  (inject_Z a <= x)%Q -> (x < inject_Z b)%Q -> a <= Qfloor x < b.
Proof.
  intros Ha Hb. pose proof (Qfloor_le x) as H1. split.
  - apply Qfloor_resp_le in Ha. now rewrite Qfloor_Z in Ha.
  - rewrite Zlt_Qlt. lra.
Qed.

(** Rounding a product moves its whole part by at most one, upwards. *)
Lemma floor_of_rounded (x : Q) :
  (0 <= x)%Q -> (x < 60)%Q ->
  Qfloor x <= Qfloor (round x) <= Qfloor x + 1.
Proof.
  intros H0 H60. pose proof (Qfloor_le x) as F1. pose proof (Qlt_floor x) as F2.
  destruct (Qfloor_range x 0 60) as [K0 K60];
    [change (inject_Z 0) with 0%Q; lra | change (inject_Z 60) with 60%Q; lra |].
  assert (R1 : (inject_Z (Qfloor x) <= round x)%Q).
  { rewrite <- (round_int (Qfloor x)) by lia. apply round_mono; [| exact F1].
    change 0%Q with (inject_Z 0). rewrite <- Zle_Qle. lia. }
  assert (R2 : (round x <= inject_Z (Qfloor x + 1))%Q).
  { rewrite <- (round_int (Qfloor x + 1)) by lia. apply round_mono; lra. }
  split.
  - apply Qfloor_resp_le in R1. now rewrite Qfloor_Z in R1.
  - apply Qfloor_resp_le in R2. now rewrite Qfloor_Z in R2.
Qed.

(** The product of 60 and a double below 1 is rounded to less than 60. *)
Lemma minutes_below_60 (x : Q) (l : Z) :
  (0 <= x)%Q -> (x <= 1 - pow2 l)%Q -> (-53 <= l)%Z ->
  (round (x * 60) < 60)%Q.
Proof.
  intros H0 H1 Hl.
  assert (Hp : (pow2 (-53) <= pow2 l)%Q) by (apply pow2_le; lia).
  assert (Hc : (round ((1 - pow2 (-53)) * 60) < 60)%Q) by (vm_compute; reflexivity).
  assert (Hm : (round (x * 60) <= round ((1 - pow2 (-53)) * 60))%Q)
    by (apply round_mono; lra).
  lra.
Qed.

Lemma no_overflow (x : Q) : (0 <= x)%Q -> (x <= 64)%Q -> overflows x = false.
Proof.
  intros H0 H64. unfold overflows. rewrite Qabs_pos by exact H0.
  assert (Hp : (pow2 6 < pow2 1024)%Q) by (apply pow2_lt; lia).
  change (pow2 6) with 64%Q in Hp.
  destruct (Qleb_spec (pow2 1024) x); [lra | reflexivity].
Qed.

(** A double from 1 up to 24 less its whole part is a double. *)
Lemma fraction_is_float (hours : Q) :
  (round hours == hours)%Q -> (1 <= hours)%Q ->
  (round (hours - inject_Z (Qfloor hours)) == hours - inject_Z (Qfloor hours))%Q
  /\ (hours - inject_Z (Qfloor hours) <= 1 - pow2 (-52))%Q.
Proof.
  intros Hr H1. pose proof (Qfloor_le hours) as F1. pose proof (Qlt_floor hours) as F2.
  rewrite inject_Z_plus in F2. change (inject_Z 1) with 1%Q in F2.
  destruct (float_grid hours (-52) Hr) as [M HM]; [change (pow2 (-52 + 52)) with 1%Q; lra|].
  set (h := Qfloor hours) in *. set (m := M - h * 2 ^ 52).
  assert (P : (0 < pow2 (-52))%Q) by apply pow2_pos.
  assert (P1 : (pow2 52 * pow2 (-52) == 1)%Q) by (rewrite <- pow2_add; reflexivity).
  assert (Hf : (hours - inject_Z h == inject_Z m * pow2 (-52))%Q).
  { subst m. unfold Z.sub. rewrite inject_Z_plus, inject_Z_opp, inject_Z_mult.
    rewrite <- (pow2_Z 52) by lia. rewrite HM.
    setoid_replace (inject_Z h) with (inject_Z h * (pow2 52 * pow2 (-52)))%Q at 1
      by (rewrite P1; ring).
    ring. }
  assert (Hm0 : 0 <= m).
  { rewrite Zle_Qle. change (inject_Z 0) with 0%Q.
    apply (Qmult_le_r _ _ (pow2 (-52))); [exact P|]. rewrite <- Hf. lra. }
  assert (Hm1 : m < 2 ^ 52).
  { rewrite Zlt_Qlt. rewrite <- (pow2_Z 52) by lia.
    apply (Qmult_lt_r _ _ (pow2 (-52))); [exact P|]. rewrite <- Hf, P1. lra. }
  split.
  - destruct (Z.eq_dec m 0) as [E0 | N0].
    + assert (Z0 : (hours - inject_Z h == 0)%Q) by (rewrite Hf, E0; ring).
      rewrite (round_zero _ Z0). now symmetry.
    + apply (round_representable _ m (-52)); [lia | lia | exact Hf].
  - rewrite Hf.
    assert (Hm' : (inject_Z m <= pow2 52 - 1)%Q).
    { rewrite (pow2_Z 52) by lia. change 1%Q with (inject_Z 1).
      unfold Qminus. rewrite <- inject_Z_opp, <- inject_Z_plus, <- Zle_Qle. lia. }
    assert ((inject_Z m * pow2 (-52) <= (pow2 52 - 1) * pow2 (-52))%Q)
      by (apply Qmult_le_compat_r; lra).
    lra.
Qed.

(** X22.  [format_duration] on a float, with the rounding of binary64.
    Below one hour it prints whole minutes, from one hour up to a day
    the whole hours and the minutes beyond them (left out when zero).
    The minutes printed are the whole minutes of the exact duration or
    one more, because the product with 60 is rounded before it is
    truncated, and they never reach 60.  From a day on, for a duration
    below 2^53 hours, it prints the whole days and the whole hours beyond
    them, both exact. *)
Theorem format_duration_parts :
  forall hours : Q,
    (round hours == hours)%Q ->
    ((0 <= hours)%Q -> (hours < 1)%Q ->
     exists minutes : Z,
       Helpers.format_duration hours
       = Ok (Py.str_of_Z minutes ++ " minutes")%string
       /\ Qfloor (hours * 60) <= minutes <= Qfloor (hours * 60) + 1
       /\ 0 <= minutes <= 59)
    /\ ((1 <= hours)%Q -> (hours < 24)%Q ->
        exists h m : Z,
          Helpers.format_duration hours
          = Ok (if (m =? 0)%Z then Py.str_of_Z h ++ " hours"
                else Py.str_of_Z h ++ " hours " ++ Py.str_of_Z m ++ " minutes")%string
          /\ h = Qfloor hours /\ 1 <= h <= 23
          /\ Qfloor (hours * 60) <= 60 * h + m <= Qfloor (hours * 60) + 1
          /\ 0 <= m <= 59)
    /\ ((24 <= hours)%Q -> (hours < inject_Z (2 ^ 53))%Q ->
        exists d r : Z,
          Helpers.format_duration hours
          = Ok (Py.str_of_Z d ++ " days " ++ Py.str_of_Z r ++ " hours")%string
          /\ d = Qfloor (hours / 24) /\ 0 <= r < 24
          /\ 24 * d + r = Qfloor hours).
Proof.
  intros hours Hr. split; [| split].
  - intros H0 H1. unfold Helpers.format_duration. rewrite Qltb_true by exact H1.
    assert (Hle : (hours <= 1 - pow2 (-53))%Q).
    { destruct (Qeq_dec hours 0) as [Z | NZ].
      - rewrite Z. vm_compute. discriminate.
      - apply (float_below hours (-1) Hr); [| exact H1].
        destruct (Qlt_le_dec 0 hours); [assumption | exfalso; apply NZ; lra]. }
    pose proof (minutes_below_60 hours (-53) H0 Hle ltac:(lia)) as Hlt.
    pose proof (round_nonneg (hours * 60) ltac:(lra)) as Hnn.
    rewrite (no_overflow _ Hnn) by lra.
    rewrite (int_nonneg _ Hnn).
    exists (Qfloor (round (hours * 60))). split; [reflexivity|].
    split; [apply floor_of_rounded; lra|].
    destruct (Qfloor_range (round (hours * 60)) 0 60);
      [exact Hnn | exact Hlt | lia].
  - intros H1 H24. unfold Helpers.format_duration.
    rewrite (Qltb_false hours 1) by exact H1. rewrite Qltb_true by exact H24.
    rewrite (int_nonneg hours) by lra.
    pose proof (Qfloor_le hours) as F1. pose proof (Qlt_floor hours) as F2.
    rewrite inject_Z_plus in F2. change (inject_Z 1) with 1%Q in F2.
    destruct (fraction_is_float hours Hr H1) as [Hfr Hfle].
    set (h := Qfloor hours) in *. set (f := (hours - inject_Z h)%Q) in *.
    assert (Hf0 : (0 <= f)%Q) by (unfold f; lra).
    assert (Hf1 : (f < 1)%Q) by (unfold f; lra).
    assert (Hprod : (round (round f * 60) == round (f * 60))%Q)
      by (apply round_comp; now rewrite Hfr).
    pose proof (minutes_below_60 f (-52) Hf0 Hfle ltac:(lia)) as Hlt.
    pose proof (round_nonneg (f * 60) ltac:(lra)) as Hnn.
    assert (Hnn' : (0 <= round (round f * 60))%Q) by (rewrite Hprod; exact Hnn).
    rewrite (int_nonneg _ Hnn'). rewrite (Qfloor_comp _ _ Hprod).
    exists h, (Qfloor (round (f * 60))). split.
    { destruct (Qfloor (round (f * 60)) =? 0); reflexivity. }
    split; [reflexivity|]. split.
    { destruct (Qfloor_range hours 1 24); [exact H1 | exact H24 | lia]. }
    assert (E : (f * 60 == hours * 60 - inject_Z (60 * h))%Q).
    { subst f. rewrite inject_Z_mult. change (inject_Z 60) with 60%Q. ring. }
    pose proof (floor_of_rounded (f * 60) ltac:(lra) ltac:(lra)) as Hfl.
    rewrite (Qfloor_comp _ _ E), Qfloor_sub_Z in Hfl.
    split; [lia|].
    destruct (Qfloor_range (round (f * 60)) 0 60); [exact Hnn | exact Hlt | lia].
  - intros H24 Hbig. unfold Helpers.format_duration.
    rewrite (Qltb_false hours 1) by lra. rewrite (Qltb_false hours 24) by exact H24.
    pose proof (Qfloor_le (hours / 24)) as F1. pose proof (Qlt_floor (hours / 24)) as F2.
    rewrite inject_Z_plus in F2. change (inject_Z 1) with 1%Q in F2.
    set (k := Qfloor (hours / 24)) in *.
    assert (Hh : (hours == hours / 24 * 24)%Q) by field.
    assert (Hk1 : 1 <= k).
    { assert (H : (inject_Z 1 <= hours / 24)%Q).
      { change (inject_Z 1) with 1%Q. apply Qle_shift_div_l; [reflexivity | lra]. }
      apply Qfloor_resp_le in H. now rewrite Qfloor_Z in H. }
    assert (Hkq : (1 <= inject_Z k)%Q).
    { change 1%Q with (inject_Z 1). now rewrite <- Zle_Qle. }
    assert (Hfmod : (fmod hours 24 == hours - inject_Z (24 * k))%Q).
    { unfold fmod. rewrite int_nonneg by lra. fold k.
      rewrite inject_Z_mult. reflexivity. }
    assert (Hm0 : (0 <= fmod hours 24)%Q).
    { rewrite Hfmod, inject_Z_mult. change (inject_Z 24) with 24%Q. lra. }
    assert (Hm24 : (fmod hours 24 < 24)%Q).
    { rewrite Hfmod, inject_Z_mult. change (inject_Z 24) with 24%Q. lra. }
    assert (Hkbig : 24 * k < 2 ^ 53).
    { rewrite Zlt_Qlt. rewrite inject_Z_mult. change (inject_Z 24) with 24%Q. lra. }
    assert (Hsign : negb (Qeq_bool (fmod hours 24) 0)
                    && negb (Bool.eqb (Py.Qltb 24 0) (Py.Qltb (fmod hours 24) 0)) = false).
    { rewrite (Qltb_false (fmod hours 24) 0) by exact Hm0.
      change (Py.Qltb 24 0) with false. cbn. apply andb_false_r. }
    assert (Hdiv : (round (round (hours - fmod hours 24) / 24) == inject_Z k)%Q).
    { assert (E1 : (hours - fmod hours 24 == inject_Z (24 * k))%Q) by (rewrite Hfmod; ring).
      assert (E2 : (round (hours - fmod hours 24) == inject_Z (24 * k))%Q).
      { rewrite (round_comp _ _ E1). apply round_int. lia. }
      assert (E3 : (round (hours - fmod hours 24) / 24 == inject_Z k)%Q).
      { rewrite E2, inject_Z_mult. change (inject_Z 24) with 24%Q. field. }
      rewrite (round_comp _ _ E3). apply round_int. lia. }
    assert (Hfloordiv : (float_floordiv hours 24 == inject_Z k)%Q).
    { unfold float_floordiv. rewrite Hsign.
      set (div := round (round (hours - fmod hours 24) / 24)) in *.
      assert (Hnz : Qeq_bool div 0 = false).
      { destruct (Qeq_bool div 0) eqn:Eb; [| reflexivity].
        apply Qeq_bool_eq in Eb. rewrite Hdiv in Eb. lra. }
      rewrite Hnz.
      assert (Hfl : Qfloor div = k) by (rewrite (Qfloor_comp _ _ Hdiv); apply Qfloor_Z).
      rewrite Hfl.
      assert (Hz : (round (div - inject_Z k) == 0)%Q)
        by (apply round_zero; rewrite Hdiv; ring).
      rewrite Qltb_false by (rewrite Hz; discriminate). reflexivity. }
    assert (Hfloatmod : float_mod hours 24 = fmod hours 24).
    { unfold float_mod. now rewrite Hsign. }
    rewrite Hfloatmod.
    rewrite (int_nonneg (float_floordiv hours 24)) by (rewrite Hfloordiv; lra).
    rewrite (Qfloor_comp _ _ Hfloordiv), Qfloor_Z.
    rewrite (int_nonneg _ Hm0).
    exists k, (Qfloor (fmod hours 24)). split; [reflexivity|]. split; [reflexivity|].
    split.
    { apply Qfloor_range; [exact Hm0 | exact Hm24]. }
    rewrite (Qfloor_comp _ _ Hfmod), Qfloor_sub_Z. lia.
Qed.

(** The theorem on the double nearest to 1.7: one hour and 42 minutes,
    where the exact product has 41 whole minutes. *)
Lemma format_duration_parts_witness :
  exists h m : Z,
    Helpers.format_duration (round (17 # 10))
    = Ok (if (m =? 0)%Z then Py.str_of_Z h ++ " hours"
          else Py.str_of_Z h ++ " hours " ++ Py.str_of_Z m ++ " minutes")%string
    /\ h = Qfloor (round (17 # 10)) /\ 1 <= h <= 23
    /\ Qfloor (round (17 # 10) * 60) <= 60 * h + m <= Qfloor (round (17 # 10) * 60) + 1
    /\ 0 <= m <= 59.
Proof.
  assert (H : (round (round (17 # 10)) == round (17 # 10))%Q) by (vm_compute; reflexivity).
  apply (proj1 (proj2 (format_duration_parts (round (17 # 10)) H))).
  - vm_compute. discriminate.
  - vm_compute. reflexivity.
Defined.

Example format_duration_examples :
  Helpers.format_duration (round (5 # 10)) = Ok "30 minutes"
  /\ Helpers.format_duration (round (1 # 60)) = Ok "1 minutes"
  /\ Helpers.format_duration 3 = Ok "3 hours"
  /\ Helpers.format_duration (round (17 # 10)) = Ok "1 hours 42 minutes"
  /\ Helpers.format_duration (round (25 # 10)) = Ok "2 hours 30 minutes"
  /\ Helpers.format_duration (round (265 # 10)) = Ok "1 days 2 hours"
  /\ Helpers.format_duration (round (- (5 # 10))) = Ok "-30 minutes"
  /\ Helpers.format_duration (- pow2 1023)
     = Raise (mkExn OverflowError "cannot convert float infinity to integer").
Proof. repeat split; vm_compute; reflexivity. Qed.

End HelpersMore.
